(** * Voice cloning service: registry, preprocessing and synthesis adapter

    A shallow embedding of [models/voice_cloner.py] (class [VoiceCloner]) and
    of the request handlers of [app.py], together with the properties of the
    specification that concern them.

    Python values are modelled as follows.
    - [str] is [string]; an f-string is a concatenation; where the characters
      of a text matter, its bytes are read as code points by [str_chars].
    - [int] is [Z]; [len(..)] is [Z.of_nat (length ..)].
    - [float] request parameters and durations are rationals ([Q]); audio
      samples are opaque payload, also carried as [Q].
    - the dictionary [self.voices] is an insertion-ordered association list.
    - the file system is a finite map from path strings to nodes.
    - exceptions are values of [exn]; code that may raise returns [result].
    - methods that read or write [self], the disk or the log run in the
      state-and-exception monad [M]; the state survives a raised exception,
      as it does in Python.
    - the third-party libraries (librosa, soundfile, torchaudio, torch, the
      XTTS model, uuid) are parameters collected in the record [Externals]. *)

From Stdlib Require Import ZArith QArith Ascii.
From stdpp Require Import base option list strings gmap fin_maps pretty.

Local Open Scope Z_scope.

(** ** Exceptions and results *)

Inductive exn : Type :=
| PyExc (cls : string) (msg : string)
| HTTPException (status_code : Z) (detail : string).

Definition ZeroDivisionError : exn := PyExc "ZeroDivisionError" "division by zero".
Definition ValueError (msg : string) : exn := PyExc "ValueError" msg.
Definition FileNotFoundError (p : string) : exn := PyExc "FileNotFoundError" p.
Definition FileExistsError (p : string) : exn := PyExc "FileExistsError" p.
Definition IsADirectoryError (p : string) : exn := PyExc "IsADirectoryError" p.
Definition NotADirectoryError (p : string) : exn := PyExc "NotADirectoryError" p.

(** [str(e)]: the message of a built-in exception; Starlette prints an
    [HTTPException] as its status code, a colon and its detail. *)
Definition exn_str (e : exn) : string :=
  match e with
  | PyExc _ msg => msg
  | HTTPException c d => pretty c +:+ ": " +:+ d
  end.

Inductive result (A : Type) : Type :=
| Ok (a : A)
| Raise (e : exn).
Arguments Ok {A} a.
Arguments Raise {A} e.

Global Instance result_ret : MRet result := λ A a, Ok a.
Global Instance result_bind : MBind result := λ A B f r,
  match r with
  | Ok a => f a
  | Raise e => Raise e
  end.

(** ** Audio signals and the duration window of [preprocess_audio] *)

Definition sample : Type := Q.
Definition signal : Type := list sample.

Definition py_len {A} (l : list A) : Z := Z.of_nat (length l).

(** [a[:n]] on a one-dimensional array: a negative bound counts from the end. *)
Definition py_slice_to {A} (n : Z) (l : list A) : list A :=
  if 0 <=? n then take (Z.to_nat n) l
  else take (length l - Z.to_nat (- n))%nat l.

(** [np.tile(a, reps)] for a one-dimensional [a] and an integer [reps]. *)
Definition np_tile {A} (a : list A) (reps : Z) : result (list A) :=
  if reps <? 0 then Raise (ValueError "negative dimensions are not allowed")
  else Ok (concat (replicate (Z.to_nat reps) a)).

(** [int(np.ceil(a / b))].  Python's [/] on two ints raises on a zero divisor.
    The quotient is a double; for the magnitudes that occur (a numerator of a
    few times the sample rate) rounding cannot move it across an integer, so
    the ceiling is the exact one. *)
Definition py_ceil_div (a b : Z) : result Z :=
  if b =? 0 then Raise ZeroDivisionError
  else Ok (- ((- a) `div` b)).

(** Lines 65-71 of [preprocess_audio]: the duration window. *)
Definition clamp_duration (target_sr : Z) (audio : signal) : result signal :=
  let min_length := target_sr * 3 in
  let max_length := target_sr * 30 in
  audio ← (if py_len audio <? min_length then
             reps ← py_ceil_div min_length (py_len audio);
             tiled ← np_tile audio reps;
             mret (py_slice_to min_length tiled)
           else mret audio);
  mret (if max_length <? py_len audio then py_slice_to max_length audio else audio).

(** ** Python strings *)

Definition dot : ascii := "."%char.
Definition slash : ascii := "/"%char.
Definition squote : ascii := "'"%char.
Definition dquote : ascii := "034"%char.
Definition backslash : ascii := "\"%char.

(** [s.replace(c, new)] for a one-character pattern [c]. *)
Fixpoint str_replace_char (c : ascii) (new : string) (s : string) : string :=
  match s with
  | EmptyString => EmptyString
  | String a s' =>
      if decide (a = c) then new +:+ str_replace_char c new s'
      else String a (str_replace_char c new s')
  end.

(** [c in s] for a character [c]. *)
Fixpoint str_contains (c : ascii) (s : string) : bool :=
  match s with
  | EmptyString => false
  | String a s' => if decide (a = c) then true else str_contains c s'
  end.

(** [s.startswith(p)]. *)
Definition str_startswith (p s : string) : bool := String.prefix p s.

(** *** Text as code points

    A [str] is a sequence of code points.  A text that reaches the service is
    held by its bytes, which are UTF-8; bytes that are not well-formed UTF-8
    are read one byte per character (Latin-1). *)

Definition byte_val (a : ascii) : Z := Z.of_N (N_of_ascii a).

Definition is_cont (a : ascii) : bool :=
  (0x80 <=? byte_val a) && (byte_val a <=? 0xBF).

(** One more continuation byte: six more bits. *)
Definition cont (acc : Z) (a : ascii) : Z := acc * 64 + (byte_val a - 0x80).

(** The code points of well-formed UTF-8: shortest encodings only, no
    surrogates, nothing above U+10FFFF. *)
Fixpoint utf8_decode (s : string) : option (list Z) :=
  match s with
  | EmptyString => Some []
  | String a s1 =>
      let n := byte_val a in
      if n <? 0x80 then cons n <$> utf8_decode s1
      else
        match s1 with
        | String b s2 =>
            if negb (is_cont b) then None
            else if (0xC2 <=? n) && (n <=? 0xDF) then
              cons (cont (n - 0xC0) b) <$> utf8_decode s2
            else
              match s2 with
              | String c s3 =>
                  if negb (is_cont c) then None
                  else if (0xE0 <=? n) && (n <=? 0xEF) then
                    let cp := cont (cont (n - 0xE0) b) c in
                    if (0x800 <=? cp) && negb ((0xD800 <=? cp) && (cp <=? 0xDFFF))
                    then cons cp <$> utf8_decode s3
                    else None
                  else
                    match s3 with
                    | String d s4 =>
                        let cp := cont (cont (cont (n - 0xF0) b) c) d in
                        if is_cont d && (0xF0 <=? n) && (n <=? 0xF4)
                           && (0x10000 <=? cp) && (cp <=? 0x10FFFF)
                        then cons cp <$> utf8_decode s4
                        else None
                    | EmptyString => None
                    end
              | EmptyString => None
              end
        | EmptyString => None
        end
  end.

Definition latin1_decode (s : string) : list Z :=
  byte_val <$> String.list_ascii_of_string s.

(** The characters of a text. *)
Definition str_chars (s : string) : list Z :=
  default (latin1_decode s) (utf8_decode s).

(** [c.isspace()], the whitespace that [str.strip()] removes: the ASCII
    controls U+0009 to U+000D and U+001C to U+001F, the space, U+0085,
    U+00A0, U+1680, U+2000 to U+200A, U+2028, U+2029, U+202F, U+205F and
    U+3000. *)
Definition py_isspace (c : Z) : bool :=
  (0x09 <=? c) && (c <=? 0x0D) || (0x1C <=? c) && (c <=? 0x20)
  || (c =? 0x85) || (c =? 0xA0) || (c =? 0x1680)
  || (0x2000 <=? c) && (c <=? 0x200A)
  || (c =? 0x2028) || (c =? 0x2029) || (c =? 0x202F) || (c =? 0x205F)
  || (c =? 0x3000).

Fixpoint str_lstrip (s : list Z) : list Z :=
  match s with
  | [] => []
  | c :: s' => if py_isspace c then str_lstrip s' else s
  end.

(** [s.strip()]. *)
Definition py_strip (s : list Z) : list Z :=
  rev (str_lstrip (rev (str_lstrip s))).

(** [s.split('/')]. *)
Fixpoint split_slash (s : string) : list string :=
  match s with
  | EmptyString => [EmptyString]
  | String a s' =>
      if decide (a = slash) then EmptyString :: split_slash s'
      else match split_slash s' with
           | x :: xs => String a x :: xs
           | [] => [String a EmptyString]
           end
  end.

(** The text before the last slash (if there is a slash) and the text after it. *)
Fixpoint split_dir (s : string) : option string * string :=
  match s with
  | EmptyString => (None, EmptyString)
  | String a s' =>
      match split_dir s' with
      | (Some d, b) => (Some (String a d), b)
      | (None, b) =>
          if decide (a = slash) then (Some EmptyString, b) else (None, String a b)
      end
  end.

Fixpoint drop_leading_dots (s : string) : string :=
  match s with
  | String a s' => if decide (a = dot) then drop_leading_dots s' else s
  | EmptyString => EmptyString
  end.

Fixpoint from_last_dot (s : string) : option string :=
  match s with
  | EmptyString => None
  | String a s' =>
      match from_last_dot s' with
      | Some e => Some e
      | None => if decide (a = dot) then Some s else None
      end
  end.

(** [os.path.splitext(p)[1]]: the extension starts at the last dot of the
    last component, leading dots of that component not counting. *)
Definition splitext_ext (p : string) : string :=
  default EmptyString (from_last_dot (drop_leading_dots (split_dir p).2)).

(** [repr] of a [str] and of a list of them, as an f-string prints
    [{available_speakers}]. *)
Definition hex_digit (n : nat) : ascii :=
  match n with
  | 0 => "0" | 1 => "1" | 2 => "2" | 3 => "3" | 4 => "4" | 5 => "5" | 6 => "6"
  | 7 => "7" | 8 => "8" | 9 => "9" | 10 => "a" | 11 => "b" | 12 => "c"
  | 13 => "d" | 14 => "e" | _ => "f"
  end%nat%char.

Definition py_repr_char (q : ascii) (a : ascii) : string :=
  let n := nat_of_ascii a in
  if decide (a = backslash) then String backslash (String backslash EmptyString)
  else if decide (a = q) then String backslash (String q EmptyString)
  else if (n =? 10)%nat then "\n"
  else if (n =? 13)%nat then "\r"
  else if (n =? 9)%nat then "\t"
  else if ((n <? 32) || (127 <=? n) && (n <=? 160) || (n =? 173))%nat then
    String backslash (String "x" (String (hex_digit (n / 16)) (String (hex_digit (n mod 16)) EmptyString)))
  else String a EmptyString.

Fixpoint py_repr_body (q : ascii) (s : string) : string :=
  match s with
  | EmptyString => EmptyString
  | String a s' => py_repr_char q a +:+ py_repr_body q s'
  end.

Definition py_repr_str (s : string) : string :=
  let q := if str_contains squote s && negb (str_contains dquote s)
           then dquote else squote in
  String q (py_repr_body q s +:+ String q EmptyString).

Definition py_repr_list (l : list string) : string :=
  "[" +:+ String.concat ", " (py_repr_str <$> l) +:+ "]".

(** ** pathlib: pure POSIX paths *)

Record ppath : Type := PPath { anchor : string; parts : list string }.

Definition is_component (x : string) : bool :=
  negb (bool_decide (x = EmptyString)) && negb (bool_decide (x = ".")).

(** [Path(s)]: empty and [.] components vanish; exactly two leading slashes
    are kept as the root, any other number of them is one slash. *)
Definition posix_parse (s : string) : ppath :=
  {| anchor :=
       if str_startswith "//" s && negb (str_startswith "///" s) then "//"
       else if str_startswith "/" s then "/" else EmptyString;
     parts := filter (λ x, is_component x = true) (split_slash s) |}.

(** [p / s]. *)
Definition ppath_join (p : ppath) (s : string) : ppath :=
  let q := posix_parse s in
  if bool_decide (anchor q = EmptyString)
  then {| anchor := anchor p; parts := parts p ++ parts q |}
  else q.

(** [str(p)]. *)
Definition ppath_str (p : ppath) : string :=
  match parts p with
  | [] => if bool_decide (anchor p = EmptyString) then "." else anchor p
  | ps => anchor p +:+ String.concat "/" ps
  end.

(** [p.parent]. *)
Definition ppath_parent (p : ppath) : ppath :=
  {| anchor := anchor p; parts := removelast (parts p) |}.

(** ** Voice profiles and the registry dictionary *)

Record profile : Type := Profile {
  reference_path : string;
  test_sample_path : string;
  created_at : string;
  sample_rate : Z;
  audio_duration : Q;
  status : string
}.

(** [self.voices]: a Python [dict], insertion ordered. *)
Definition dict : Type := list (string * profile).

Fixpoint dict_get (k : string) (d : dict) : option profile :=
  match d with
  | [] => None
  | (k', v) :: d' => if decide (k = k') then Some v else dict_get k d'
  end.

(** [k in d]. *)
Definition dict_contains (k : string) (d : dict) : bool :=
  bool_decide (is_Some (dict_get k d)).

(** [d[k] = v]: an existing key keeps its position, a new one goes last. *)
Fixpoint dict_set (k : string) (v : profile) (d : dict) : dict :=
  match d with
  | [] => [(k, v)]
  | (k', v') :: d' =>
      if decide (k = k') then (k, v) :: d' else (k', v') :: dict_set k v d'
  end.

Fixpoint dict_remove (k : string) (d : dict) : dict :=
  match d with
  | [] => []
  | (k', v') :: d' => if decide (k = k') then d' else (k', v') :: dict_remove k d'
  end.

(** [list(d.keys())]. *)
Definition dict_keys (d : dict) : list string := d.*1.

(** A Python dict holds each key once. *)
Definition dict_wf (d : dict) : Prop := NoDup (dict_keys d).

Definition KeyError (k : string) : exn := PyExc "KeyError" (py_repr_str k).

(** ** The file system

    A finite map from paths, as the program writes them, to directories and
    files.  Paths are compared as text: [..], symbolic links and the working
    directory are not resolved.  A file holds the raw bytes of an upload, the
    audio that one of the libraries wrote, or the JSON index. *)

Inductive content : Type :=
| Bytes (data : string)
| Audio (channels : list signal) (sr : Z)
| Json (index : dict).

Inductive node : Type :=
| Dir
| File (c : content).

Abbreviation fsys := (gmap string node).

Definition is_dir (fs : fsys) (p : string) : bool :=
  match fs !! p with Some Dir => true | _ => false end.

Definition exists_path (fs : fsys) (p : string) : bool :=
  match fs !! p with Some _ => true | None => false end.

(** The prefix shared by everything below directory [d]. *)
Definition dir_prefix (d : string) : string :=
  match String.rev d with
  | String a _ => if decide (a = slash) then d else d +:+ "/"
  | EmptyString => d +:+ "/"
  end.

(** [p] is [d] itself or lies below it. *)
Definition is_under (d p : string) : bool :=
  bool_decide (p = d) || str_startswith (dir_prefix d) p.

(** The directory a new entry [p] is created in exists (the working
    directory and the root always do). *)
Definition parent_ok (fs : fsys) (p : string) : bool :=
  match (split_dir p).1 with
  | None => true
  | Some d => bool_decide (d = EmptyString) || is_dir fs d
  end.

(** ** The libraries the service calls *)

Record Externals : Type := {
  (** [librosa.load(path, sr=..)] on the bytes of the file: mono samples and
      the rate; [None] is [sr=None], the native rate. *)
  librosa_load : string → content → option Z → result (signal * Z);
  (** [librosa.effects.trim(audio, top_db=..)[0]]. *)
  librosa_trim : signal → Z → result signal;
  librosa_normalize : signal → result signal;
  (** [librosa.resample(audio, orig_sr=.., target_sr=..)]. *)
  librosa_resample : signal → Z → Z → result signal;
  (** [librosa.effects.time_stretch(audio, rate=..)]. *)
  librosa_time_stretch : signal → Q → result signal;
  (** [torchaudio.load(path)]: channels and sample rate. *)
  torchaudio_load : string → content → result (list signal * Z);
  (** [torch.mean(waveform, dim=0, keepdim=True)]. *)
  torch_mean : list signal → result (list signal);
  (** [torchaudio.transforms.Resample(orig_freq, new_freq)(waveform)]. *)
  torchaudio_resample : list signal → Z → Z → result (list signal);
  (** The XTTS model: text, the reference recording, the language and the
      [split_sentences] argument when given; the generated samples and rate. *)
  tts_generate : string → content → string → option bool → result (signal * Z);
  (** Loading the model in [__init__]. *)
  tts_load : result unit;
  (** The [n]-th value drawn from [uuid.uuid4()], as its 32 hex digits. *)
  uuid4_hex : nat → string;
  (** Operating-system failures.  A failed write may leave torn content
      behind; a failed [rmtree] has unlinked the entries its predicate
      selects. *)
  mkdir_fault : string → fsys → option exn;
  write_fault : string → content → fsys → option (exn * option content);
  remove_fault : string → fsys → option exn;
  rmtree_fault : string → fsys → option (exn * (string → bool))
}.

(** ** The state of the process and the monad of its methods *)

Record world : Type := World {
  (** the global [voice_cloner] is set *)
  started : bool;
  (** [voice_cloner.voices] *)
  voices : dict;
  fs : fsys;
  (** what went to the logger: level and message *)
  log : list (string * string);
  (** how many uuids have been drawn *)
  uuid_ctr : nat
}.

Definition set_started (b : bool) (w : world) : world :=
  {| started := b; voices := voices w; fs := fs w; log := log w; uuid_ctr := uuid_ctr w |}.
Definition set_voices (d : dict) (w : world) : world :=
  {| started := started w; voices := d; fs := fs w; log := log w; uuid_ctr := uuid_ctr w |}.
Definition set_fs (f : fsys) (w : world) : world :=
  {| started := started w; voices := voices w; fs := f; log := log w; uuid_ctr := uuid_ctr w |}.
Definition add_log (entry : string * string) (w : world) : world :=
  {| started := started w; voices := voices w; fs := fs w; log := log w ++ [entry];
     uuid_ctr := uuid_ctr w |}.
Definition bump_uuid (w : world) : world :=
  {| started := started w; voices := voices w; fs := fs w; log := log w;
     uuid_ctr := S (uuid_ctr w) |}.

Definition M (A : Type) : Type := world → result A * world.

Global Instance M_ret : MRet M := λ A a w, (Ok a, w).
Global Instance M_bind : MBind M := λ A B f m w,
  match m w with
  | (Ok a, w') => f a w'
  | (Raise e, w') => (Raise e, w')
  end.

Definition raise {A} (e : exn) : M A := λ w, (Raise e, w).
Definition lift {A} (r : result A) : M A := λ w, (r, w).
Definition get_world : M world := λ w, (Ok w, w).
Definition modify (f : world → world) : M unit := λ w, (Ok tt, f w).

(** [try: body except Exception as e: handler(e)]. *)
Definition try_except {A} (body : M A) (handler : exn → M A) : M A := λ w,
  match body w with
  | (Ok a, w') => (Ok a, w')
  | (Raise e, w') => handler e w'
  end.

(** [try: body finally: fin]. *)
Definition try_finally {A} (body : M A) (fin : M unit) : M A := λ w,
  let '(r, w1) := body w in
  match fin w1 with
  | (Ok _, w2) => (r, w2)
  | (Raise e, w2) => (Raise e, w2)
  end.

Definition logger (level msg : string) : M unit := modify (add_log (level, msg)).

(** [uuid.uuid4().hex] and [str(uuid.uuid4())]. *)
Definition uuid_str (hex : string) : string :=
  String.substring 0 8 hex +:+ "-" +:+ String.substring 8 4 hex +:+ "-" +:+
  String.substring 12 4 hex +:+ "-" +:+ String.substring 16 4 hex +:+ "-" +:+
  String.substring 20 12 hex.

Definition voices_dir : ppath := posix_parse "voice_embeddings".
Definition voice_metadata_file : string := ppath_str (ppath_join voices_dir "metadata.json").

(** [waveform.shape[0]] and [waveform.shape[1]] of a channels-by-frames tensor. *)
Definition n_channels (waveform : list signal) : Z := py_len waveform.
Definition n_frames (waveform : list signal) : Z :=
  match waveform with
  | [] => 0
  | ch :: _ => py_len ch
  end.

(** [str(self.voices_dir / speaker_name)], and the two files kept there. *)
Definition voice_dir_of (name : string) : string :=
  ppath_str (ppath_join voices_dir name).
Definition reference_of (name : string) : string :=
  ppath_str (ppath_join (ppath_join voices_dir name) "reference.wav").
Definition test_sample_of (name : string) : string :=
  ppath_str (ppath_join (ppath_join voices_dir name) "test_sample.wav").

(** The log record of a failed deletion. *)
Definition delete_error (name : string) (e : exn) : string * string :=
  ("ERROR", "Error deleting speaker " +:+ name +:+ ": " +:+ exn_str e).

(** A profile as [create_voice_embedding] writes it: active, at 22050 Hz,
    and stamped with the uuid drawn as number [k], [lo <= k < hi]. *)
Definition fresh_profile (uuid_hex : nat → string) (lo hi : nat) (p : profile) : Prop :=
  status p = "active" ∧ sample_rate p = 22050 ∧
  ∃ k, (lo ≤ k < hi)%nat ∧ created_at p = uuid_str (uuid_hex k).

Section VoiceCloner.
Context (E : Externals).

(** *** Operating-system primitives *)

Definition uuid4 : M string := λ w,
  (Ok (uuid4_hex E (uuid_ctr w)), bump_uuid w).

(** [os.path.exists(p)], [Path.exists()]. *)
Definition fs_exists (p : string) : M bool := λ w, (Ok (exists_path (fs w) p), w).

(** Opening [p] for reading. *)
Definition fs_read (p : string) : M content := λ w,
  match fs w !! p with
  | Some (File c) => (Ok c, w)
  | Some Dir => (Raise (IsADirectoryError p), w)
  | None => (Raise (FileNotFoundError p), w)
  end.

(** Creating or replacing the file [p] with content [c]. *)
Definition fs_write (p : string) (c : content) : M unit := λ w,
  if negb (parent_ok (fs w) p) then (Raise (FileNotFoundError p), w)
  else if is_dir (fs w) p then (Raise (IsADirectoryError p), w)
  else match write_fault E p c (fs w) with
       | Some (e, Some torn) => (Raise e, set_fs (<[p := File torn]> (fs w)) w)
       | Some (e, None) => (Raise e, w)
       | None => (Ok tt, set_fs (<[p := File c]> (fs w)) w)
       end.

(** [Path(p).mkdir(exist_ok=True)]. *)
Definition fs_mkdir_exist_ok (p : string) : M unit := λ w,
  match fs w !! p with
  | Some Dir => (Ok tt, w)
  | Some (File _) => (Raise (FileExistsError p), w)
  | None =>
      if negb (parent_ok (fs w) p) then (Raise (FileNotFoundError p), w)
      else match mkdir_fault E p (fs w) with
           | Some e => (Raise e, w)
           | None => (Ok tt, set_fs (<[p := Dir]> (fs w)) w)
           end
  end.

(** [os.makedirs(p, exist_ok=True)] for the one-component names the
    service uses. *)
Definition os_makedirs := fs_mkdir_exist_ok.

(** [os.remove(p)]. *)
Definition fs_remove (p : string) : M unit := λ w,
  match fs w !! p with
  | Some (File _) =>
      match remove_fault E p (fs w) with
      | Some e => (Raise e, w)
      | None => (Ok tt, set_fs (delete p (fs w)) w)
      end
  | Some Dir => (Raise (IsADirectoryError p), w)
  | None => (Raise (FileNotFoundError p), w)
  end.

(** [shutil.rmtree(d)]. *)
Definition fs_rmtree (d : string) : M unit := λ w,
  match fs w !! d with
  | Some Dir =>
      match rmtree_fault E d (fs w) with
      | Some (e, gone) =>
          (Raise e,
           set_fs (filter (λ kv, (is_under d kv.1 && gone kv.1) = false) (fs w)) w)
      | None =>
          (Ok tt, set_fs (filter (λ kv, is_under d kv.1 = false) (fs w)) w)
      end
  | Some (File _) => (Raise (NotADirectoryError d), w)
  | None => (Raise (FileNotFoundError d), w)
  end.

(** [self.tts.tts_to_file(text=.., speaker_wav=.., language=..,
    file_path=.., split_sentences=..)]. *)
Definition tts_to_file (text speaker_wav language file_path : string)
    (split_sentences : option bool) : M unit :=
  ref ← fs_read speaker_wav;
  '(wav, sr) ← lift (tts_generate E text ref language split_sentences);
  fs_write file_path (Audio [wav] sr).

(** *** [VoiceCloner] *)

(** [json.load] gives back the dictionary that [json.dump] wrote, and
    fails on an audio file, which is no JSON text.  Raw bytes are taken to
    be no JSON text either; bytes that do spell a JSON value are outside
    this model, whose registry is a dictionary of profiles. *)
Definition load_voices_metadata : M dict :=
  w ← get_world;
  if exists_path (fs w) voice_metadata_file then
    try_except
      (c ← fs_read voice_metadata_file;
       match c with
       | Json d => mret d
       | _ => raise (PyExc "JSONDecodeError" "Expecting value")
       end)
      (λ e, logger "ERROR" ("Error loading voice metadata: " +:+ exn_str e);;
            mret [])
  else mret [].

Definition save_voices_metadata : M unit :=
  try_except
    (w ← get_world;
     fs_write voice_metadata_file (Json (voices w)))
    (λ e, logger "ERROR" ("Error saving voice metadata: " +:+ exn_str e)).

(** [VoiceCloner.__init__]; the device is not modelled. *)
Definition VoiceCloner_init : M unit :=
  logger "INFO" "Initializing Voice Cloner";;
  try_except
    (logger "INFO" "Loading Coqui XTTS v2 model...";;
     lift (tts_load E);;
     logger "INFO" "XTTS v2 model loaded successfully!")
    (λ e, logger "ERROR" ("Failed to load XTTS model: " +:+ exn_str e);;
          raise e);;
  fs_mkdir_exist_ok (ppath_str voices_dir);;
  d ← load_voices_metadata;
  modify (set_voices d);;
  logger "INFO" ("Loaded " +:+ pretty (py_len d) +:+ " existing voice(s)").

Definition preprocess_body (audio_path : string) (target_sr : Z) : M string :=
  c ← fs_read audio_path;
  '(audio, sr) ← lift (librosa_load E audio_path c None);
  audio ← lift (librosa_trim E audio 20);
  audio ← lift (librosa_normalize E audio);
  audio ← (if bool_decide (sr ≠ target_sr)
           then lift (librosa_resample E audio sr target_sr)
           else mret audio);
  audio ← lift (clamp_duration target_sr audio);
  let processed_path := str_replace_char dot "_processed." audio_path in
  fs_write processed_path (Audio [audio] target_sr);;
  mret processed_path.

Definition preprocess_audio (audio_path : string) (target_sr : Z) : M string :=
  try_except
    (preprocess_body audio_path target_sr)
    (λ e, logger "ERROR" ("Error preprocessing audio: " +:+ exn_str e);;
          mret audio_path).

(** The log record of a preprocessing failure. *)
Definition preprocess_error (e : exn) : string * string :=
  ("ERROR", "Error preprocessing audio: " +:+ exn_str e).

Definition test_text : string := "This is a test of the voice cloning system.".

Definition create_body (audio_path speaker_name : string) : M bool :=
  processed_audio_path ← preprocess_audio audio_path 22050;
  let voice_dir := ppath_join voices_dir speaker_name in
  fs_mkdir_exist_ok (ppath_str voice_dir);;
  let reference_path := ppath_join voice_dir "reference.wav" in
  c ← fs_read processed_audio_path;
  '(waveform, sample_rate) ← lift (torchaudio_load E processed_audio_path c);
  waveform ← (if 1 <? n_channels waveform
              then lift (torch_mean E waveform) else mret waveform);
  waveform ← (if bool_decide (sample_rate ≠ 22050)
              then lift (torchaudio_resample E waveform sample_rate 22050)
              else mret waveform);
  fs_write (ppath_str reference_path) (Audio waveform 22050);;
  let test_output := ppath_join voice_dir "test_sample.wav" in
  tts_to_file test_text (ppath_str reference_path) "en" (ppath_str test_output) None;;
  token ← uuid4;
  modify (λ w, set_voices
    (dict_set speaker_name
       {| reference_path := ppath_str reference_path;
          test_sample_path := ppath_str test_output;
          created_at := uuid_str token;
          sample_rate := 22050;
          audio_duration := Qmake (n_frames waveform) 22050;
          status := "active" |} (voices w)) w);;
  save_voices_metadata;;
  ex ← fs_exists processed_audio_path;
  (if bool_decide (processed_audio_path ≠ audio_path) && ex
   then fs_remove processed_audio_path else mret tt);;
  logger "INFO" ("Successfully created voice embedding for: " +:+ speaker_name);;
  mret true.

Definition create_voice_embedding (audio_path speaker_name : string) : M bool :=
  try_except
    (create_body audio_path speaker_name)
    (λ e, logger "ERROR" ("Error creating voice embedding for " +:+ speaker_name
                          +:+ ": " +:+ exn_str e);;
          mret false).

Definition adjust_speed_body (audio_path : string) (speed : Q) : M unit :=
  c ← fs_read audio_path;
  '(audio, sr) ← lift (librosa_load E audio_path c (Some 22050));
  audio_fast ← lift (librosa_time_stretch E audio speed);
  fs_write audio_path (Audio [audio_fast] sr).

Definition _adjust_speed (audio_path : string) (speed : Q) : M unit :=
  try_except
    (adjust_speed_body audio_path speed)
    (λ e, logger "WARNING" ("Could not adjust speed: " +:+ exn_str e)).

(** The path [synthesize] writes to, given the uuid it draws. *)
Definition output_path_of (speaker_name hex : string) : ppath :=
  ppath_join (posix_parse "outputs")
    ("output_" +:+ speaker_name +:+ "_" +:+ String.substring 0 8 hex +:+ ".wav").

Definition synthesize (text speaker_name language : string) (speed : Q) : M string :=
  w ← get_world;
  match dict_get speaker_name (voices w) with
  | None => raise (ValueError ("Speaker '" +:+ speaker_name +:+ "' not found"))
  | Some entry =>
      hex ← uuid4;
      let output_path := output_path_of speaker_name hex in
      fs_mkdir_exist_ok (ppath_str (ppath_parent output_path));;
      try_except
        (tts_to_file text (reference_path entry) language (ppath_str output_path)
           (Some true);;
         (if negb (Qeq_bool speed 1)
          then _adjust_speed (ppath_str output_path) speed else mret tt);;
         logger "INFO" ("Successfully synthesized speech for " +:+ speaker_name);;
         mret (ppath_str output_path))
        (λ e, logger "ERROR" ("Error synthesizing speech: " +:+ exn_str e);;
              raise e)
  end.

Definition has_speaker (speaker_name : string) : M bool :=
  w ← get_world; mret (dict_contains speaker_name (voices w)).

Definition list_speakers : M (list string) :=
  w ← get_world; mret (dict_keys (voices w)).

Definition delete_body (speaker_name : string) : M bool :=
  let voice_dir := ppath_str (ppath_join voices_dir speaker_name) in
  ex ← fs_exists voice_dir;
  (if ex : bool then fs_rmtree voice_dir else mret tt);;
  w ← get_world;
  (if dict_contains speaker_name (voices w)
   then modify (set_voices (dict_remove speaker_name (voices w)))
   else raise (KeyError speaker_name));;
  save_voices_metadata;;
  logger "INFO" ("Successfully deleted speaker: " +:+ speaker_name);;
  mret true.

Definition delete_speaker (speaker_name : string) : M bool :=
  w ← get_world;
  if negb (dict_contains speaker_name (voices w)) then mret false
  else
    try_except
      (delete_body speaker_name)
      (λ e, logger "ERROR" ("Error deleting speaker " +:+ speaker_name +:+ ": "
                            +:+ exn_str e);;
            mret false).

(** *** The request handlers of [app.py] *)

Record UploadFile : Type := {
  content_type : option string;
  filename : option string;
  file_bytes : string
}.

Inductive response : Type :=
| CloneResponse (message speaker_id status_ : string)
| FileResponse (path media_type filename_ : string)
| SpeakersResponse (speakers : list string) (count : Z)
| DeleteResponse (message : string).

Definition startup_event : M unit :=
  logger "INFO" "Initializing Voice Cloner...";;
  VoiceCloner_init;;
  modify (set_started true);;
  os_makedirs "uploads";;
  os_makedirs "outputs";;
  logger "INFO" "Voice Cloning API started successfully!".

Definition not_initialized : exn := HTTPException 503 "Voice cloner not initialized".

Definition is_audio_type (ct : option string) : bool :=
  match ct with
  | Some t => negb (bool_decide (t = EmptyString)) && str_startswith "audio/" t
  | None => false
  end.

Definition max_size : Z := 50 * 1024 * 1024.

(** The body of [clone_voice] inside its [try], and its [finally].  The
    clean-up task it schedules runs after the response, removes only files
    older than an hour that sit directly in [uploads] and [outputs], and is
    not part of the request. *)
Definition clone_voice_try (file_path speaker_name data : string) : M response :=
  try_except
    (fs_write file_path (Bytes data);;
     logger "INFO" ("Processing voice cloning for speaker: " +:+ speaker_name);;
     success ← create_voice_embedding file_path speaker_name;
     if success : bool then
       logger "INFO" ("Successfully cloned voice: " +:+ speaker_name);;
       mret (CloneResponse ("Voice '" +:+ speaker_name +:+ "' cloned successfully")
               speaker_name "success")
     else raise (HTTPException 500 "Voice cloning failed"))
    (λ e, logger "ERROR" ("Error cloning voice: " +:+ exn_str e);;
          raise (HTTPException 500 ("Voice cloning failed: " +:+ exn_str e))).

Definition clone_voice_finally (file_path : string) : M unit :=
  ex ← fs_exists file_path;
  if ex : bool then try_except (fs_remove file_path) (λ _, mret tt) else mret tt.

Definition clone_voice (audio_file : UploadFile) (speaker_name : string)
    (overwrite : bool) : M response :=
  w ← get_world;
  if negb (started w) then raise not_initialized
  else if negb (is_audio_type (content_type audio_file)) then
    raise (HTTPException 400 "File must be audio format (WAV, MP3, FLAC)")
  else
    known ← has_speaker speaker_name;
    if known && negb overwrite then
      raise (HTTPException 409 ("Speaker '" +:+ speaker_name
               +:+ "' already exists. Use overwrite=true to replace."))
    else if max_size <? Z.of_nat (String.length (file_bytes audio_file)) then
      raise (HTTPException 413 "File too large. Maximum size is 50MB")
    else
      hex ← uuid4;
      let file_id := uuid_str hex in
      file_extension ← lift (match filename audio_file with
                             | Some f =>
                                 let ext := splitext_ext f in
                                 Ok (if bool_decide (ext = EmptyString) then ".wav" else ext)
                             | None => Raise (PyExc "TypeError" "expected str")
                             end);
      let file_path := "uploads/" +:+ file_id +:+ "_" +:+ speaker_name +:+ file_extension in
      try_finally
        (clone_voice_try file_path speaker_name (file_bytes audio_file))
        (clone_voice_finally file_path).

(** [synthesize_speech]; its parameters have passed the declared form
    validation (text of at most 1000 characters, speed within 0.5 and 2). *)
Definition synthesize_speech (text speaker_name language : string) (speed : Q)
    : M response :=
  w ← get_world;
  if negb (started w) then raise not_initialized
  else
    known ← has_speaker speaker_name;
    if negb known then
      available_speakers ← list_speakers;
      raise (HTTPException 404 ("Speaker '" +:+ speaker_name
               +:+ "' not found. Available speakers: "
               +:+ py_repr_list available_speakers))
    else if py_len (py_strip (str_chars text)) =? 0 then
      raise (HTTPException 400 "Text cannot be empty")
    else
      try_except
        (logger "INFO" ("Synthesizing speech for speaker: " +:+ speaker_name);;
         output_file ← synthesize text speaker_name language speed;
         hex ← uuid4;
         let download_filename :=
           "speech_" +:+ speaker_name +:+ "_" +:+ String.substring 0 8 hex +:+ ".wav" in
         mret (FileResponse output_file "audio/wav" download_filename))
        (λ e, logger "ERROR" ("Error synthesizing speech: " +:+ exn_str e);;
              raise (HTTPException 500 ("Speech synthesis failed: " +:+ exn_str e))).

Definition list_speakers_endpoint : M response :=
  w ← get_world;
  if negb (started w) then raise not_initialized
  else
    speakers ← list_speakers;
    mret (SpeakersResponse speakers (py_len speakers)).

Definition delete_speaker_endpoint (speaker_name : string) : M response :=
  w ← get_world;
  if negb (started w) then raise not_initialized
  else
    success ← delete_speaker speaker_name;
    if success : bool then
      logger "INFO" ("Deleted speaker: " +:+ speaker_name);;
      mret (DeleteResponse ("Speaker '" +:+ speaker_name +:+ "' deleted successfully"))
    else raise (HTTPException 404 ("Speaker '" +:+ speaker_name +:+ "' not found")).

End VoiceCloner.

(** ** The properties as the specification words them

    Some sentences of the specification do not hold of the code in the form
    they are written; they are stated here as written, and settled further
    down. *)

(** "A successful [preprocess_audio] writes a new file, distinct from the
    input path, alongside the original, and does not mutate the original." *)
Definition writes_beside_original (E : Externals) (path : string) (sr : Z)
    (w : world) : Prop :=
  ∀ p w', preprocess_body E path sr w = (Ok p, w') →
    p ≠ path ∧ (split_dir p).1 = (split_dir path).1 ∧ fs w' !! path = fs w !! path.

(** "A clone-voice request naming a speaker that already exists, without
    overwrite, fails with status 409 and leaves the profile unmodified." *)
Definition conflict_on_existing (E : Externals) (upload : UploadFile) (name : string)
    (w : world) : Prop :=
  started w = true → dict_contains name (voices w) = true →
  ∃ detail, clone_voice E upload name false w = (Raise (HTTPException 409 detail), w).

(** "For every successful synthesize call with a speed other than 1.0 the
    generated audio has been time-stretched in place at the requested rate." *)
Definition stretched_when_not_unit (E : Externals) (text name lang : string)
    (speed : Q) (w : world) : Prop :=
  ∀ p w', synthesize E text name lang speed w = (Ok p, w') →
    Qeq_bool speed 1 = false →
    ∃ generated audio sr stretched,
      librosa_load E p generated (Some 22050) = Ok (audio, sr) ∧
      librosa_time_stretch E audio speed = Ok stretched ∧
      fs w' !! p = Some (File (Audio [stretched] sr)).

(** "[delete] swallows file-system errors and reports them as failure":
    whenever deleting logged an error, it returned [False]. *)
Definition errors_reported_as_failure (E : Externals) (name : string) (w : world) : Prop :=
  ∀ b w', delete_speaker E name w = (Ok b, w') →
    (∃ msg, ("ERROR", msg) ∈ log w' ∧ ("ERROR", msg) ∉ log w) → b = false.

(** ** A small concrete instance

    Stand-ins for the libraries, and a few states of the service, on which
    the definitions above can be run. *)
Module Demo.

Definition tone : signal := [1#2; -(1#2); 1#4]%Q.

(** Every library call succeeds.  An upload decodes to three samples at
    8 Hz; audio written by the service decodes to what was written;
    time-stretching rounds the new length to the nearest integer. *)
Definition libs : Externals := {|
  librosa_load := λ _ c sr,
    match c with
    | Audio (ch :: _) r => Ok (ch, default r sr)
    | Bytes (String _ _) => Ok (tone, default 8 sr)
    | _ => Raise (PyExc "LibsndfileError" "Format not recognised.")
    end;
  librosa_trim := λ a _, Ok a;
  librosa_normalize := λ a, Ok a;
  librosa_resample := λ a _ _, Ok a;
  librosa_time_stretch := λ a rate,
    let n := Qnum rate in
    let d := Z.pos (Qden rate) in
    Ok (replicate (Z.to_nat ((2 * py_len a * d + n) `div` (2 * n))) 0%Q);
  torchaudio_load := λ _ c,
    match c with
    | Audio chs r => Ok (chs, r)
    | Bytes (String _ _) => Ok ([tone; tone], 8)
    | _ => Raise (PyExc "RuntimeError" "Failed to decode audio.")
    end;
  torch_mean := λ chs, Ok (take 1 chs);
  torchaudio_resample := λ chs _ _, Ok chs;
  tts_generate := λ _ _ _ _, Ok ([1#8; 1#4; 1#8; 0]%Q, 24000);
  tts_load := Ok tt;
  uuid4_hex := λ n, "0123456789abcdef0123456789abcde" +:+ String (hex_digit n) EmptyString;
  mkdir_fault := λ _ _, None;
  write_fault := λ _ _ _, None;
  remove_fault := λ _ _, None;
  rmtree_fault := λ _ _, None
|}.

(** The same, except that time-stretching fails. *)
Definition libs_stretch_fails : Externals := {|
  librosa_load := librosa_load libs;
  librosa_trim := librosa_trim libs;
  librosa_normalize := librosa_normalize libs;
  librosa_resample := librosa_resample libs;
  librosa_time_stretch := λ _ _, Raise (PyExc "ParameterError" "Audio buffer is not finite");
  torchaudio_load := torchaudio_load libs;
  torch_mean := torch_mean libs;
  torchaudio_resample := torchaudio_resample libs;
  tts_generate := tts_generate libs;
  tts_load := tts_load libs;
  uuid4_hex := uuid4_hex libs;
  mkdir_fault := mkdir_fault libs;
  write_fault := write_fault libs;
  remove_fault := remove_fault libs;
  rmtree_fault := rmtree_fault libs
|}.

(** The same as [libs], except that the disk refuses to remove directories. *)
Definition libs_rmtree_fails : Externals := {|
  librosa_load := librosa_load libs;
  librosa_trim := librosa_trim libs;
  librosa_normalize := librosa_normalize libs;
  librosa_resample := librosa_resample libs;
  librosa_time_stretch := librosa_time_stretch libs;
  torchaudio_load := torchaudio_load libs;
  torch_mean := torch_mean libs;
  torchaudio_resample := torchaudio_resample libs;
  tts_generate := tts_generate libs;
  tts_load := tts_load libs;
  uuid4_hex := uuid4_hex libs;
  mkdir_fault := mkdir_fault libs;
  write_fault := write_fault libs;
  remove_fault := remove_fault libs;
  rmtree_fault := λ _ _, Some (PyExc "PermissionError" "Permission denied", λ _, false)
|}.

(** The same as [libs], except that the index file cannot be written. *)
Definition libs_index_fails : Externals := {|
  librosa_load := librosa_load libs;
  librosa_trim := librosa_trim libs;
  librosa_normalize := librosa_normalize libs;
  librosa_resample := librosa_resample libs;
  librosa_time_stretch := librosa_time_stretch libs;
  torchaudio_load := torchaudio_load libs;
  torch_mean := torch_mean libs;
  torchaudio_resample := torchaudio_resample libs;
  tts_generate := tts_generate libs;
  tts_load := tts_load libs;
  uuid4_hex := uuid4_hex libs;
  mkdir_fault := mkdir_fault libs;
  write_fault := λ p _ _,
    if bool_decide (p = voice_metadata_file)
    then Some (PyExc "OSError" "No space left on device", None) else None;
  remove_fault := remove_fault libs;
  rmtree_fault := rmtree_fault libs
|}.

(** Before start-up, on an empty disk. *)
Definition fresh : world :=
  {| started := false; voices := []; fs := ∅; log := []; uuid_ctr := 0 |}.

Definition booted : world := Eval vm_compute in (startup_event libs fresh).2.

(** After start-up, with an upload stored on disk. *)
Definition uploaded : world :=
  set_fs (<["uploads/me.wav" := File (Bytes "RIFF")]> (fs booted)) booted.

Definition upload : UploadFile :=
  {| content_type := Some "audio/wav"; filename := Some "me.wav"; file_bytes := "RIFF" |}.

Definition text_upload : UploadFile :=
  {| content_type := Some "text/plain"; filename := Some "me.txt"; file_bytes := "hello" |}.

(** A recording in a directory whose name has a dot, next to a directory
    that happens to carry the rewritten name. *)
Definition dotted_dir : world :=
  {| started := false; voices := [];
     fs := {[ "v1.0" := Dir; "v1.0/clip.wav" := File (Bytes "RIFF");
              "v1_processed.0" := Dir ]};
     log := []; uuid_ctr := 0 |}.

(** A recording in the working directory. *)
Definition one_clip : world :=
  {| started := false; voices := [];
     fs := {[ "clip.wav" := File (Bytes "RIFF") ]};
     log := []; uuid_ctr := 0 |}.

(** A registry holding one speaker, without any file on disk. *)
Definition alice_profile : profile :=
  {| reference_path := "voice_embeddings/alice/reference.wav";
     test_sample_path := "voice_embeddings/alice/test_sample.wav";
     created_at := "01234567-89ab-cdef-0123-456789abcde1";
     sample_rate := 22050;
     audio_duration := 3;
     status := "active" |}.

(** The profile a first clone-voice request leaves after start-up. *)
Definition cloned_profile : profile :=
  {| reference_path := "voice_embeddings/alice/reference.wav";
     test_sample_path := "voice_embeddings/alice/test_sample.wav";
     created_at := "01234567-89ab-cdef-0123-456789abcde1";
     sample_rate := 22050;
     audio_duration := Qmake 66150 22050;
     status := "active" |}.

Definition alice_ref : content := Audio [tone] 22050.

Definition with_alice : world :=
  {| started := true; voices := [("alice", alice_profile)];
     fs := {[ "voice_embeddings" := Dir; "uploads" := Dir; "outputs" := Dir;
              "voice_embeddings/alice" := Dir;
              "voice_embeddings/alice/reference.wav" := File alice_ref;
              "voice_embeddings/alice/test_sample.wav" := File alice_ref ]};
     log := []; uuid_ctr := 2 |}.

End Demo.

(** ** Requests and the states the service can be in *)

(** The requests that act on the registry.  (The info, health and root
    endpoints only read.) *)
Inductive api_call : Type :=
| PostCloneVoice (audio_file : UploadFile) (speaker_name : string) (overwrite : bool)
| PostSynthesize (text speaker_name language : string) (speed : Q)
| GetSpeakers
| DeleteSpeaker (speaker_name : string).

Definition handle (E : Externals) (c : api_call) : M response :=
  match c with
  | PostCloneVoice f name overwrite => clone_voice E f name overwrite
  | PostSynthesize text name language speed => synthesize_speech E text name language speed
  | GetSpeakers => list_speakers_endpoint
  | DeleteSpeaker name => delete_speaker_endpoint E name
  end.

(** The service starts on a disk without an index file and then serves
    requests, one after the other, whatever their outcome. *)
Inductive reachable (E : Externals) : world → Prop :=
| reach_startup w0 w :
    fs w0 !! voice_metadata_file = None →
    startup_event E w0 = (Ok tt, w) →
    reachable E w
| reach_request w c r w' :
    reachable E w →
    handle E c w = (r, w') →
    reachable E w'.

(** Every entry of the registry is a profile written by a create of this
    run, and no name occurs twice. *)
Definition registry_ok (E : Externals) (w : world) : Prop :=
  dict_wf (voices w) ∧
  ∀ name prof, dict_get name (voices w) = Some prof →
    fresh_profile (uuid4_hex E) 0 (uuid_ctr w) prof.

(** The path [synthesize] writes to from state [w], and its directory. *)
Definition synth_path (E : Externals) (name : string) (w : world) : string :=
  ppath_str (output_path_of name (uuid4_hex E (uuid_ctr w))).
Definition synth_dir (E : Externals) (name : string) (w : world) : string :=
  ppath_str (ppath_parent (output_path_of name (uuid4_hex E (uuid_ctr w)))).

(** The log records of [synthesize]. *)
Definition synth_done (name : string) : string * string :=
  ("INFO", "Successfully synthesized speech for " +:+ name).
Definition stretch_warning (e : exn) : string * string :=
  ("WARNING", "Could not adjust speed: " +:+ exn_str e).

(** What librosa documents of [time_stretch]: the result has
    [round(len / rate)] samples, the integer nearest to the quotient. *)
Definition time_stretch_rounds (E : Externals) : Prop :=
  ∀ audio rate stretched,
    librosa_time_stretch E audio rate = Ok stretched →
    2 * Z.abs (py_len stretched * Qnum rate - py_len audio * Z.pos (Qden rate))
      ≤ Qnum rate.

(** ** Vocabulary for reasoning about runs *)

(** A program keeps a relation between the state it starts in and the state
    it ends in, however it ends. *)
Definition keeps {A} (R : relation world) (m : M A) : Prop :=
  ∀ w r w', m w = (r, w') → R w w'.

(** What a program may return. *)
Definition returns {A} (P : A → Prop) (m : M A) : Prop :=
  ∀ w a w', m w = (Ok a, w') → P a.

(** A postcondition that relates the initial state, the outcome and the
    final state. *)
Definition post {A} (Q : world → result A → world → Prop) (m : M A) : Prop :=
  ∀ w r w', m w = (r, w') → Q w r w'.

(** The registry, the started flag; the uuid counter only grows. *)
Definition same_registry (w w' : world) : Prop :=
  voices w' = voices w ∧ started w' = started w ∧ (uuid_ctr w ≤ uuid_ctr w')%nat.

(** Every path outside [S] holds what it held. *)
Definition fs_outside (S : string → Prop) (w w' : world) : Prop :=
  ∀ p, ¬ S p → fs w' !! p = fs w !! p.

(** The effect of [create_body] on the registry, however it ends: either
    none, and then it raised; or the entry of the name has been set to a
    fresh profile, and then it returned [True] or raised. *)
Definition create_post (E : Externals) (name : string) (w : world) (r : result bool) (w' : world) : Prop :=
  started w' = started w ∧ (uuid_ctr w ≤ uuid_ctr w')%nat ∧
  ((voices w' = voices w ∧ ∃ e, r = Raise e) ∨
   (∃ prof, voices w' = dict_set name prof (voices w) ∧
            fresh_profile (uuid4_hex E) (uuid_ctr w) (uuid_ctr w') prof ∧
            reference_path prof = reference_of name ∧
            test_sample_path prof = test_sample_of name ∧
            (r = Ok true ∨ ∃ e, r = Raise e))).

(** A step that keeps the started flag, lets the uuid counter grow and
    preserves [registry_ok]. *)
Definition inv_step (E : Externals) (w w' : world) : Prop :=
  started w' = started w ∧ (uuid_ctr w ≤ uuid_ctr w')%nat ∧
  (registry_ok E w → registry_ok E w').

(** First and last character of a path, and the text in front of its last
    component. *)
Definition head_char (s : string) : option ascii :=
  match s with
  | EmptyString => None
  | String a _ => Some a
  end.

Fixpoint last_char (s : string) : option ascii :=
  match s with
  | EmptyString => None
  | String a EmptyString => Some a
  | String _ s' => last_char s'
  end.

(** The text in front of the last component. *)
Definition dir_text (ps : list string) : string :=
  match ps with
  | [] => EmptyString
  | _ => String.concat "/" ps +:+ "/"
  end.

(** ** The rest of the service: speaker information and the clean-up task *)

(** [round(x)]: the nearest integer, a tie going to the even one. *)
Definition round_half_even (q : Q) : Z :=
  let n := Qnum q in
  let d := Z.pos (Qden q) in
  let lo := n `div` d in
  let twice := 2 * (n `mod` d) in
  if twice <? d then lo
  else if d <? twice then lo + 1
  else if Z.even lo then lo else lo + 1.

(** [round(x, 2)].  Python rounds the exact value of the double, a tie
    going to the even digit; the quotient of a file size by 2^20 is an exact
    double.  The result is given as the decimal with two places; Python
    returns the double nearest to it. *)
Definition py_round2 (q : Q) : Q := Qmake (round_half_even (q * 100)) 100.

(** What [get_speaker_info] returns: a copy of the entry, and the key
    [file_size_mb] when it has been added. *)
Record speaker_info : Type := SpeakerInfo {
  info_entry : profile;
  file_size_mb : option Q
}.

Inductive info_response : Type :=
| InfoResponse (speaker_name : string) (info : option speaker_info) (status_ : string).

(** [os.path.join(a, b)]. *)
Definition os_path_join (a b : string) : string :=
  if str_startswith "/" b then b
  else if bool_decide (a = EmptyString) || bool_decide (last_char a = Some slash)
  then a +:+ b
  else a +:+ "/" +:+ b.

(** The rest of [s] behind the prefix [p], when [s] starts with [p]. *)
Fixpoint str_strip_prefix (p s : string) : option string :=
  match p, s with
  | EmptyString, _ => Some s
  | String a p', String b s' =>
      if decide (a = b) then str_strip_prefix p' s' else None
  | String _ _, EmptyString => None
  end.

(** The name under which the path [p] is listed in directory [d]: [p] is
    [d], a slash and one component. *)
Definition entry_name (d p : string) : option string :=
  name ← str_strip_prefix (dir_prefix d) p;
  if bool_decide (name = EmptyString) || str_contains slash name then None
  else Some name.

(** A [for] loop over a list. *)
Fixpoint for_each {A} (l : list A) (body : A → M unit) : M unit :=
  match l with
  | [] => mret tt
  | x :: l' => body x;; for_each l' body
  end.

(** Every character of [s] is whitespace. *)
Definition all_space (s : list Z) : bool := forallb py_isspace s.

Section Housekeeping.
Context (E : Externals).

(** What the operating system knows beyond the content of the files:
    [st_size] of a node, [st_ctime] of a path, and the order in which a
    directory lists its entries. *)
Context (st_size : node → Z) (st_ctime : string → Q).
Context (listdir_order : list string → list string).

(** [os.path.getsize(p)]. *)
Definition os_path_getsize (p : string) : M Z := λ w,
  match fs w !! p with
  | Some nd => (Ok (st_size nd), w)
  | None => (Raise (FileNotFoundError p), w)
  end.

(** [os.path.getctime(p)]. *)
Definition os_path_getctime (p : string) : M Q := λ w,
  match fs w !! p with
  | Some _ => (Ok (st_ctime p), w)
  | None => (Raise (FileNotFoundError p), w)
  end.

(** [os.path.isfile(p)]. *)
Definition os_path_isfile (p : string) : M bool := λ w,
  (Ok match fs w !! p with Some (File _) => true | _ => false end, w).

(** [os.listdir(d)]: the names of the entries of [d], in the order the
    operating system reports them. *)
Definition os_listdir (d : string) : M (list string) := λ w,
  match fs w !! d with
  | Some Dir => (Ok (listdir_order (omap (entry_name d) (map_to_list (fs w)).*1)), w)
  | Some (File _) => (Raise (NotADirectoryError d), w)
  | None => (Raise (FileNotFoundError d), w)
  end.

(** *** [VoiceCloner.get_speaker_info] *)

Definition get_speaker_info (speaker_name : string) : M (option speaker_info) :=
  w ← get_world;
  match dict_get speaker_name (voices w) with
  | None => mret None
  | Some entry =>
      let reference_path := reference_path entry in
      ex ← (if negb (bool_decide (reference_path = EmptyString))
            then fs_exists reference_path else mret false);
      size ← (if ex : bool
              then bytes ← os_path_getsize reference_path;
                   mret (Some (py_round2 (inject_Z bytes / inject_Z (1024 * 1024))))
              else mret None);
      mret (Some {| info_entry := entry; file_size_mb := size |})
  end.

(** *** The handler [get_speaker_info] of [app.py] *)

Definition get_speaker_info_endpoint (speaker_name : string) : M info_response :=
  w ← get_world;
  if negb (started w) then raise not_initialized
  else
    known ← has_speaker speaker_name;
    if negb known then
      raise (HTTPException 404 ("Speaker '" +:+ speaker_name +:+ "' not found"))
    else
      info ← get_speaker_info speaker_name;
      mret (InfoResponse speaker_name info "success").

(** *** [cleanup_old_files]

    The task the two POST handlers schedule; [current_time] is the value
    of [time.time()] read when it starts. *)

(** The body of the inner loop, for one listed name. *)
Definition cleanup_file (current_time : Q) (folder file : string) : M unit :=
  let file_path := os_path_join folder file in
  isfile ← os_path_isfile file_path;
  if isfile : bool then
    ctime ← os_path_getctime file_path;
    if negb (Qle_bool (current_time - ctime) 3600) then
      try_except
        (fs_remove E file_path;;
         logger "INFO" ("Cleaned up old file: " +:+ file_path))
        (λ _, mret tt)
    else mret tt
  else mret tt.

(** The body of the outer loop, for one folder. *)
Definition cleanup_folder (current_time : Q) (folder : string) : M unit :=
  ex ← fs_exists folder;
  if ex : bool then
    files ← os_listdir folder;
    for_each files (cleanup_file current_time folder)
  else mret tt.

Definition cleanup_old_files (current_time : Q) : M unit :=
  for_each ["uploads"; "outputs"] (cleanup_folder current_time).

End Housekeeping.

(** ** Vocabulary for the further properties *)

(** Every entry keeps its two files at the places
    [create_voice_embedding] derives from the name; and a step that
    preserves this of a registry that holds each name once. *)
Definition paths_by_name (d : dict) : Prop :=
  ∀ name prof, dict_get name d = Some prof →
    reference_path prof = reference_of name ∧
    test_sample_path prof = test_sample_of name.

Definition paths_step (w w' : world) : Prop :=
  dict_wf (voices w) ∧ paths_by_name (voices w) →
  dict_wf (voices w') ∧ paths_by_name (voices w').

(** The path names an entry directly in [uploads] or in [outputs] whose
    change time lies more than an hour back. *)
Definition old_entry (st_ctime : string → Q) (current_time : Q) (p : string) : Prop :=
  (∃ name, entry_name "uploads" p = Some name ∨ entry_name "outputs" p = Some name) ∧
  (3600 < current_time - st_ctime p)%Q.

(** The state after plain files satisfying [P] have been removed: the
    registry and the started flag are what they were, and every path holds
    what it held or held a plain file satisfying [P] and is gone. *)
Definition cleaned (P : string → Prop) (w w' : world) : Prop :=
  voices w' = voices w ∧ started w' = started w ∧
  ∀ p, fs w' !! p = fs w !! p ∨
       (fs w' !! p = None ∧ P p ∧ ∃ c, fs w !! p = Some (File c)).

(** The upload path of a clone-voice request that draws its uuid in [w]. *)
Definition upload_path (E : Externals) (speaker_name ext : string) (w : world) : string :=
  "uploads/" +:+ uuid_str (uuid4_hex E (uuid_ctr w)) +:+ "_" +:+ speaker_name +:+ ext.

(** The extension [clone_voice] gives the upload. *)
Definition upload_ext (f : string) : string :=
  if bool_decide (splitext_ext f = EmptyString) then ".wav" else splitext_ext f.



(** The states that requests lead to from a state [w0], one request after
    the other, whatever their outcome. *)
Inductive served_from (E : Externals) (w0 : world) : world → Prop :=
| served_none : served_from E w0 w0
| served_request w c r w' :
    served_from E w0 w →
    handle E c w = (r, w') →
    served_from E w0 w'.

(** Every dot of [s] comes directly after a [d], [prev] being the character
    in front of [s]. *)
Fixpoint dots_follow_d (prev : ascii) (s : string) : bool :=
  match s with
  | EmptyString => true
  | String a s' =>
      (negb (bool_decide (a = dot)) || bool_decide (prev = "d"%char))
      && dots_follow_d a s'
  end.

(** What a failure of [create_body] leaves of the registry: either it is
    what it was, or the entry of the name had been set already and the
    exception was raised by the removal of the preprocessed copy of the
    upload. *)
Definition create_failure_post (E : Externals) (path name : string) (w : world)
    (r : result bool) (w' : world) : Prop :=
  match r with
  | Ok _ => True
  | Raise e =>
      voices w' = voices w ∨
      ∃ prof wa wb,
        voices w' = dict_set name prof (voices w) ∧
        fs_remove E (str_replace_char dot "_processed." path) wa = (Raise e, wb)
  end.

(** ** Further concrete instances *)
Module Scenario.

(** The libraries of [Demo], except that the model cannot be loaded. *)
Definition libs_no_model : Externals := {|
  librosa_load := librosa_load Demo.libs;
  librosa_trim := librosa_trim Demo.libs;
  librosa_normalize := librosa_normalize Demo.libs;
  librosa_resample := librosa_resample Demo.libs;
  librosa_time_stretch := librosa_time_stretch Demo.libs;
  torchaudio_load := torchaudio_load Demo.libs;
  torch_mean := torch_mean Demo.libs;
  torchaudio_resample := torchaudio_resample Demo.libs;
  tts_generate := tts_generate Demo.libs;
  tts_load := Raise (PyExc "RuntimeError" "CUDA out of memory");
  uuid4_hex := uuid4_hex Demo.libs;
  mkdir_fault := mkdir_fault Demo.libs;
  write_fault := write_fault Demo.libs;
  remove_fault := remove_fault Demo.libs;
  rmtree_fault := rmtree_fault Demo.libs
|}.

(** The libraries of [Demo], except that nothing can decode an upload. *)
Definition libs_no_decoder : Externals := {|
  librosa_load := λ _ _ _, Raise (PyExc "NoBackendError" "no backend");
  librosa_trim := librosa_trim Demo.libs;
  librosa_normalize := librosa_normalize Demo.libs;
  librosa_resample := librosa_resample Demo.libs;
  librosa_time_stretch := librosa_time_stretch Demo.libs;
  torchaudio_load := λ _ _, Raise (PyExc "RuntimeError" "Failed to decode audio.");
  torch_mean := torch_mean Demo.libs;
  torchaudio_resample := torchaudio_resample Demo.libs;
  tts_generate := tts_generate Demo.libs;
  tts_load := tts_load Demo.libs;
  uuid4_hex := uuid4_hex Demo.libs;
  mkdir_fault := mkdir_fault Demo.libs;
  write_fault := write_fault Demo.libs;
  remove_fault := remove_fault Demo.libs;
  rmtree_fault := rmtree_fault Demo.libs
|}.

(** The libraries of [Demo], except that the disk refuses every removal
    of a file. *)
Definition libs_no_remove : Externals := {|
  librosa_load := librosa_load Demo.libs;
  librosa_trim := librosa_trim Demo.libs;
  librosa_normalize := librosa_normalize Demo.libs;
  librosa_resample := librosa_resample Demo.libs;
  librosa_time_stretch := librosa_time_stretch Demo.libs;
  torchaudio_load := torchaudio_load Demo.libs;
  torch_mean := torch_mean Demo.libs;
  torchaudio_resample := torchaudio_resample Demo.libs;
  tts_generate := tts_generate Demo.libs;
  tts_load := tts_load Demo.libs;
  uuid4_hex := uuid4_hex Demo.libs;
  mkdir_fault := mkdir_fault Demo.libs;
  write_fault := write_fault Demo.libs;
  remove_fault := λ _ _, Some (PyExc "PermissionError" "Permission denied");
  rmtree_fault := rmtree_fault Demo.libs
|}.


(** One registered speaker, and a new upload on disk. *)
Definition with_upload : world :=
  set_fs (<["uploads/me.wav" := File (Bytes "RIFF")]> (fs Demo.with_alice))
    Demo.with_alice.

(** One registered speaker, and old and new files in the two working
    folders: [outputs/new.wav] is 200 seconds old, everything else two
    hours. *)
Definition cluttered : world :=
  set_fs (<["uploads/old.wav" := File (Bytes "RIFF")]>
          (<["outputs/old.wav" := File (Bytes "RIFF")]>
           (<["outputs/new.wav" := File (Bytes "RIFF")]>
            (<["outputs/keep" := Dir]>
             (<["outputs/keep/old.wav" := File (Bytes "RIFF")]>
              (fs Demo.with_alice))))))
    Demo.with_alice.

Definition ctime (p : string) : Q :=
  if bool_decide (p = "outputs/new.wav") then 7000 else 0.

Definition now : Q := 7200.

(** The directory entries in the order of the map. *)
Definition in_order (l : list string) : list string := l.

(** Every node takes 150000 bytes. *)
Definition size (nd : node) : Z := 150000.

(** The name [uploads] is taken by a plain file. *)
Definition uploads_is_file : world :=
  {| started := true; voices := [];
     fs := {[ "uploads" := File (Bytes "x") ]};
     log := []; uuid_ctr := 0 |}.

(** Two speakers, one of them registered under the name [.]: its
    recordings lie in the registry directory itself. *)
Definition dot_profile : profile :=
  {| reference_path := "voice_embeddings/reference.wav";
     test_sample_path := "voice_embeddings/test_sample.wav";
     created_at := "01234567-89ab-cdef-0123-456789abcde2";
     sample_rate := 22050;
     audio_duration := 3;
     status := "active" |}.

Definition with_dot : world :=
  {| started := true;
     voices := [("alice", Demo.alice_profile); (".", dot_profile)];
     fs := {[ "voice_embeddings" := Dir; "uploads" := Dir; "outputs" := Dir;
              "voice_embeddings/metadata.json" :=
                File (Json [("alice", Demo.alice_profile); (".", dot_profile)]);
              "voice_embeddings/alice" := Dir;
              "voice_embeddings/alice/reference.wav" := File Demo.alice_ref;
              "voice_embeddings/alice/test_sample.wav" := File Demo.alice_ref;
              "voice_embeddings/reference.wav" := File Demo.alice_ref;
              "voice_embeddings/test_sample.wav" := File Demo.alice_ref ]};
     log := []; uuid_ctr := 3 |}.

(** A text of spaces only: a space, a tab, U+00A0, U+2003 and U+3000,
    as UTF-8. *)
Definition blank_text : string :=
  String.string_of_list_ascii
    (ascii_of_N <$> [0x20; 0x09; 0xC2; 0xA0; 0xE2; 0x80; 0x83; 0xE3; 0x80; 0x80]%N).
End Scenario.

(** ** Lemmas on the duration window *)

Lemma py_len_nonempty {A} (l : list A) : l ≠ [] → 0 < py_len l.
Proof. destruct l; [done|]. unfold py_len. simpl. lia. Qed.

Lemma py_ceil_div_pos a b : 0 < b → ∃ k, py_ceil_div a b = Ok k ∧ a ≤ k * b ∧ (0 < a → 0 < k).
Proof.
  intros Hb. unfold py_ceil_div.
  destruct (Z.eqb_spec b 0) as [->|_]; [lia|].
  eexists; split; [reflexivity|].
  pose proof (Z.mul_div_le (- a) b Hb).
  pose proof (Z.mul_succ_div_gt (- a) b Hb).
  split; [lia|]. intros Ha.
  assert ((- a) `div` b < 0) by nia. lia.
Qed.

Lemma length_tile {A} (a : list A) (k : nat) :
  length (concat (replicate k a)) = (k * length a)%nat.
Proof. induction k as [|k IH]; simpl; [done|]. rewrite length_app, IH. lia. Qed.

(** Tiling loops the signal: position [i] holds sample [i mod len]. *)
Lemma lookup_tile {A} (a : list A) (k i : nat) :
  (i < k * length a)%nat →
  concat (replicate k a) !! i = a !! (i mod length a)%nat.
Proof.
  revert i. induction k as [|k IH]; intros i Hi; simpl in *; [lia|].
  destruct (decide (i < length a)%nat) as [Hlt|Hge].
  - rewrite lookup_app_l by done. by rewrite Nat.mod_small.
  - rewrite lookup_app_r by lia. rewrite IH by lia.
    f_equal. assert (length a ≠ 0)%nat by lia.
    replace i with ((i - length a) + 1 * length a)%nat at 2 by lia.
    by rewrite Nat.Div0.mod_add.
Qed.

(** ** Running the monad *)

Lemma bind_run {A B} (m : M A) (f : A → M B) w :
  (m ≫= f) w = match m w with
               | (Ok a, w') => f a w'
               | (Raise e, w') => (Raise e, w')
               end.
Proof. reflexivity. Qed.

Lemma try_except_ok {A} (m : M A) h w a w1 :
  m w = (Ok a, w1) → try_except m h w = (Ok a, w1).
Proof. intros H. unfold try_except. by rewrite H. Qed.

Lemma try_except_raise {A} (m : M A) h w e w1 :
  m w = (Raise e, w1) → try_except m h w = h e w1.
Proof. intros H. unfold try_except. by rewrite H. Qed.

Section keeps.
Context (R : relation world) `{!PreOrder R}.

Lemma keeps_ret {A} (a : A) : keeps R (mret a).
Proof. intros w r w' [= _ <-]. reflexivity. Qed.

Lemma keeps_raise {A} e : keeps R (@raise A e).
Proof. intros w r w' [= _ <-]. reflexivity. Qed.

Lemma keeps_lift {A} (x : result A) : keeps R (lift x).
Proof. intros w r w' [= _ <-]. reflexivity. Qed.

Lemma keeps_get_world : keeps R get_world.
Proof. intros w r w' [= _ <-]. reflexivity. Qed.

Lemma keeps_bind {A B} (m : M A) (f : A → M B) :
  keeps R m → (∀ a, keeps R (f a)) → keeps R (m ≫= f).
Proof.
  intros Hm Hf w r w' H. rewrite bind_run in H.
  destruct (m w) as [[a|e] w1] eqn:Em.
  - etrans; [eapply Hm, Em | eapply Hf, H].
  - injection H as _ <-. eapply Hm, Em.
Qed.

Lemma keeps_try_except {A} (m : M A) h :
  keeps R m → (∀ e, keeps R (h e)) → keeps R (try_except m h).
Proof.
  intros Hm Hh w r w' H. unfold try_except in H.
  destruct (m w) as [[a|e] w1] eqn:Em.
  - injection H as _ <-. eapply Hm, Em.
  - etrans; [eapply Hm, Em | eapply Hh, H].
Qed.

Lemma keeps_try_finally {A} (m : M A) fin :
  keeps R m → keeps R fin → keeps R (try_finally m fin).
Proof.
  intros Hm Hf w r w' H. unfold try_finally in H.
  destruct (m w) as [r1 w1] eqn:Em.
  destruct (fin w1) as [[[]|e] w2] eqn:Ef; injection H as _ <-;
    (etrans; [eapply Hm, Em | eapply Hf, Ef]).
Qed.
End keeps.

(** Composite programs are taken apart by these rules; what is left are
    the primitive actions. *)
Ltac keeps_step :=
  lazymatch goal with
  | |- keeps _ (mbind _ _) => apply keeps_bind; [try apply _ | | intros ?]
  | |- keeps _ (try_except _ _) => apply keeps_try_except; [try apply _ | | intros ?]
  | |- keeps _ (try_finally _ _) => apply keeps_try_finally; [try apply _ | | ]
  | |- keeps _ (mret _) => apply keeps_ret; try apply _
  | |- keeps _ (raise _) => apply keeps_raise; try apply _
  | |- keeps _ (lift _) => apply keeps_lift; try apply _
  | |- keeps _ get_world => apply keeps_get_world; try apply _
  | |- keeps _ (match ?x with _ => _ end) => destruct x
  | |- keeps _ (let '(_, _) := ?x in _) => destruct x
  end.

(** *** What the file-system and logging actions leave alone *)

Global Instance same_registry_preorder : PreOrder same_registry.
Proof.
  split.
  - by intros w.
  - intros w1 w2 w3 (?&?&?) (?&?&?). unfold same_registry. split_and!; [congruence..|lia].
Qed.

Global Instance fs_outside_preorder S : PreOrder (fs_outside S).
Proof.
  split.
  - by intros w p.
  - intros w1 w2 w3 H12 H23 p Hp. by rewrite H23, H12.
Qed.

Lemma keeps_weaken {A} (R R' : relation world) (m : M A) :
  (∀ w w', R w w' → R' w w') → keeps R m → keeps R' m.
Proof. intros HR Hm w r w' H. eapply HR, Hm, H. Qed.

Section Primitives.
Context (E : Externals).

Lemma logger_run level msg w : logger level msg w = (Ok tt, add_log (level, msg) w).
Proof. reflexivity. Qed.

Lemma logger_registry level msg : keeps same_registry (logger level msg).
Proof. intros w r w' [= _ <-]. by split_and!. Qed.

Lemma logger_fs S level msg : keeps (fs_outside S) (logger level msg).
Proof. intros w r w' [= _ <-]. by intros p _. Qed.

Lemma uuid4_registry : keeps same_registry (uuid4 E).
Proof. intros w r w' [= _ <-]. split_and!; simpl; [done..|lia]. Qed.

Lemma uuid4_fs S : keeps (fs_outside S) (uuid4 E).
Proof. intros w r w' [= _ <-]. by intros p _. Qed.

Lemma fs_exists_registry p : keeps same_registry (fs_exists p).
Proof. intros w r w' [= _ <-]. by split_and!. Qed.

Lemma fs_exists_fs S p : keeps (fs_outside S) (fs_exists p).
Proof. intros w r w' [= _ <-]. by intros q _. Qed.

Lemma fs_read_same p w r w' : fs_read p w = (r, w') → w' = w.
Proof. unfold fs_read. intros H. repeat case_match; by simplify_eq. Qed.

Lemma fs_read_registry p : keeps same_registry (fs_read p).
Proof. intros w r w' ->%fs_read_same. reflexivity. Qed.

Lemma fs_read_fs S p : keeps (fs_outside S) (fs_read p).
Proof. intros w r w' ->%fs_read_same. reflexivity. Qed.

Lemma fs_read_ok p w c w' :
  fs_read p w = (Ok c, w') → fs w !! p = Some (File c) ∧ w' = w.
Proof. unfold fs_read. intros H. repeat case_match; by simplify_eq. Qed.

Lemma fs_write_registry p c : keeps same_registry (fs_write E p c).
Proof.
  intros w r w' H. unfold fs_write in H.
  repeat case_match; simplify_eq; by split_and!.
Qed.

Lemma fs_write_fs (S : string → Prop) p c :
  S p → keeps (fs_outside S) (fs_write E p c).
Proof.
  intros HS w r w' H q Hq. assert (p ≠ q) by congruence. unfold fs_write in H.
  repeat case_match; simplify_eq; simpl; try done; by rewrite lookup_insert_ne.
Qed.

Lemma fs_write_ok p c w w' :
  fs_write E p c w = (Ok tt, w') → w' = set_fs (<[p := File c]> (fs w)) w.
Proof. unfold fs_write. intros H. repeat case_match; by simplify_eq. Qed.

(** A write, finished or torn, leaves a file at its path or nothing new:
    never a directory that was not there. *)
Lemma fs_write_is_dir p c w r w' q :
  fs_write E p c w = (r, w') → is_dir (fs w') q = is_dir (fs w) q.
Proof.
  unfold fs_write. intros H.
  destruct (negb (parent_ok (fs w) p)); [by simplify_eq|].
  destruct (is_dir (fs w) p) eqn:Hd; [by simplify_eq|].
  assert (∀ x, is_dir (<[p := File x]> (fs w)) q = is_dir (fs w) q) as Hins.
  { intros x. unfold is_dir in *. destruct (decide (q = p)) as [->|].
    - rewrite lookup_insert_eq. by repeat case_match.
    - by rewrite lookup_insert_ne. }
  repeat case_match; simplify_eq; simpl; auto.
Qed.

Lemma fs_mkdir_registry p : keeps same_registry (fs_mkdir_exist_ok E p).
Proof.
  intros w r w' H. unfold fs_mkdir_exist_ok in H.
  repeat case_match; simplify_eq; by split_and!.
Qed.

Lemma fs_mkdir_fs (S : string → Prop) p :
  S p → keeps (fs_outside S) (fs_mkdir_exist_ok E p).
Proof.
  intros HS w r w' H q Hq. assert (p ≠ q) by congruence.
  unfold fs_mkdir_exist_ok in H.
  repeat case_match; simplify_eq; simpl; try done; by rewrite lookup_insert_ne.
Qed.

Lemma fs_remove_registry p : keeps same_registry (fs_remove E p).
Proof.
  intros w r w' H. unfold fs_remove in H.
  repeat case_match; simplify_eq; by split_and!.
Qed.

Lemma fs_remove_fs (S : string → Prop) p :
  S p → keeps (fs_outside S) (fs_remove E p).
Proof.
  intros HS w r w' H q Hq. assert (p ≠ q) by congruence. unfold fs_remove in H.
  repeat case_match; simplify_eq; simpl; try done; by rewrite lookup_delete_ne.
Qed.

Lemma fs_rmtree_registry p : keeps same_registry (fs_rmtree E p).
Proof.
  intros w r w' H. unfold fs_rmtree in H.
  repeat case_match; simplify_eq; by split_and!.
Qed.
End Primitives.

(** *** What the composite actions leave alone *)

Section Frames.
Context (E : Externals).

Lemma tts_to_file_registry text ref lang out split :
  keeps same_registry (tts_to_file E text ref lang out split).
Proof.
  unfold tts_to_file. repeat keeps_step;
    eauto using fs_read_registry, fs_write_registry.
Qed.

Lemma tts_to_file_fs (S : string → Prop) text ref lang out split :
  S out → keeps (fs_outside S) (tts_to_file E text ref lang out split).
Proof.
  intros. unfold tts_to_file. repeat keeps_step;
    eauto using fs_read_fs, fs_write_fs.
Qed.

Lemma save_voices_metadata_registry : keeps same_registry (save_voices_metadata E).
Proof.
  unfold save_voices_metadata. repeat keeps_step;
    eauto using fs_write_registry, logger_registry.
Qed.

Lemma save_voices_metadata_fs (S : string → Prop) :
  S voice_metadata_file → keeps (fs_outside S) (save_voices_metadata E).
Proof.
  intros. unfold save_voices_metadata. repeat keeps_step;
    eauto using fs_write_fs, logger_fs.
Qed.

Lemma preprocess_body_registry path sr : keeps same_registry (preprocess_body E path sr).
Proof.
  unfold preprocess_body. repeat keeps_step;
    eauto using fs_read_registry, fs_write_registry.
Qed.

Lemma preprocess_audio_registry path sr : keeps same_registry (preprocess_audio E path sr).
Proof.
  unfold preprocess_audio. repeat keeps_step;
    eauto using preprocess_body_registry, logger_registry.
Qed.

Lemma preprocess_body_fs (S : string → Prop) path sr :
  S (str_replace_char dot "_processed." path) →
  keeps (fs_outside S) (preprocess_body E path sr).
Proof.
  intros. unfold preprocess_body. repeat keeps_step;
    eauto using fs_read_fs, fs_write_fs.
Qed.

Lemma preprocess_audio_fs (S : string → Prop) path sr :
  S (str_replace_char dot "_processed." path) →
  keeps (fs_outside S) (preprocess_audio E path sr).
Proof.
  intros. unfold preprocess_audio. repeat keeps_step;
    eauto using preprocess_body_fs, logger_fs.
Qed.

Lemma adjust_speed_registry path speed : keeps same_registry (_adjust_speed E path speed).
Proof.
  unfold _adjust_speed, adjust_speed_body. repeat keeps_step;
    eauto using fs_read_registry, fs_write_registry, logger_registry.
Qed.
End Frames.

(** ** The duration window *)

Lemma clamp_duration_empty target_sr :
  0 < target_sr → clamp_duration target_sr [] = Raise ZeroDivisionError.
Proof.
  intros H. unfold clamp_duration, py_len. simpl.
  destruct (Z.ltb_spec (Z.of_nat 0) (target_sr * 3)); [done|lia].
Qed.

Lemma py_slice_to_nonneg {A} (n : Z) (l : list A) :
  0 ≤ n → py_slice_to n l = take (Z.to_nat n) l.
Proof. intros H. unfold py_slice_to. by destruct (Z.leb_spec 0 n); [|lia]. Qed.

(** C2. With a positive target rate, a signal of at least one sample that
    reaches the duration window of [preprocess_audio] comes out as follows:
    shorter than three seconds, it is looped (sample [i] of the result is
    sample [i mod len] of the input) to exactly three seconds; longer than
    thirty seconds, it is cut to its first thirty seconds; from three to
    thirty seconds, both ends included, it is unchanged.  (librosa rejects an
    empty array before the window; the window itself would divide by zero on
    one, see [clamp_duration_empty].) *)
Theorem clamp_duration_window (target_sr : Z) (audio : signal) :
  0 < target_sr → audio ≠ [] →
  ∃ out, clamp_duration target_sr audio = Ok out ∧
    (py_len audio < 3 * target_sr →
       py_len out = 3 * target_sr ∧
       ∀ i, (i < length out)%nat → out !! i = audio !! (i mod length audio)%nat) ∧
    (30 * target_sr < py_len audio →
       out = take (Z.to_nat (30 * target_sr)) audio ∧ py_len out = 30 * target_sr) ∧
    (3 * target_sr ≤ py_len audio ≤ 30 * target_sr → out = audio) ∧
    (py_len audio = 3 * target_sr → out = audio) ∧
    (py_len audio = 30 * target_sr → out = audio).
Proof.
  intros Hsr Hne. pose proof (py_len_nonempty audio Hne) as Hlen.
  unfold clamp_duration.
  destruct (Z.ltb_spec (py_len audio) (target_sr * 3)) as [Hshort|Hlong].
  - destruct (py_ceil_div_pos (target_sr * 3) (py_len audio) Hlen) as (k & -> & Hk & Hkpos).
    simpl. unfold np_tile. destruct (Z.ltb_spec k 0) as [|_]; [lia|].
    unfold mbind, mret, result_bind, result_ret. cbn beta iota.
    rewrite py_slice_to_nonneg by lia.
    set (tiled := concat _).
    assert (length tiled = (Z.to_nat k * length audio)%nat) as Htl by apply (length_tile audio).
    assert (Z.to_nat (target_sr * 3) ≤ length tiled)%nat as Hfit.
    { rewrite Htl. unfold py_len in *. nia. }
    assert (py_len (take (Z.to_nat (target_sr * 3)) tiled) = target_sr * 3) as Hout.
    { unfold py_len. rewrite length_take. lia. }
    rewrite Hout. destruct (Z.ltb_spec (target_sr * 30) (target_sr * 3)); [lia|].
    eexists; split; [reflexivity|]. split_and!; try lia.
    intros _. split; [lia|]. intros i Hi.
    rewrite length_take in Hi.
    etrans; [apply lookup_take_lt; lia|]. apply (lookup_tile audio). lia.
  - unfold mbind, mret, result_bind, result_ret. cbn beta iota.
    destruct (Z.ltb_spec (target_sr * 30) (py_len audio)) as [Hcut|Hfit].
    + rewrite py_slice_to_nonneg by lia.
      eexists; split; [reflexivity|]. split_and!; try lia.
      intros _. split; [by rewrite Z.mul_comm|].
      unfold py_len in *. rewrite length_take. lia.
    + eexists; split; [reflexivity|]. split_and!; (done || lia).
Qed.

Lemma clamp_duration_window_witness :
  ∃ out, clamp_duration 22050 [1#2; -(1#2); 1#4]%Q = Ok out ∧ py_len out = 66150.
Proof.
  destruct (clamp_duration_window 22050 [1#2; -(1#2); 1#4]%Q) as (out & Hout & Hpad & _);
    [lia | discriminate |].
  exists out. split; [exact Hout|]. apply Hpad. unfold py_len. simpl. lia.
Defined.

(** ** Taking successful runs apart *)

Lemma bind_ok_inv {A B} (m : M A) (f : A → M B) w b w' :
  (m ≫= f) w = (Ok b, w') → ∃ a w1, m w = (Ok a, w1) ∧ f a w1 = (Ok b, w').
Proof.
  rewrite bind_run. destruct (m w) as [[a|e] w1]; [|done]. intros H. by exists a, w1.
Qed.

Lemma lift_ok_inv {A} (r : result A) w a w' : lift r w = (Ok a, w') → r = Ok a ∧ w' = w.
Proof. by intros [= -> ->]. Qed.

Lemma ret_ok_inv {A} (x : A) w a w' :
  (mret x : M A) w = (Ok a, w') → a = x ∧ w' = w.
Proof. by intros [= -> ->]. Qed.

Ltac ok_step :=
  match goal with
  | H : @mbind M _ _ _ _ _ _ = (Ok _, _) |- _ =>
      apply bind_ok_inv in H as (? & ? & ? & ?); cbv beta in *
  | H : lift _ _ = (Ok _, _) |- _ => apply lift_ok_inv in H as [? ?]; subst
  | H : @mret M _ _ _ _ = (Ok _, _) |- _ => apply ret_ok_inv in H as [? ?]; subst
  | H : (let '(_, _) := ?x in _) _ = _ |- _ => destruct x
  | H : fs_read _ _ = (Ok _, _) |- _ => apply fs_read_ok in H as [? ?]; subst
  | H : logger _ _ _ = _ |- _ => rewrite logger_run in H; injection H as ? ?; subst
  | H : fs_write _ _ _ _ = (Ok ?u, _) |- _ =>
      destruct u; apply fs_write_ok in H; subst
  | H : (if ?b then _ else _) _ = (Ok _, _) |- _ => destruct b eqn:?
  end.

(** ** Strings *)

Lemma str_app_cons (c : ascii) (a b : string) : String c a +:+ b = String c (a +:+ b).
Proof. reflexivity. Qed.

Lemma str_app_nil (b : string) : EmptyString +:+ b = b.
Proof. reflexivity. Qed.

Lemma str_length_app (a b : string) :
  String.length (a +:+ b) = (String.length a + String.length b)%nat.
Proof.
  induction a as [|c a IH]; [done|]. rewrite str_app_cons. simpl. by rewrite IH.
Qed.

Lemma replace_length (s : string) :
  (String.length s ≤ String.length (str_replace_char dot "_processed." s))%nat ∧
  (str_contains dot s = true →
   String.length s < String.length (str_replace_char dot "_processed." s))%nat.
Proof.
  induction s as [|a s [IH1 IH2]]; simpl; [split; [lia|done]|].
  destruct (decide (a = dot)) as [->|Hne].
  - rewrite str_length_app. simpl. split; [lia|]. intros _. lia.
  - simpl. split; [lia|]. intros H. apply IH2 in H. lia.
Qed.

Lemma replace_changes (s : string) :
  str_contains dot s = true → str_replace_char dot "_processed." s ≠ s.
Proof.
  intros H Heq. apply replace_length in H. rewrite Heq in H. lia.
Qed.

Lemma replace_no_dot (s : string) :
  str_contains dot s = false → str_replace_char dot "_processed." s = s.
Proof.
  induction s as [|a s IH]; simpl; [done|].
  destruct (decide (a = dot)); [done|]. intros H. by rewrite IH.
Qed.

(** The rewriting distributes over the directory and the last component:
    the inserted text has no slash. *)
Lemma split_dir_replace (s : string) :
  split_dir (str_replace_char dot "_processed." s) =
  match split_dir s with
  | (Some d, b) => (Some (str_replace_char dot "_processed." d),
                    str_replace_char dot "_processed." b)
  | (None, b) => (None, str_replace_char dot "_processed." b)
  end.
Proof.
  induction s as [|a s IH]; [done|].
  cbn [str_replace_char split_dir].
  destruct (decide (a = dot)) as [->|Hne].
  - cbv [String.append]. cbn [split_dir]. rewrite IH.
    destruct (split_dir s) as [[d|] b]; cbn; by rewrite ?decide_False by done.
  - cbn [split_dir]. rewrite IH.
    destruct (split_dir s) as [[d|] b]; cbn [str_replace_char];
      [by rewrite decide_False by done|].
    destruct (decide (a = slash)); [done|].
    cbn [str_replace_char]. by rewrite decide_False by done.
Qed.

(** ** Preprocessing *)

Section Preprocess.
Context (E : Externals).

(** C3. [preprocess_audio] returns a path from every state and for every
    input: it never raises.  Whatever exception its body raises is logged
    and the original path is returned; in particular when the file is
    missing, or when librosa cannot decode it (a corrupt or empty file). *)
Theorem preprocess_audio_never_raises (path : string) (sr : Z) (w : world) :
  (∃ p w', preprocess_audio E path sr w = (Ok p, w')) ∧
  (∀ e w1, preprocess_body E path sr w = (Raise e, w1) →
     preprocess_audio E path sr w = (Ok path, add_log (preprocess_error e) w1)) ∧
  (∀ c e, fs w !! path = Some (File c) → librosa_load E path c None = Raise e →
     preprocess_audio E path sr w = (Ok path, add_log (preprocess_error e) w)) ∧
  (fs w !! path = None →
     preprocess_audio E path sr w =
       (Ok path, add_log (preprocess_error (FileNotFoundError path)) w)).
Proof.
  assert (∀ e w1, preprocess_body E path sr w = (Raise e, w1) →
    preprocess_audio E path sr w = (Ok path, add_log (preprocess_error e) w1)) as Hcatch.
  { intros e w1 H. unfold preprocess_audio. by rewrite (try_except_raise _ _ _ _ _ H). }
  split_and!; [|exact Hcatch|..].
  - destruct (preprocess_body E path sr w) as [[p|e] w1] eqn:Hb.
    + exists p, w1. unfold preprocess_audio. by rewrite (try_except_ok _ _ _ _ _ Hb).
    + eauto.
  - intros c e Hc He. apply Hcatch.
    unfold preprocess_body. rewrite bind_run. unfold fs_read at 1. rewrite Hc.
    rewrite bind_run. unfold lift at 1. by rewrite He.
  - intros Hc. apply Hcatch.
    unfold preprocess_body. rewrite bind_run. unfold fs_read at 1. by rewrite Hc.
Qed.

(** What a successful run of the body did. *)
Lemma preprocess_body_ok path sr w p w' :
  preprocess_body E path sr w = (Ok p, w') →
  p = str_replace_char dot "_processed." path ∧
  ∃ audio, w' = set_fs (<[p := File (Audio [audio] sr)]> (fs w)) w.
Proof.
  intros H. unfold preprocess_body in H. repeat ok_step; eauto.
Qed.

(** What a successful run does on an input path that contains a dot: it
    writes the result at the path obtained by putting [_processed] before
    every dot.  That path differs from the input path; no other path
    changes, so the original file is as it was; and the new file is in the
    directory of the original whenever the directory part of the path has
    no dot. *)
Lemma preprocess_writes_new_file (path : string) (sr : Z) (w : world)
    (p : string) (w' : world) :
  str_contains dot path = true →
  preprocess_body E path sr w = (Ok p, w') →
  preprocess_audio E path sr w = (Ok p, w') ∧
  p = str_replace_char dot "_processed." path ∧
  p ≠ path ∧
  (∃ audio, fs w' = <[p := File (Audio [audio] sr)]> (fs w)) ∧
  fs w' !! path = fs w !! path ∧
  (∀ d, (split_dir path).1 = Some d → str_contains dot d = false →
        (split_dir p).1 = Some d) ∧
  ((split_dir path).1 = None → (split_dir p).1 = None).
Proof.
  intros Hdot Hb.
  destruct (preprocess_body_ok _ _ _ _ _ Hb) as (Hp & audio & Hw).
  pose proof (replace_changes path Hdot) as Hne. rewrite <- Hp in Hne.
  split_and!; try done.
  - unfold preprocess_audio. by rewrite (try_except_ok _ _ _ _ _ Hb).
  - exists audio. by rewrite Hw.
  - rewrite Hw. simpl. by rewrite lookup_insert_ne.
  - intros d Hd Hnd. rewrite Hp, split_dir_replace.
    destruct (split_dir path) as [[d'|] b]; simplify_eq/=.
    by rewrite replace_no_dot.
  - intros Hd. rewrite Hp, split_dir_replace.
    by destruct (split_dir path) as [[d'|] b]; simplify_eq/=.
Qed.
End Preprocess.

Lemma preprocess_audio_never_raises_witness :
  preprocess_audio Demo.libs "gone.wav" 22050 Demo.fresh =
    (Ok "gone.wav",
     add_log (preprocess_error (FileNotFoundError "gone.wav")) Demo.fresh).
Proof.
  apply (preprocess_audio_never_raises Demo.libs "gone.wav" 22050 Demo.fresh).
  reflexivity.
Defined.

Lemma preprocess_writes_new_file_witness :
  ∃ w', preprocess_audio Demo.libs "clip.wav" 8 Demo.one_clip = (Ok "clip_processed.wav", w') ∧
        fs w' !! "clip.wav" = Some (File (Bytes "RIFF")).
Proof.
  eexists. 
  destruct (preprocess_writes_new_file Demo.libs "clip.wav" 8 Demo.one_clip
              "clip_processed.wav" _ eq_refl eq_refl) as (H1 & _ & _ & _ & H2 & _).
  split; [exact H1|]. rewrite H2. reflexivity.
Defined.

(** The sentence as the specification has it fails on a path whose directory
    has a dot: the result lands in another directory. *)
Lemma writes_beside_original_fails :
  ¬ writes_beside_original Demo.libs "v1.0/clip.wav" 8 Demo.dotted_dir.
Proof.
  intros H.
  destruct (H "v1_processed.0/clip_processed.wav"
              (preprocess_body Demo.libs "v1.0/clip.wav" 8 Demo.dotted_dir).2)
    as (_ & Hdir & _).
  - vm_compute. reflexivity.
  - vm_compute in Hdir. discriminate Hdir.
Qed.

(** C7.  The code misses the sentence on a path whose directory part has a
    dot.  [audio_path.replace('.', '_processed.')] is meant to put
    [_processed] before the extension, and it rewrites every dot of the
    path: the recording [v1.0/clip.wav] is written to
    [v1_processed.0/clip_processed.wav], in another directory than the
    original, and nothing is written beside the original. *)
Theorem preprocess_leaves_directory :
  ∃ w', preprocess_audio Demo.libs "v1.0/clip.wav" 8 Demo.dotted_dir =
          (Ok "v1_processed.0/clip_processed.wav", w') ∧
        (split_dir "v1.0/clip.wav").1 = Some "v1.0" ∧
        (split_dir "v1_processed.0/clip_processed.wav").1 = Some "v1_processed.0" ∧
        fs w' !! "v1.0/clip_processed.wav" = None ∧
        (∃ audio, fs w' !! "v1_processed.0/clip_processed.wav"
                    = Some (File (Audio [audio] 8))) ∧
        fs w' !! "v1.0/clip.wav" = fs Demo.dotted_dir !! "v1.0/clip.wav" ∧
        ¬ writes_beside_original Demo.libs "v1.0/clip.wav" 8 Demo.dotted_dir.
Proof.
  exists (preprocess_audio Demo.libs "v1.0/clip.wav" 8 Demo.dotted_dir).2.
  split_and!.
  - apply injective_projections; [vm_compute; reflexivity|reflexivity].
  - vm_compute. reflexivity.
  - vm_compute. reflexivity.
  - vm_compute. reflexivity.
  - eexists. vm_compute. reflexivity.
  - vm_compute. reflexivity.
  - exact writes_beside_original_fails.
Qed.

(** ** The registry dictionary *)

Lemma dict_get_None k d : dict_get k d = None ↔ k ∉ dict_keys d.
Proof.
  unfold dict_keys. induction d as [|[k' v] d IH]; csimpl.
  - split; [intros _; apply not_elem_of_nil|done].
  - rewrite not_elem_of_cons. destruct (decide (k = k')) as [->|Hne].
    + split; [done|]. by intros [? _].
    + rewrite IH. split; [done|]. by intros [_ ?].
Qed.

Lemma dict_contains_true k d : dict_contains k d = true ↔ k ∈ dict_keys d.
Proof.
  unfold dict_contains. rewrite bool_decide_eq_true.
  destruct (dict_get k d) eqn:Hg.
  - split; [intros _|by eauto].
    destruct (decide (k ∈ dict_keys d)) as [|Hn]; [done|].
    apply dict_get_None in Hn. congruence.
  - split; [by intros [? ?]|]. intros Hin. by apply dict_get_None in Hg.
Qed.

Lemma dict_contains_false k d : dict_contains k d = false ↔ k ∉ dict_keys d.
Proof.
  rewrite <- dict_contains_true. by destruct (dict_contains k d).
Qed.

Lemma dict_contains_get k d : dict_contains k d = true ↔ is_Some (dict_get k d).
Proof. unfold dict_contains. apply bool_decide_eq_true. Qed.

Lemma dict_get_set_eq k v d : dict_get k (dict_set k v d) = Some v.
Proof.
  induction d as [|[k' v'] d IH]; simpl.
  - by rewrite decide_True.
  - destruct (decide (k = k')) as [->|Hne]; simpl.
    + by rewrite decide_True.
    + by rewrite decide_False.
Qed.

Lemma dict_get_set_ne k k' v d : k ≠ k' → dict_get k' (dict_set k v d) = dict_get k' d.
Proof.
  intros Hne. induction d as [|[k2 v2] d IH]; simpl.
  - by rewrite decide_False.
  - destruct (decide (k = k2)) as [->|]; simpl.
    + by rewrite !decide_False.
    + destruct (decide (k' = k2)); [done|]. apply IH.
Qed.

Lemma dict_keys_set k v d :
  dict_keys (dict_set k v d) =
  if dict_contains k d then dict_keys d else dict_keys d ++ [k].
Proof.
  unfold dict_keys. induction d as [|[k' v'] d IH]; [done|]. csimpl.
  destruct (decide (k = k')) as [->|Hne].
  - assert (dict_contains k' ((k', v') :: d) = true) as ->; [|done].
    apply dict_contains_true. csimpl. left.
  - csimpl. rewrite IH.
    assert (dict_contains k ((k', v') :: d) = dict_contains k d) as ->; [|by case_match].
    unfold dict_contains. simpl. by rewrite decide_False.
Qed.

Lemma dict_wf_set k v d : dict_wf d → dict_wf (dict_set k v d).
Proof.
  unfold dict_wf. rewrite dict_keys_set.
  destruct (dict_contains k d) eqn:Hc; [done|].
  intros Hwf. apply NoDup_app. split_and!; [done| |apply NoDup_singleton].
  intros x Hx ->%list_elem_of_singleton. by apply dict_contains_false in Hc.
Qed.

Lemma dict_keys_remove_subseteq k d : dict_keys (dict_remove k d) ⊆ dict_keys d.
Proof.
  unfold dict_keys. induction d as [|[k' v'] d IH]; csimpl; [done|].
  destruct (decide (k = k')); csimpl.
  - intros x Hx. by right.
  - intros x [->|Hx]%elem_of_cons; [left|right; by apply IH].
Qed.

Lemma dict_wf_remove k d : dict_wf d → dict_wf (dict_remove k d).
Proof.
  unfold dict_wf, dict_keys. induction d as [|[k' v'] d IH]; csimpl; [done|].
  intros [Hk Hd]%NoDup_cons. destruct (decide (k = k')); [done|]. csimpl.
  apply NoDup_cons. split; [|by apply IH].
  intros Hin. apply Hk. by apply (dict_keys_remove_subseteq k d).
Qed.

Lemma dict_get_remove_eq k d : dict_wf d → dict_get k (dict_remove k d) = None.
Proof.
  unfold dict_wf, dict_keys. induction d as [|[k' v'] d IH]; csimpl; [done|].
  intros [Hk Hd]%NoDup_cons. destruct (decide (k = k')) as [->|Hne].
  - by apply dict_get_None.
  - csimpl. rewrite decide_False by done. by apply IH.
Qed.

Lemma dict_get_remove_ne k k' d : k ≠ k' → dict_get k' (dict_remove k d) = dict_get k' d.
Proof.
  intros Hne. induction d as [|[k2 v2] d IH]; simpl; [done|].
  destruct (decide (k = k2)) as [->|]; simpl.
  - by rewrite decide_False.
  - destruct (decide (k' = k2)); [done|]. apply IH.
Qed.

(** In a list without repetition a member occurs exactly once. *)
Lemma NoDup_occurs_once (l : list string) (x : string) :
  NoDup l → x ∈ l → length (filter (λ y, y = x) l) = 1%nat.
Proof.
  induction l as [|a l IH]; intros Hnd Hin; [by apply elem_of_nil in Hin|].
  apply NoDup_cons in Hnd as [Ha Hnd]. rewrite filter_cons.
  destruct (decide (a = x)) as [->|Hne]; simpl.
  - f_equal. apply length_zero_iff_nil.
    destruct (filter (λ y, y = x) l) as [|b l'] eqn:Hf; [done|].
    assert (b ∈ filter (λ y, y = x) l) as [-> Hb]%list_elem_of_filter
      by (rewrite Hf; left).
    done.
  - apply IH; [done|]. apply elem_of_cons in Hin as [->|]; done.
Qed.

(** ** Unknown speakers and deletion *)

Lemma try_except_ok_inv {A} (m : M A) h w a w' :
  try_except m h w = (Ok a, w') →
  m w = (Ok a, w') ∨ ∃ e w1, m w = (Raise e, w1) ∧ h e w1 = (Ok a, w').
Proof.
  unfold try_except. destruct (m w) as [[x|e] w1]; [intros [= -> ->]; by left|].
  intros H. right. by exists e, w1.
Qed.

Section Registry.
Context (E : Externals).

Lemma has_speaker_run name w :
  has_speaker name w = (Ok (dict_contains name (voices w)), w).
Proof. reflexivity. Qed.

Lemma list_speakers_run w : list_speakers w = (Ok (dict_keys (voices w)), w).
Proof. reflexivity. Qed.

(** C6. Once the service has started, a synthesize request for a name that
    is not in the registry fails with status 404; the detail of the error
    ends with the printed list of the registered names, in registration
    order.  The state is untouched: nothing is generated, written or
    logged.  The [synthesize] method itself refuses such a name with a
    [ValueError], just as untouched. *)
Theorem synthesize_unknown_speaker (text name lang : string) (speed : Q) (w : world) :
  started w = true →
  dict_contains name (voices w) = false →
  synthesize_speech E text name lang speed w =
    (Raise (HTTPException 404
              ("Speaker '" +:+ name +:+ "' not found. Available speakers: "
               +:+ py_repr_list (dict_keys (voices w)))), w) ∧
  list_speakers w = (Ok (dict_keys (voices w)), w) ∧
  synthesize E text name lang speed w =
    (Raise (ValueError ("Speaker '" +:+ name +:+ "' not found")), w).
Proof.
  intros Hs Hc. split_and!; [|done|].
  - unfold synthesize_speech. rewrite bind_run. cbn [get_world].
    rewrite Hs. cbn [negb]. rewrite bind_run, has_speaker_run, Hc. cbn [negb].
    by rewrite bind_run, list_speakers_run.
  - unfold synthesize. rewrite bind_run. cbn [get_world].
    apply dict_contains_false, dict_get_None in Hc. by rewrite Hc.
Qed.

(** *** [delete_speaker] *)

Lemma fs_rmtree_ok d w u w' :
  fs_rmtree E d w = (Ok u, w') →
  fs w !! d = Some Dir ∧
  w' = set_fs (filter (λ kv, is_under d kv.1 = false) (fs w)) w.
Proof. unfold fs_rmtree. intros H. repeat case_match; by simplify_eq. Qed.

Lemma save_voices_metadata_ok w :
  ∃ w', save_voices_metadata E w = (Ok tt, w').
Proof.
  unfold save_voices_metadata, try_except. rewrite bind_run. cbn [get_world].
  destruct (fs_write E voice_metadata_file (Json (voices w)) w) as [[[]|e] w1]; eauto.
Qed.

Lemma save_voices_metadata_is_dir w r w' q :
  save_voices_metadata E w = (r, w') → is_dir (fs w') q = is_dir (fs w) q.
Proof.
  unfold save_voices_metadata, try_except. rewrite bind_run. cbn [get_world].
  destruct (fs_write E voice_metadata_file (Json (voices w)) w) as [[[]|e] w1] eqn:Hw.
  - intros [= _ <-]. eapply fs_write_is_dir, Hw.
  - rewrite logger_run. intros [= _ <-]. simpl. eapply fs_write_is_dir, Hw.
Qed.

(** The body of [delete_speaker] on a registered name, split at the removal
    of the directory. *)
Lemma delete_body_run name w :
  dict_contains name (voices w) = true →
  ∀ r w1,
    (if exists_path (fs w) (voice_dir_of name)
     then fs_rmtree E (voice_dir_of name) else mret tt) w = (r, w1) →
    match r with
    | Raise e => delete_body E name w = (Raise e, w1)
    | Ok _ =>
        ∃ w2, save_voices_metadata E
                (set_voices (dict_remove name (voices w)) w1) = (Ok tt, w2) ∧
              delete_body E name w =
                (Ok true, add_log ("INFO", "Successfully deleted speaker: " +:+ name) w2)
    end.
Proof.
  intros Hc r w1 Hrm.
  assert (voices w1 = voices w) as Hv.
  { destruct (exists_path (fs w) (voice_dir_of name)).
    - by apply fs_rmtree_registry in Hrm as (? & _).
    - by injection Hrm as _ <-. }
  unfold delete_body. fold (voice_dir_of name).
  rewrite bind_run. cbn [fs_exists]. rewrite bind_run, Hrm.
  destruct r as [u|e]; [|done].
  rewrite bind_run. cbn [get_world]. rewrite Hv, Hc.
  rewrite bind_run. cbn [modify].
  destruct (save_voices_metadata_ok (set_voices (dict_remove name (voices w)) w1))
    as [w2 Hsave].
  exists w2. split; [done|]. by rewrite bind_run, Hsave.
Qed.

Lemma delete_speaker_run name w :
  dict_contains name (voices w) = true →
  ∀ r w1, delete_body E name w = (r, w1) →
    delete_speaker E name w =
      match r with
      | Ok b => (Ok b, w1)
      | Raise e => (Ok false, add_log (delete_error name e) w1)
      end.
Proof.
  intros Hc r w1 Hb. unfold delete_speaker. rewrite bind_run. cbn [get_world].
  rewrite Hc. cbn [negb]. unfold try_except. rewrite Hb. by destruct r.
Qed.

(** What [delete_speaker] does to the registry: nothing, returning
    [False], or the removal of the name, returning [True]. *)
Lemma delete_speaker_registry name w r w' :
  delete_speaker E name w = (r, w') →
  started w' = started w ∧ (uuid_ctr w ≤ uuid_ctr w')%nat ∧
  ((voices w' = voices w ∧ r = Ok false) ∨
   (voices w' = dict_remove name (voices w) ∧ r = Ok true ∧
    dict_contains name (voices w) = true)).
Proof.
  intros H.
  destruct (decide (dict_contains name (voices w) = true)) as [Hc|Hc%not_true_is_false].
  2:{ unfold delete_speaker in H. rewrite bind_run in H. cbn [get_world] in H.
      rewrite Hc in H. injection H as <- <-. split_and!; [done..|]. by left. }
  destruct ((if exists_path (fs w) (voice_dir_of name)
             then fs_rmtree E (voice_dir_of name) else mret tt) w) as [r1 w1] eqn:Hrm.
  assert (same_registry w w1) as (Hv1 & Hs1 & Hc1).
  { destruct (exists_path (fs w) (voice_dir_of name)).
    - eapply fs_rmtree_registry, Hrm.
    - by injection Hrm as _ <-. }
  pose proof (delete_body_run name w Hc r1 w1 Hrm) as Hb.
  destruct r1 as [u|e].
  - destruct Hb as (w2 & Hsave & Hb).
    rewrite (delete_speaker_run name w Hc _ _ Hb) in H. injection H as <- <-.
    apply save_voices_metadata_registry in Hsave as (Hv2 & Hs2 & Hc2).
    cbn in *. split_and!; [congruence|lia|]. right. by rewrite Hv2.
  - rewrite (delete_speaker_run name w Hc _ _ Hb) in H. injection H as <- <-.
    cbn. split_and!; [done..|]. by left.
Qed.

(** C4, as the code has it.  [delete_speaker] never raises.  For a name that is not registered
    it returns [False] and changes nothing.  When it returns [True] the
    name is gone from the registry (which otherwise keeps its entries and
    their order), [has_speaker] answers [False], the speaker's directory is
    no longer a directory, and nothing that was below it is left (the index
    file, rewritten right after, is the one path that may be there again).
    It does return [True] for a registered name whose directory is absent
    or is removed without error, whether or not the index file can then be
    rewritten.  An error while removing the directory is logged and turned
    into [False], with the registry unchanged. *)
Theorem delete_speaker_spec (name : string) (w : world) :
  (dict_contains name (voices w) = false → delete_speaker E name w = (Ok false, w)) ∧
  (∃ b w', delete_speaker E name w = (Ok b, w')) ∧
  (∀ w', delete_speaker E name w = (Ok true, w') → dict_wf (voices w) →
     dict_contains name (voices w) = true ∧
     voices w' = dict_remove name (voices w) ∧
     has_speaker name w' = (Ok false, w') ∧
     is_dir (fs w') (voice_dir_of name) = false ∧
     (∀ p, is_under (voice_dir_of name) p = true → p ≠ voice_metadata_file →
           fs w !! voice_dir_of name ≠ None → fs w' !! p = None)) ∧
  (dict_contains name (voices w) = true →
   (fs w !! voice_dir_of name = None ∨
    (fs w !! voice_dir_of name = Some Dir ∧
     rmtree_fault E (voice_dir_of name) (fs w) = None)) →
   ∃ w', delete_speaker E name w = (Ok true, w')) ∧
  (dict_contains name (voices w) = true →
   ∀ e w1, exists_path (fs w) (voice_dir_of name) = true →
     fs_rmtree E (voice_dir_of name) w = (Raise e, w1) →
     delete_speaker E name w = (Ok false, add_log (delete_error name e) w1) ∧
     voices w1 = voices w).
Proof.
  assert (∀ r w1,
    dict_contains name (voices w) = true →
    delete_body E name w = (r, w1) →
    delete_speaker E name w =
      match r with
      | Ok b => (Ok b, w1)
      | Raise e => (Ok false, add_log (delete_error name e) w1)
      end) as Hwrap.
  { intros r w1 Hc Hb. by apply delete_speaker_run. }
  split_and!.
  - intros Hc. unfold delete_speaker. rewrite bind_run. cbn [get_world]. by rewrite Hc.
  - destruct (decide (dict_contains name (voices w) = true)) as [Hc|Hc%not_true_is_false].
    + destruct (delete_body E name w) as [r w1] eqn:Hb.
      rewrite (Hwrap r w1 Hc eq_refl). destruct r; eauto.
    + exists false, w. unfold delete_speaker. rewrite bind_run. cbn [get_world].
      by rewrite Hc.
  - intros w' Hdel Hwf.
    destruct (decide (dict_contains name (voices w) = true)) as [Hc|Hc%not_true_is_false].
    2:{ unfold delete_speaker in Hdel. rewrite bind_run in Hdel. cbn [get_world] in Hdel.
        rewrite Hc in Hdel. discriminate Hdel. }
    destruct ((if exists_path (fs w) (voice_dir_of name)
               then fs_rmtree E (voice_dir_of name) else mret tt) w) as [r w1] eqn:Hrm.
    pose proof (delete_body_run name w Hc r w1 Hrm) as Hb.
    destruct r as [u|e].
    2:{ rewrite (Hwrap _ _ Hc Hb) in Hdel. discriminate Hdel. }
    destruct Hb as (w2 & Hsave & Hb). rewrite (Hwrap _ _ Hc Hb) in Hdel.
    injection Hdel as <-.
    pose proof (save_voices_metadata_registry E _ _ _ Hsave) as (Hv & _ & _).
    pose proof (save_voices_metadata_is_dir _ _ _ (voice_dir_of name) Hsave) as Hd.
    pose proof (save_voices_metadata_fs E (λ q, q = voice_metadata_file) eq_refl
                  _ _ _ Hsave) as Hfs.
    cbn in Hv, Hd, Hfs.
    assert (dict_contains name (dict_remove name (voices w)) = false) as Hgone.
    { apply dict_contains_false, dict_get_None. by apply dict_get_remove_eq. }
    split_and!; [done|done|..].
    + rewrite has_speaker_run. cbn. by rewrite Hv, Hgone.
    + cbn. rewrite Hd. unfold is_dir.
      destruct (exists_path (fs w) (voice_dir_of name)) eqn:Hex.
      * apply fs_rmtree_ok in Hrm as [_ ->]. cbn.
        rewrite map_lookup_filter_None_2; [done|].
        right. intros x _. cbn. unfold is_under.
        rewrite bool_decide_eq_true_2 by done. done.
      * injection Hrm as _ <-. unfold exists_path in Hex.
        by destruct (fs w !! voice_dir_of name).
    + intros p Hp Hpm Hexists. cbn. rewrite (Hfs p Hpm). cbn.
      destruct (exists_path (fs w) (voice_dir_of name)) eqn:Hex.
      * apply fs_rmtree_ok in Hrm as [_ ->]. cbn.
        apply map_lookup_filter_None_2. right. intros x _. cbn. by rewrite Hp.
      * exfalso. apply Hexists. unfold exists_path in Hex.
        by destruct (fs w !! voice_dir_of name).
  - intros Hc Hfree.
    assert (∃ w1, (if exists_path (fs w) (voice_dir_of name)
                   then fs_rmtree E (voice_dir_of name) else mret tt) w = (Ok tt, w1))
      as [w1 Hrm].
    { destruct Hfree as [Hn|[Hd Hf]].
      - exists w. unfold exists_path. by rewrite Hn.
      - eexists. unfold exists_path. rewrite Hd. unfold fs_rmtree. by rewrite Hd, Hf. }
    destruct (delete_body_run name w Hc _ _ Hrm) as (w2 & _ & Hb).
    eexists. by rewrite (Hwrap _ _ Hc Hb).
  - intros Hc e w1 Hex Hrm. split.
    + apply (Hwrap (Raise e) w1 Hc).
      apply (delete_body_run name w Hc (Raise e) w1). by rewrite Hex.
    + by apply fs_rmtree_registry in Hrm as (? & _).
Qed.
End Registry.

(** ** Creating a profile *)

Lemma returns_bind {A B} (P : B → Prop) (m : M A) (f : A → M B) :
  (∀ a, returns P (f a)) → returns P (m ≫= f).
Proof. intros Hf w b w' (a & w1 & _ & H)%bind_ok_inv. eapply Hf, H. Qed.

Lemma returns_ret {A} (P : A → Prop) (a : A) : P a → returns P (mret a).
Proof. by intros Ha w b w' [= <- _]. Qed.

(** A first step that keeps [R] can be put before a program with
    postcondition [Q], if [Q] absorbs [R] and holds of a failure of the step. *)
Lemma post_bind_keeps {A B} (R : relation world) (Q : world → result B → world → Prop)
    (m : M A) (f : A → M B) :
  keeps R m →
  (∀ w w1 r w', R w w1 → Q w1 r w' → Q w r w') →
  (∀ w e w', R w w' → Q w (Raise e) w') →
  (∀ a, post Q (f a)) →
  post Q (m ≫= f).
Proof.
  intros Hm Habs Hfail Hf w r w' H. rewrite bind_run in H.
  destruct (m w) as [[a|e] w1] eqn:Em.
  - eapply Habs; [eapply Hm, Em | eapply Hf, H].
  - injection H as <- <-. eapply Hfail, Hm, Em.
Qed.

Ltac keeps_registry :=
  repeat keeps_step;
  eauto using logger_registry, uuid4_registry, fs_exists_registry, fs_read_registry,
    fs_write_registry, fs_mkdir_registry, fs_remove_registry, fs_rmtree_registry,
    tts_to_file_registry, save_voices_metadata_registry, preprocess_audio_registry,
    adjust_speed_registry.

Ltac keeps_fs :=
  repeat keeps_step;
  eauto using logger_fs, uuid4_fs, fs_exists_fs, fs_read_fs, fs_write_fs, fs_mkdir_fs,
    fs_remove_fs, tts_to_file_fs, save_voices_metadata_fs, preprocess_audio_fs.

(** The program of a run in the context keeps a relation: derive the
    relation between its two states. *)
Ltac keeps_in H R tac :=
  lazymatch type of H with
  | ?m ?w = (_, _) =>
      let Hk := fresh "Hk" in
      assert (keeps R m) as Hk by tac;
      apply Hk in H; clear Hk
  end.

Section Create.
Context (E : Externals).

Lemma create_post_absorbs name w w1 r w' :
  same_registry w w1 → create_post E name w1 r w' → create_post E name w r w'.
Proof.
  intros (Hv & Hs & Hc) (Hs' & Hc' & Hcases). unfold create_post.
  split_and!; [congruence|lia|].
  destruct Hcases as [[Hv' He]|(prof & Hv' & (Hst & Hsr & k & Hk & Hat) & Hrest)].
  - left. split; [congruence|done].
  - right. exists prof. split; [congruence|]. split; [|done].
    split_and!; [done..|]. exists k. split; [lia|done].
Qed.

Lemma create_post_raise name w e w' :
  same_registry w w' → create_post E name w (Raise e) w'.
Proof. intros (Hv & Hs & Hc). split_and!; [done..|]. left. eauto. Qed.

(** From the drawing of the uuid on. *)
Lemma create_tail_post name (prof : string → profile) (rest : M bool) :
  keeps same_registry rest → returns (λ b, b = true) rest →
  status (prof EmptyString) = "active" → sample_rate (prof EmptyString) = 22050 →
  (∀ t, status (prof t) = status (prof EmptyString) ∧
        sample_rate (prof t) = sample_rate (prof EmptyString) ∧
        created_at (prof t) = uuid_str t ∧
        reference_path (prof t) = reference_of name ∧
        test_sample_path (prof t) = test_sample_of name) →
  post (create_post E name)
    (token ← uuid4 E;
     modify (λ w, set_voices (dict_set name (prof token) (voices w)) w);;
     rest).
Proof.
  intros Hkeep Hret Hst Hsr Hprof w r w' H.
  rewrite bind_run in H. cbn [uuid4] in H. rewrite bind_run in H. cbn [modify] in H.
  pose proof (Hkeep _ _ _ H) as (Hv & Hs & Hc). cbn in Hv, Hs, Hc.
  destruct (Hprof (uuid4_hex E (uuid_ctr w))) as (H1 & H2 & H3 & H4 & H5).
  split_and!; [done|lia|]. right. eexists. split; [exact Hv|].
  split; [|split_and!; [done|done|]].
  - unfold fresh_profile. split_and!; [congruence|congruence|].
    exists (uuid_ctr w). split; [lia|done].
  - destruct r as [b|e]; [left|right; eauto]. f_equal. eapply Hret, H.
Qed.

Lemma create_body_post path name : post (create_post E name) (create_body E path name).
Proof.
  unfold create_body.
  repeat lazymatch goal with
  | |- post _ (let '(_, _) := ?x in _) => destruct x
  | |- post _ (uuid4 _ ≫= _) => fail
  | |- post _ (_ ≫= _) =>
      eapply (post_bind_keeps same_registry);
        [keeps_registry | apply create_post_absorbs | apply create_post_raise | intros ?]
  end.
  match goal with
  | |- post _ (uuid4 _ ≫= λ token, modify (λ w, set_voices (dict_set _ (@?prof token) _) _) ≫= _) =>
      apply (create_tail_post name prof)
  end.
  - keeps_registry.
  - repeat (apply returns_bind; intros ?). by apply returns_ret.
  - done.
  - done.
  - done.
Qed.

Lemma create_voice_embedding_post path name w r w' :
  create_voice_embedding E path name w = (r, w') →
  started w' = started w ∧ (uuid_ctr w ≤ uuid_ctr w')%nat ∧
  ((voices w' = voices w ∧ r = Ok false) ∨
   (∃ prof, voices w' = dict_set name prof (voices w) ∧
            fresh_profile (uuid4_hex E) (uuid_ctr w) (uuid_ctr w') prof ∧
            reference_path prof = reference_of name ∧
            test_sample_path prof = test_sample_of name ∧
            (r = Ok true ∨ r = Ok false))).
Proof.
  unfold create_voice_embedding, try_except.
  destruct (create_body E path name w) as [rb w1] eqn:Hb.
  apply create_body_post in Hb as (Hs & Hc & Hcases).
  destruct rb as [b|e].
  - intros [= <- <-]. split_and!; [done..|].
    destruct Hcases as [[_ [e He]]|(prof & ? & ? & ? & ? & Hr)]; [done|].
    right. exists prof. split_and!; try done.
    destruct Hr as [->|[e He]]; [by left|done].
  - rewrite bind_run, logger_run. intros [= <- <-]. cbn.
    split_and!; [done..|].
    destruct Hcases as [[Hv _]|(prof & ? & ? & ? & ? & _)]; [by left|].
    right. exists prof. split_and!; try done. by right.
Qed.
End Create.

(** ** The registry invariant *)

Section Invariant.
Context (E : Externals).

Global Instance inv_step_preorder : PreOrder (inv_step E).
Proof.
  split.
  - by intros w.
  - intros w1 w2 w3 (?&?&?) (?&?&?). unfold inv_step.
    split_and!; [congruence|lia|auto].
Qed.

Lemma fresh_profile_mono hex lo hi lo' hi' prof :
  (lo' ≤ lo)%nat → (hi ≤ hi')%nat →
  fresh_profile hex lo hi prof → fresh_profile hex lo' hi' prof.
Proof.
  intros ?? (? & ? & k & ? & ?). split_and!; [done..|]. exists k. split; [lia|done].
Qed.

Lemma same_registry_inv_step w w' : same_registry w w' → inv_step E w w'.
Proof.
  intros (Hv & Hs & Hc). split_and!; [done..|].
  intros [Hwf Hok]. split; [by rewrite Hv|].
  intros name prof Hg. rewrite Hv in Hg.
  eapply fresh_profile_mono; [..|by eapply Hok]; lia.
Qed.

Lemma create_keeps_inv path name : keeps (inv_step E) (create_voice_embedding E path name).
Proof.
  intros w r w' (Hs & Hc & Hcases)%create_voice_embedding_post.
  split_and!; [done..|]. intros [Hwf Hok]. unfold registry_ok.
  destruct Hcases as [[Hv _]|(prof & Hv & Hfresh & _)]; rewrite Hv.
  - split; [done|]. intros n p Hg.
    eapply fresh_profile_mono; [..|by eapply Hok]; lia.
  - split; [by apply dict_wf_set|]. intros n p Hg.
    destruct (decide (name = n)) as [->|Hne].
    + rewrite dict_get_set_eq in Hg. injection Hg as <-.
      eapply fresh_profile_mono; [..|exact Hfresh]; lia.
    + rewrite dict_get_set_ne in Hg by done.
      eapply fresh_profile_mono; [..|by eapply Hok]; lia.
Qed.

Lemma delete_keeps_inv name : keeps (inv_step E) (delete_speaker E name).
Proof.
  intros w r w' (Hs & Hc & Hcases)%delete_speaker_registry.
  split_and!; [done..|]. intros [Hwf Hok]. unfold registry_ok.
  destruct Hcases as [[Hv _]|(Hv & _ & _)]; rewrite Hv.
  - split; [done|]. intros n p Hg.
    eapply fresh_profile_mono; [..|by eapply Hok]; lia.
  - split; [by apply dict_wf_remove|]. intros n p Hg.
    destruct (decide (name = n)) as [->|Hne].
    + by rewrite dict_get_remove_eq in Hg.
    + rewrite dict_get_remove_ne in Hg by done.
      eapply fresh_profile_mono; [..|by eapply Hok]; lia.
Qed.

Lemma synthesize_registry text name lang speed :
  keeps same_registry (synthesize E text name lang speed).
Proof. unfold synthesize. keeps_registry. Qed.

Ltac keeps_inv :=
  repeat keeps_step;
  first [ apply create_keeps_inv | apply delete_keeps_inv
        | apply (keeps_weaken same_registry);
            [apply same_registry_inv_step
            |eauto using synthesize_registry; keeps_registry] ].

Lemma handle_keeps_inv c : keeps (inv_step E) (handle E c).
Proof.
  destruct c; cbn [handle].
  - unfold clone_voice, clone_voice_try, clone_voice_finally, has_speaker. keeps_inv.
  - unfold synthesize_speech, has_speaker, list_speakers. keeps_inv.
  - unfold list_speakers_endpoint, list_speakers. keeps_inv.
  - unfold delete_speaker_endpoint. keeps_inv.
Qed.

(** Start-up on a disk without an index file ends with an empty registry. *)
Lemma startup_fresh w0 w :
  fs w0 !! voice_metadata_file = None →
  startup_event E w0 = (Ok tt, w) →
  started w = true ∧ voices w = [].
Proof.
  intros Hnone H. unfold startup_event, VoiceCloner_init in H.
  apply bind_ok_inv in H as (? & w1 & [= _ <-] & H).
  apply bind_ok_inv in H as (? & w2 & Hinit & H).
  apply bind_ok_inv in H as (? & w3 & [= _ <-] & H).
  assert (keeps same_registry
            (os_makedirs E "uploads";; os_makedirs E "outputs";;
             logger "INFO" "Voice Cloning API started successfully!")) as Hk.
  { unfold os_makedirs. keeps_registry. }
  apply Hk in H as (Hv & Hs & _). cbn in Hv, Hs. split; [done|]. rewrite Hv.
  clear Hk Hv Hs.
  apply bind_ok_inv in Hinit as (? & w3 & [= _ <-] & H).
  apply bind_ok_inv in H as (? & w4 & Hload & H).
  keeps_in Hload (fs_outside (λ _, False)) keeps_fs.
  apply bind_ok_inv in H as (? & w5 & Hmk & H).
  apply (fs_mkdir_fs E (λ q, q = ppath_str voices_dir) _ eq_refl) in Hmk.
  apply bind_ok_inv in H as (d & w6 & Hld & H).
  assert (d = []) as ->.
  { unfold load_voices_metadata in Hld. rewrite bind_run in Hld. cbn [get_world] in Hld.
    unfold exists_path in Hld. rewrite (Hmk voice_metadata_file) in Hld by done.
    rewrite (Hload voice_metadata_file) in Hld by tauto. cbn in Hld.
    rewrite Hnone in Hld. by injection Hld as <- _. }
  apply bind_ok_inv in H as (? & w7 & [= _ <-] & H).
  rewrite logger_run in H. by injection H as _ <-.
Qed.

Lemma reachable_registry_ok w : reachable E w → started w = true ∧ registry_ok E w.
Proof.
  induction 1 as [w0 w Hnone Hstart|w c r w' _ [IHs IHok] Hrun].
  - destruct (startup_fresh _ _ Hnone Hstart) as [Hs Hv]. split; [done|].
    unfold registry_ok. rewrite Hv. split; [apply NoDup_nil_2|done].
  - apply handle_keeps_inv in Hrun as (Hs & _ & Hok). split; [congruence|auto].
Qed.

(** C1. In a registry that holds each name once: a name that is not in it
    is reported absent by [has_speaker]; and after a call of
    [create_voice_embedding] that returned [True], [has_speaker] reports the
    name present and [list_speakers] lists it exactly once. *)
Theorem create_then_has_and_listed (path name : string) (w : world) :
  dict_wf (voices w) →
  (name ∉ dict_keys (voices w) → has_speaker name w = (Ok false, w)) ∧
  (∀ w', create_voice_embedding E path name w = (Ok true, w') →
     has_speaker name w' = (Ok true, w') ∧
     ∃ l, list_speakers w' = (Ok l, w') ∧
          length (filter (λ x, x = name) l) = 1%nat).
Proof.
  intros Hwf. split.
  - intros Hnot%dict_contains_false. by rewrite has_speaker_run, Hnot.
  - intros w' (_ & _ & [[_ ?]|(prof & Hv & _)])%create_voice_embedding_post; [done|].
    assert (name ∈ dict_keys (voices w')) as Hin.
    { apply dict_contains_true, dict_contains_get. rewrite Hv, dict_get_set_eq. eauto. }
    split.
    + rewrite has_speaker_run. by apply dict_contains_true in Hin as ->.
    + exists (dict_keys (voices w')). split; [done|].
      apply NoDup_occurs_once; [|done]. rewrite Hv. by apply dict_wf_set.
Qed.

(** C9. The entry that a successful [create_voice_embedding] leaves under
    the name has status [active], sample rate 22050, and as [created_at]
    the text of a uuid drawn during that very call (not a time).  And in
    every state the service can reach from a fresh start, every entry of
    the registry has status [active], sample rate 22050, and as
    [created_at] the text of a uuid drawn since the start. *)
Theorem created_profiles_active :
  (∀ path name w w',
     create_voice_embedding E path name w = (Ok true, w') →
     ∃ prof, dict_get name (voices w') = Some prof ∧
             status prof = "active" ∧ sample_rate prof = 22050 ∧
             ∃ k, (uuid_ctr w ≤ k < uuid_ctr w')%nat ∧
                  created_at prof = uuid_str (uuid4_hex E k)) ∧
  (∀ w, reachable E w →
     ∀ name prof, dict_get name (voices w) = Some prof →
       status prof = "active" ∧ sample_rate prof = 22050 ∧
       ∃ k, (k < uuid_ctr w)%nat ∧ created_at prof = uuid_str (uuid4_hex E k)).
Proof.
  split.
  - intros path name w w'
      (_ & _ & [[_ ?]|(prof & Hv & Hfresh & _)])%create_voice_embedding_post; [done|].
    exists prof. split; [by rewrite Hv, dict_get_set_eq|]. exact Hfresh.
  - intros w [_ [_ Hok]]%reachable_registry_ok name prof Hg.
    destruct (Hok name prof Hg) as (? & ? & k & ? & ?).
    split_and!; [done..|]. exists k. split; [lia|done].
Qed.
End Invariant.

(** ** The paths of a profile *)

Lemma head_char_app (a b : string) :
  a ≠ EmptyString → head_char (a +:+ b) = head_char a.
Proof. by destruct a. Qed.

Lemma last_char_app (a b : string) :
  b ≠ EmptyString → last_char (a +:+ b) = last_char b.
Proof.
  intros Hb. induction a as [|c a IH]; [done|].
  rewrite str_app_cons. cbn [last_char]. rewrite IH.
  destruct (a +:+ b) eqn:Hab; [|done].
  destruct a; [|done]. by rewrite str_app_nil in Hab.
Qed.

Lemma str_app_assoc (a b c : string) : (a +:+ b) +:+ c = a +:+ (b +:+ c).
Proof. induction a as [|x a IH]; [done|]. by rewrite !str_app_cons, IH. Qed.

Lemma concat_snoc (ps : list string) (leaf : string) :
  String.concat "/" (ps ++ [leaf]) = dir_text ps +:+ leaf.
Proof.
  induction ps as [|p ps IH]; [done|].
  destruct ps as [|p' ps].
  - cbn. by rewrite str_app_assoc.
  - change (String.concat "/" ((p :: p' :: ps) ++ [leaf]))
      with (p +:+ "/" +:+ String.concat "/" ((p' :: ps) ++ [leaf])).
    rewrite IH. unfold dir_text.
    change (String.concat "/" (p :: p' :: ps))
      with (p +:+ "/" +:+ String.concat "/" (p' :: ps)).
    by rewrite !str_app_assoc.
Qed.

Lemma ppath_str_leaf (a : string) (ps : list string) (leaf : string) :
  ppath_str (PPath a (ps ++ [leaf])) = a +:+ dir_text ps +:+ leaf.
Proof.
  unfold ppath_str. cbn [parts anchor]. rewrite <- concat_snoc.
  by destruct ps.
Qed.

Lemma ppath_join_leaf (p : ppath) (leaf : string) :
  posix_parse leaf = PPath EmptyString [leaf] →
  ppath_str (ppath_join p leaf) = anchor p +:+ dir_text (parts p) +:+ leaf.
Proof.
  intros Hleaf. unfold ppath_join. rewrite Hleaf. cbn [anchor parts].
  rewrite bool_decide_eq_true_2 by done. apply ppath_str_leaf.
Qed.

Lemma head_concat (p : string) (ps : list string) :
  p ≠ EmptyString → head_char (String.concat "/" (p :: ps)) = head_char p.
Proof. intros Hp. destruct ps; [done|]. cbn [String.concat]. by apply head_char_app. Qed.

(** The reference recording and the test sample of a speaker have a common
    prefix, which starts inside [voice_embeddings] or, for an absolute
    speaker name, at the root. *)
Lemma profile_paths (name : string) :
  ∃ pre, reference_of name = pre +:+ "reference.wav" ∧
         test_sample_of name = pre +:+ "test_sample.wav" ∧
         (head_char pre = Some "v"%char ∨ head_char pre = Some slash).
Proof.
  unfold reference_of, test_sample_of.
  set (vd := ppath_join voices_dir name).
  exists (anchor vd +:+ dir_text (parts vd)).
  rewrite !ppath_join_leaf, !str_app_assoc by reflexivity.
  split_and!; [done..|].
  subst vd. unfold ppath_join.
  destruct (bool_decide (anchor (posix_parse name) = EmptyString)) eqn:Ha.
  - left. cbn [anchor parts]. change (anchor voices_dir) with EmptyString.
    rewrite str_app_nil. change (parts voices_dir) with ["voice_embeddings"].
    cbn [app dir_text]. rewrite head_char_app; [by rewrite head_concat|].
    by destruct (parts (posix_parse name)).
  - right. apply bool_decide_eq_false in Ha.
    unfold posix_parse in *. cbn [anchor parts] in *.
    repeat case_match; done.
Qed.

Lemma reference_not_test name : reference_of name ≠ test_sample_of name.
Proof.
  destruct (profile_paths name) as (pre & -> & -> & _).
  by intros ?%(inj (String.append pre)).
Qed.

Lemma reference_not_index name : reference_of name ≠ voice_metadata_file.
Proof.
  destruct (profile_paths name) as (pre & -> & _ & _). intros H.
  apply (f_equal last_char) in H. by rewrite last_char_app in H.
Qed.

Lemma test_not_index name : test_sample_of name ≠ voice_metadata_file.
Proof.
  destruct (profile_paths name) as (pre & _ & -> & _). intros H.
  apply (f_equal last_char) in H. by rewrite last_char_app in H.
Qed.

Lemma profile_paths_head name :
  (head_char (reference_of name) = Some "v"%char ∨
   head_char (reference_of name) = Some slash) ∧
  (head_char (test_sample_of name) = Some "v"%char ∨
   head_char (test_sample_of name) = Some slash).
Proof.
  destruct (profile_paths name) as (pre & -> & -> & Hpre).
  assert (pre ≠ EmptyString) by (by destruct pre, Hpre).
  by rewrite !head_char_app.
Qed.

(** A path below [uploads], and its rewriting, are neither of them. *)
Lemma upload_not_profile_path (rest name : string) :
  let file_path := "uploads/" +:+ rest in
  file_path ≠ reference_of name ∧ file_path ≠ test_sample_of name ∧
  str_replace_char dot "_processed." file_path ≠ reference_of name ∧
  str_replace_char dot "_processed." file_path ≠ test_sample_of name.
Proof.
  destruct (profile_paths_head name) as [Hr Ht].
  cbv zeta. split_and!; intros H; apply (f_equal head_char) in H; cbn in H;
    rewrite <- H in *; by destruct Hr, Ht.
Qed.

(** ** Cloning a voice over an existing one *)

Section Clone.
Context (E : Externals).

Lemma preprocess_audio_result path sr w p w' :
  preprocess_audio E path sr w = (Ok p, w') →
  p = path ∨ p = str_replace_char dot "_processed." path.
Proof.
  intros [H|(e & w1 & _ & H)]%try_except_ok_inv.
  - right. by apply preprocess_body_ok in H as [-> _].
  - left. rewrite bind_run, logger_run in H. by injection H as <- _.
Qed.

(** The files a successful [create_voice_embedding] leaves, when the
    upload and its preprocessed copy are not the profile's own files. *)
Lemma create_ok_files path name w w' :
  str_replace_char dot "_processed." path ≠ reference_of name →
  str_replace_char dot "_processed." path ≠ test_sample_of name →
  create_voice_embedding E path name w = (Ok true, w') →
  ∃ prof waveform wav sr,
    dict_get name (voices w') = Some prof ∧
    audio_duration prof = Qmake (n_frames waveform) 22050 ∧
    fs w' !! reference_of name = Some (File (Audio waveform 22050)) ∧
    tts_generate E test_text (Audio waveform 22050) "en" None = Ok (wav, sr) ∧
    fs w' !! test_sample_of name = Some (File (Audio [wav] sr)).
Proof.
  intros Hpr Hpt [H|(e & w1 & _ & H)]%try_except_ok_inv.
  2:{ rewrite bind_run, logger_run in H. discriminate H. }
  unfold create_body in H. fold (reference_of name) (test_sample_of name) in H.
  apply bind_ok_inv in H as (processed & w1 & Hpre & H).
  apply preprocess_audio_result in Hpre as Hproc.
  apply bind_ok_inv in H as ([] & w2 & _ & H).
  apply bind_ok_inv in H as (c & w3 & _ & H).
  apply bind_ok_inv in H as ([wf0 sr0] & w4 & _ & H).
  apply bind_ok_inv in H as (wf1 & w5 & _ & H).
  apply bind_ok_inv in H as (waveform & w6 & _ & H).
  apply bind_ok_inv in H as ([] & w7 & ->%fs_write_ok & H).
  apply bind_ok_inv in H as ([] & w8 & Htts & H).
  unfold tts_to_file in Htts.
  apply bind_ok_inv in Htts as (ref & ? & [Href ->]%fs_read_ok & Htts).
  cbn [fs set_fs] in Href. rewrite lookup_insert_eq in Href. injection Href as <-.
  apply bind_ok_inv in Htts as ([wav sr] & ? & [Hgen ->]%lift_ok_inv & Htts).
  apply fs_write_ok in Htts as ->.
  apply bind_ok_inv in H as (token & w9 & [= <- <-] & H).
  apply bind_ok_inv in H as ([] & w10 & [= <-] & H).
  pose proof (reference_not_test name) as Hrt.
  pose proof (reference_not_index name) as Hri.
  pose proof (test_not_index name) as Hti.
  (* what is left: saving the index, removing the copy, logging *)
  assert (keeps same_registry
            (save_voices_metadata E;;
             ex ← fs_exists processed;
             (if bool_decide (processed ≠ path) && ex
              then fs_remove E processed else mret ());;
             logger "INFO" ("Successfully created voice embedding for: " +:+ name);;
             mret true)) as Hreg by keeps_registry.
  assert (keeps (fs_outside (λ q, q = voice_metadata_file ∨
                                  q = str_replace_char dot "_processed." path))
            (save_voices_metadata E;;
             ex ← fs_exists processed;
             (if bool_decide (processed ≠ path) && ex
              then fs_remove E processed else mret ());;
             logger "INFO" ("Successfully created voice embedding for: " +:+ name);;
             mret true)) as Hfs.
  { destruct Hproc as [->| ->].
    - rewrite (bool_decide_eq_false_2 (path ≠ path)) by auto. cbn [andb]. keeps_fs.
    - keeps_fs. }
  pose proof (Hreg _ _ _ H) as (Hv & _ & _).
  pose proof (Hfs _ _ _ H) as Hout. cbn in Hv, Hout.
  eexists _, waveform, wav, sr. split_and!.
  - rewrite Hv. apply dict_get_set_eq.
  - done.
  - rewrite Hout by (intros [?|?]; congruence). cbn.
    rewrite lookup_insert_ne by congruence. apply lookup_insert_eq.
  - done.
  - rewrite Hout by (intros [?|?]; congruence). cbn. apply lookup_insert_eq.
Qed.

(** C5, as the code has it.  Once the service has started and for an upload
    with an audio content type: a clone-voice request for a registered name,
    without overwrite, fails with status 409 and leaves the whole state as
    it was.  With overwrite, when the request succeeds, the entry of the
    name has been replaced in place by a fresh profile, the reference file
    holds the newly saved waveform, and the test sample holds what the
    model generated from that reference. *)
Theorem clone_voice_existing (upload : UploadFile) (name : string) (w : world) :
  started w = true →
  is_audio_type (content_type upload) = true →
  dict_contains name (voices w) = true →
  clone_voice E upload name false w =
    (Raise (HTTPException 409 ("Speaker '" +:+ name
       +:+ "' already exists. Use overwrite=true to replace.")), w) ∧
  (∀ resp w', clone_voice E upload name true w = (Ok resp, w') →
     ∃ prof waveform wav sr,
       voices w' = dict_set name prof (voices w) ∧
       dict_keys (voices w') = dict_keys (voices w) ∧
       fresh_profile (uuid4_hex E) (uuid_ctr w) (uuid_ctr w') prof ∧
       reference_path prof = reference_of name ∧
       test_sample_path prof = test_sample_of name ∧
       audio_duration prof = Qmake (n_frames waveform) 22050 ∧
       fs w' !! reference_of name = Some (File (Audio waveform 22050)) ∧
       tts_generate E test_text (Audio waveform 22050) "en" None = Ok (wav, sr) ∧
       fs w' !! test_sample_of name = Some (File (Audio [wav] sr))).
Proof.
  intros Hs Ha Hc. split.
  - unfold clone_voice. rewrite bind_run. cbn [get_world]. rewrite Hs, Ha. cbn [negb].
    by rewrite bind_run, has_speaker_run, Hc.
  - intros resp w' H. unfold clone_voice in H.
    rewrite bind_run in H. cbn [get_world] in H. rewrite Hs, Ha in H. cbn [negb] in H.
    rewrite bind_run, has_speaker_run, Hc in H. cbn [negb andb] in H.
    destruct (max_size <? _) in H; [discriminate H|].
    apply bind_ok_inv in H as (hex & w1 & [= <- <-] & H).
    apply bind_ok_inv in H as (ext & ? & [_ ->]%lift_ok_inv & H).
    set (rest := uuid_str (uuid4_hex E (uuid_ctr w)) +:+ "_" +:+ name +:+ ext) in H.
    change ("uploads/" +:+ rest) with (String.append "uploads/" rest) in H.
    set (file_path := String.append "uploads/" rest) in H.
    destruct (upload_not_profile_path rest name) as (Hfr & Hft & Hpr & Hpt).
    fold file_path in Hfr, Hft, Hpr, Hpt.
    unfold try_finally in H.
    destruct (clone_voice_try E file_path name (file_bytes upload) (bump_uuid w))
      as [r w2] eqn:Htry.
    destruct (clone_voice_finally E file_path w2) as [[[]|e] w3] eqn:Hfin;
      [|discriminate H].
    injection H as -> ->.
    (* the [finally] removes the upload only *)
    assert (same_registry w2 w' ∧ fs_outside (λ q, q = file_path) w2 w') as [Hreg Hout].
    { split.
      - revert Hfin. generalize w2 (@Ok unit ()) w'.
        change (keeps same_registry (clone_voice_finally E file_path)).
        unfold clone_voice_finally. keeps_registry.
      - revert Hfin. generalize w2 (@Ok unit ()) w'.
        change (keeps (fs_outside (λ q, q = file_path)) (clone_voice_finally E file_path)).
        unfold clone_voice_finally. keeps_fs. }
    (* the [try] succeeded: the upload was stored and the profile created *)
    unfold clone_voice_try in Htry.
    apply try_except_ok_inv in Htry as [Htry|(e & w4 & _ & Htry)].
    2:{ rewrite bind_run, logger_run in Htry. discriminate Htry. }
    apply bind_ok_inv in Htry as ([] & w4 & Hup & Htry).
    apply fs_write_registry in Hup as (Hv4 & _ & Hc4).
    apply bind_ok_inv in Htry as ([] & w5 & [= <-] & Htry).
    apply bind_ok_inv in Htry as (success & w6 & Hcreate & Htry).
    destruct success; [|discriminate Htry].
    rewrite bind_run, logger_run in Htry. injection Htry as _ <-.
    destruct (create_ok_files _ _ _ _ Hpr Hpt Hcreate)
      as (prof & waveform & wav & sr & Hg & Hdur & Hfr' & Hgen & Hft').
    apply create_voice_embedding_post in Hcreate
      as (_ & Hc6 & [[_ ?]|(prof' & Hv6 & Hfresh & Hrp & Htp & _)]); [done|].
    assert (prof' = prof) as ->.
    { rewrite Hv6, dict_get_set_eq in Hg. by injection Hg. }
    destruct Hreg as (Hv' & _ & Hc'). cbn in *.
    exists prof, waveform, wav, sr.
    assert (voices w' = dict_set name prof (voices w)) as Hvw by congruence.
    split_and!; try done.
    + by rewrite Hvw, dict_keys_set, Hc.
    + eapply fresh_profile_mono; [..|exact Hfresh]; cbn in *; lia.
    + rewrite Hout by congruence. done.
    + rewrite Hout by congruence. done.
Qed.
End Clone.

(** The sentence as the specification has it fails for an upload that does
    not declare an audio type: the answer is 400, not 409. *)
Lemma conflict_on_existing_fails :
  ¬ conflict_on_existing Demo.libs Demo.text_upload "alice" Demo.with_alice.
Proof.
  intros H. destruct (H eq_refl eq_refl) as [detail Hd].
  apply (f_equal fst) in Hd. vm_compute in Hd. discriminate Hd.
Qed.

(** ** Synthesis and the speed adjustment *)

Section Synthesize.
Context (E : Externals).

(** [_adjust_speed] never raises: a failure of its body becomes a warning. *)
Lemma adjust_speed_run path speed w :
  _adjust_speed E path speed w =
  match adjust_speed_body E path speed w with
  | (Ok _, w') => (Ok tt, w')
  | (Raise e, w') => (Ok tt, add_log (stretch_warning e) w')
  end.
Proof.
  unfold _adjust_speed, try_except.
  by destruct (adjust_speed_body E path speed w) as [[[]|e] w'].
Qed.

(** [synthesize] on a registered name, once the output directory is there
    and the model has written the generated audio. *)
Lemma synthesize_run text name lang speed w entry w0 w1 :
  dict_get name (voices w) = Some entry →
  fs_mkdir_exist_ok E (synth_dir E name w) (bump_uuid w) = (Ok tt, w0) →
  tts_to_file E text (reference_path entry) lang (synth_path E name w) (Some true) w0
    = (Ok tt, w1) →
  synthesize E text name lang speed w =
    (Ok (synth_path E name w),
     add_log (synth_done name)
       (if Qeq_bool speed 1 then w1
        else (_adjust_speed E (synth_path E name w) speed w1).2)).
Proof.
  intros Hg Hmk Htts. unfold synthesize. rewrite bind_run. cbn [get_world].
  rewrite Hg, bind_run. cbn [uuid4]. fold (synth_dir E name w) (synth_path E name w).
  rewrite bind_run, Hmk. unfold try_except. rewrite bind_run, Htts, bind_run.
  destruct (Qeq_bool speed 1); cbn [negb].
  - reflexivity.
  - rewrite adjust_speed_run.
    by destruct (adjust_speed_body E _ speed w1) as [[[]|e] w2].
Qed.

Lemma synthesize_ok_inv text name lang speed w p w' :
  synthesize E text name lang speed w = (Ok p, w') →
  ∃ entry w0 w1,
    dict_get name (voices w) = Some entry ∧
    fs_mkdir_exist_ok E (synth_dir E name w) (bump_uuid w) = (Ok tt, w0) ∧
    tts_to_file E text (reference_path entry) lang (synth_path E name w) (Some true) w0
      = (Ok tt, w1).
Proof.
  unfold synthesize. rewrite bind_run. cbn [get_world].
  destruct (dict_get name (voices w)) as [entry|]; [|done].
  rewrite bind_run. cbn [uuid4]. fold (synth_dir E name w) (synth_path E name w).
  intros ([] & w0 & Hmk & H)%bind_ok_inv.
  apply try_except_ok_inv in H as [H|(e & w2 & _ & H)].
  2:{ rewrite bind_run, logger_run in H. discriminate H. }
  apply bind_ok_inv in H as ([] & w1 & Htts & _).
  by exists entry, w0, w1.
Qed.

Lemma tts_to_file_ok text ref lang out split w w' :
  tts_to_file E text ref lang out split w = (Ok tt, w') →
  ∃ c wav sr, fs w !! ref = Some (File c) ∧
              tts_generate E text c lang split = Ok (wav, sr) ∧
              w' = set_fs (<[out := File (Audio [wav] sr)]> (fs w)) w.
Proof.
  unfold tts_to_file.
  intros (c & ? & [Href ->]%fs_read_ok & H)%bind_ok_inv.
  apply bind_ok_inv in H as ([wav sr] & ? & [Hgen ->]%lift_ok_inv & H).
  apply fs_write_ok in H. by exists c, wav, sr.
Qed.

Lemma adjust_speed_body_raise path speed w gen e w' :
  fs w !! path = Some (File gen) →
  adjust_speed_body E path speed w = (Raise e, w') →
  w' = w ∨
  ∃ audio sr fast,
    librosa_load E path gen (Some 22050) = Ok (audio, sr) ∧
    librosa_time_stretch E audio speed = Ok fast ∧
    fs_write E path (Audio [fast] sr) w = (Raise e, w').
Proof.
  intros Hgen. unfold adjust_speed_body. rewrite bind_run.
  unfold fs_read at 1. rewrite Hgen. rewrite bind_run. unfold lift at 1.
  destruct (librosa_load E path gen (Some 22050)) as [[audio sr]|e1] eqn:Hld;
    [|intros [= _ <-]; by left].
  rewrite bind_run. unfold lift at 1.
  destruct (librosa_time_stretch E audio speed) as [fast|e2] eqn:Hst;
    [|intros [= _ <-]; by left].
  intros H. right. by exists audio, sr, fast.
Qed.

(** C10. On a registered name, with the output directory in place and the
    generated audio written, and with a speed other than 1: when the body
    of [_adjust_speed] raises, [synthesize] still returns the output path.
    The failure shows only as a warning in the log.  The file holds the
    generated audio unless the failure came from writing the stretched
    audio back. *)
Theorem synthesize_swallows_stretch_failure (text name lang : string) (speed : Q)
    (w : world) (entry : profile) (w0 w1 : world) (e : exn) (w2 : world) :
  dict_get name (voices w) = Some entry →
  fs_mkdir_exist_ok E (synth_dir E name w) (bump_uuid w) = (Ok tt, w0) →
  tts_to_file E text (reference_path entry) lang (synth_path E name w) (Some true) w0
    = (Ok tt, w1) →
  Qeq_bool speed 1 = false →
  adjust_speed_body E (synth_path E name w) speed w1 = (Raise e, w2) →
  synthesize E text name lang speed w =
    (Ok (synth_path E name w),
     add_log (synth_done name) (add_log (stretch_warning e) w2)) ∧
  ∃ ref wav sr,
    tts_generate E text ref lang (Some true) = Ok (wav, sr) ∧
    fs w1 !! synth_path E name w = Some (File (Audio [wav] sr)) ∧
    (fs w2 !! synth_path E name w = Some (File (Audio [wav] sr)) ∨
     ∃ audio sr' fast,
       librosa_load E (synth_path E name w) (Audio [wav] sr) (Some 22050)
         = Ok (audio, sr') ∧
       librosa_time_stretch E audio speed = Ok fast ∧
       fs_write E (synth_path E name w) (Audio [fast] sr') w1 = (Raise e, w2)).
Proof.
  intros Hg Hmk Htts Hspeed Hadj. split.
  - rewrite (synthesize_run _ _ _ _ _ _ _ _ Hg Hmk Htts), Hspeed.
    by rewrite adjust_speed_run, Hadj.
  - destruct (tts_to_file_ok _ _ _ _ _ _ _ Htts) as (ref & wav & sr & _ & Hgen & ->).
    exists ref, wav, sr.
    assert (fs (set_fs (<[synth_path E name w := File (Audio [wav] sr)]> (fs w0)) w0)
              !! synth_path E name w = Some (File (Audio [wav] sr))) as Hfile
      by apply lookup_insert_eq.
    split_and!; [done..|].
    destruct (adjust_speed_body_raise _ _ _ _ _ _ Hfile Hadj) as [->|Hwrite];
      [by left|by right].
Qed.

(** C8, as the code has it.  A call of [synthesize] that returns has
    written the generated audio to the path it returns.  With speed 1 the
    file is left as generated.  With another speed [_adjust_speed] runs on
    that file; when its loading, stretching and writing back all succeed the
    file holds, in place, librosa's time-stretch at the requested rate of
    the audio loaded from it (when one of them fails, the file is not
    stretched and the call still returns).  If librosa's stretch has the
    length it documents, then at the same sample rate speed 2 gives half
    the samples, up to rounding, and speed 1/2 gives twice the samples. *)
Theorem synthesize_speed (text name lang : string) (speed : Q) (w : world)
    (p : string) (w' : world) :
  synthesize E text name lang speed w = (Ok p, w') →
  p = synth_path E name w ∧
  ∃ w1 ref wav sr,
    tts_generate E text ref lang (Some true) = Ok (wav, sr) ∧
    fs w1 !! p = Some (File (Audio [wav] sr)) ∧
    (Qeq_bool speed 1 = true → w' = add_log (synth_done name) w1) ∧
    (Qeq_bool speed 1 = false →
       ∀ audio sr' fast w2,
         librosa_load E p (Audio [wav] sr) (Some 22050) = Ok (audio, sr') →
         librosa_time_stretch E audio speed = Ok fast →
         fs_write E p (Audio [fast] sr') w1 = (Ok tt, w2) →
         fs w' = <[p := File (Audio [fast] sr')]> (fs w1) ∧
         (time_stretch_rounds E → speed = (2 # 1)%Q →
            Z.abs (2 * py_len fast - py_len audio) ≤ 1) ∧
         (time_stretch_rounds E → speed = (1 # 2)%Q →
            py_len fast = 2 * py_len audio)).
Proof.
  intros H.
  destruct (synthesize_ok_inv _ _ _ _ _ _ _ H) as (entry & w0 & w1 & Hg & Hmk & Htts).
  rewrite (synthesize_run _ _ _ _ _ _ _ _ Hg Hmk Htts) in H. injection H as <- <-.
  split; [done|].
  destruct (tts_to_file_ok _ _ _ _ _ _ _ Htts) as (ref & wav & sr & _ & Hgen & Hw1).
  assert (fs w1 !! synth_path E name w = Some (File (Audio [wav] sr))) as Hfile.
  { rewrite Hw1. apply lookup_insert_eq. }
  exists w1, ref, wav, sr. split_and!; [done|done|by intros ->|].
  intros -> audio sr' fast w2 Hld Hst Hwr.
  rewrite adjust_speed_run.
  assert (adjust_speed_body E (synth_path E name w) speed w1 = (Ok tt, w2)) as ->.
  { unfold adjust_speed_body. rewrite bind_run. unfold fs_read at 1. rewrite Hfile.
    rewrite bind_run. unfold lift at 1. rewrite Hld. rewrite bind_run. unfold lift at 1.
    by rewrite Hst. }
  cbn [snd]. split_and!.
  - apply fs_write_ok in Hwr as ->. done.
  - intros Hlaw ->. specialize (Hlaw _ _ _ Hst). cbn in Hlaw. lia.
  - intros Hlaw ->. specialize (Hlaw _ _ _ Hst). cbn in Hlaw. lia.
Qed.
End Synthesize.

(** ** The concrete instance *)

(** The Python helpers on a few inputs. *)
Example replace_every_dot :
  str_replace_char dot "_processed." "uploads/a.b.wav"
  = "uploads/a_processed.b_processed.wav".
Proof. reflexivity. Qed.

Example splitext_cases :
  splitext_ext "a/b.c/take.tar.gz" = ".gz" ∧ splitext_ext ".bashrc" = EmptyString ∧
  splitext_ext "clip" = EmptyString ∧ splitext_ext "..a.b" = ".b".
Proof. by vm_compute. Qed.

Example path_join_cases :
  voice_dir_of "alice" = "voice_embeddings/alice" ∧
  voice_dir_of "a//b/./c/" = "voice_embeddings/a/b/c" ∧
  voice_dir_of "/abs/x" = "/abs/x" ∧
  voice_dir_of EmptyString = "voice_embeddings" ∧
  reference_of "alice" = "voice_embeddings/alice/reference.wav" ∧
  voice_metadata_file = "voice_embeddings/metadata.json".
Proof. by vm_compute. Qed.

Example repr_of_names :
  py_repr_list ["alice"; "it's"; "a\b"] = "['alice', " +:+ String dquote "it's"
    +:+ String dquote ", 'a\\b']".
Proof. reflexivity. Qed.

Example loop_to_three_seconds :
  clamp_duration 2 [1; 2; 3; 4]%Q = Ok [1; 2; 3; 4; 1; 2]%Q.
Proof. reflexivity. Qed.

(** A run is determined by its outcome and the state it ends in. *)
Lemma run_outcome {A} (x : result A * world) (r : result A) : x.1 = r → x = (r, x.2).
Proof. intros <-. by destruct x. Qed.

Lemma clone_voice_existing_witness :
  clone_voice Demo.libs Demo.upload "alice" false Demo.with_alice =
    (Raise (HTTPException 409
       "Speaker 'alice' already exists. Use overwrite=true to replace."),
     Demo.with_alice) ∧
  ∃ prof, dict_get "alice"
            (voices (clone_voice Demo.libs Demo.upload "alice" true Demo.with_alice).2)
          = Some prof ∧
          fresh_profile (uuid4_hex Demo.libs) 2 4 prof.
Proof.
  destruct (clone_voice_existing Demo.libs Demo.upload "alice" Demo.with_alice
              eq_refl eq_refl eq_refl) as [Hconflict Hover].
  split; [exact Hconflict|].
  destruct (Hover (CloneResponse "Voice 'alice' cloned successfully" "alice" "success")
              (clone_voice Demo.libs Demo.upload "alice" true Demo.with_alice).2)
    as (prof & _ & _ & _ & Hv & _ & Hfresh & _).
  { apply run_outcome. vm_compute. reflexivity. }
  exists prof. split; [|exact Hfresh].
  rewrite Hv. apply dict_get_set_eq.
Defined.

Lemma synthesize_unknown_speaker_witness :
  synthesize_speech Demo.libs "Hello world" "bob" "en" 1 Demo.with_alice =
    (Raise (HTTPException 404 "Speaker 'bob' not found. Available speakers: ['alice']"),
     Demo.with_alice).
Proof.
  exact (proj1 (synthesize_unknown_speaker Demo.libs "Hello world" "bob" "en" 1
                  Demo.with_alice eq_refl eq_refl)).
Defined.

Lemma delete_speaker_spec_witness :
  ∃ w', delete_speaker Demo.libs "alice" Demo.with_alice = (Ok true, w') ∧
        has_speaker "alice" w' = (Ok false, w') ∧
        fs w' !! "voice_embeddings/alice/reference.wav" = None.
Proof.
  destruct (delete_speaker_spec Demo.libs "alice" Demo.with_alice)
    as (_ & _ & Hgone & Hruns & _).
  destruct Hruns as [w' Hw']; [reflexivity|right; split; reflexivity|].
  exists w'. split; [exact Hw'|].
  destruct (Hgone w' Hw') as (_ & _ & Hhas & _ & Hfiles).
  { apply NoDup_singleton. }
  split; [exact Hhas|].
  apply Hfiles; [reflexivity|discriminate|discriminate].
Defined.

(** The sentence as the specification has it fails when the index file
    cannot be rewritten: the error is logged, and the answer is [True]. *)
Lemma errors_reported_as_failure_fails :
  ¬ errors_reported_as_failure Demo.libs_index_fails "alice" Demo.with_alice.
Proof.
  intros H.
  specialize (H true (delete_speaker Demo.libs_index_fails "alice" Demo.with_alice).2).
  enough (true = false) by discriminate. apply H.
  - apply run_outcome. vm_compute. reflexivity.
  - exists "Error saving voice metadata: No space left on device". split.
    + vm_compute. apply list_elem_of_In. left. reflexivity.
    + cbn. apply not_elem_of_nil.
Qed.

(** When the directory cannot be removed the answer is [False] and the
    speaker stays registered. *)
Example delete_failure_is_false :
  (delete_speaker Demo.libs_rmtree_fails "alice" Demo.with_alice).1 = Ok false ∧
  voices (delete_speaker Demo.libs_rmtree_fails "alice" Demo.with_alice).2
    = voices Demo.with_alice.
Proof. by vm_compute. Qed.

Lemma create_then_has_and_listed_witness :
  let w' := (create_voice_embedding Demo.libs "uploads/me.wav" "alice" Demo.uploaded).2 in
  has_speaker "alice" w' = (Ok true, w') ∧
  ∃ l, list_speakers w' = (Ok l, w') ∧ length (filter (λ x, x = "alice") l) = 1%nat.
Proof.
  cbv zeta.
  apply (create_then_has_and_listed Demo.libs "uploads/me.wav" "alice" Demo.uploaded).
  - apply NoDup_nil_2.
  - apply run_outcome. vm_compute. reflexivity.
Defined.

Lemma created_profiles_active_witness :
  let w := (handle Demo.libs (PostCloneVoice Demo.upload "alice" false) Demo.booted).2 in
  dict_get "alice" (voices w) = Some Demo.cloned_profile ∧
  status Demo.cloned_profile = "active" ∧ sample_rate Demo.cloned_profile = 22050.
Proof.
  cbv zeta.
  assert (reachable Demo.libs
            (handle Demo.libs (PostCloneVoice Demo.upload "alice" false) Demo.booted).2)
    as Hreach.
  { eapply reach_request.
    - apply (reach_startup Demo.libs Demo.fresh Demo.booted); [reflexivity|].
      vm_compute. reflexivity.
    - apply surjective_pairing. }
  assert (dict_get "alice"
            (voices (handle Demo.libs (PostCloneVoice Demo.upload "alice" false)
                       Demo.booted).2) = Some Demo.cloned_profile) as Hget.
  { vm_compute. reflexivity. }
  split; [exact Hget|].
  destruct (proj2 (created_profiles_active Demo.libs) _ Hreach "alice" _ Hget)
    as (Hst & Hsr & _).
  split; [exact Hst|exact Hsr].
Defined.

Lemma synthesize_swallows_stretch_failure_witness :
  synthesize Demo.libs_stretch_fails "Hello world" "alice" "en" (2 # 1) Demo.with_alice =
    (Ok "outputs/output_alice_01234567.wav",
     (synthesize Demo.libs_stretch_fails "Hello world" "alice" "en" (2 # 1)
        Demo.with_alice).2).
Proof.
  destruct (synthesize_swallows_stretch_failure Demo.libs_stretch_fails
              "Hello world" "alice" "en" (2 # 1) Demo.with_alice Demo.alice_profile
              _ _ (PyExc "ParameterError" "Audio buffer is not finite") _
              eq_refl eq_refl eq_refl eq_refl eq_refl) as [Hrun _].
  rewrite Hrun. reflexivity.
Defined.

Lemma synthesize_speed_witness :
  "outputs/output_alice_01234567.wav" = synth_path Demo.libs "alice" Demo.with_alice ∧
  fs (synthesize Demo.libs "Hello world" "alice" "en" (2 # 1) Demo.with_alice).2
    !! "outputs/output_alice_01234567.wav" = Some (File (Audio [[0; 0]%Q] 22050)).
Proof.
  destruct (synthesize_speed Demo.libs "Hello world" "alice" "en" (2 # 1) Demo.with_alice
              "outputs/output_alice_01234567.wav"
              (synthesize Demo.libs "Hello world" "alice" "en" (2 # 1) Demo.with_alice).2)
    as (Hp & w1 & ref & wav & sr & _ & _ & _ & _).
  { apply run_outcome. vm_compute. reflexivity. }
  split; [exact Hp|]. vm_compute. reflexivity.
Defined.

(** The sentence as the specification has it fails when the stretch itself
    fails: the call succeeds, and nothing has been stretched. *)
Lemma stretched_when_not_unit_fails :
  ¬ stretched_when_not_unit Demo.libs_stretch_fails "Hello world" "alice" "en" (2 # 1)
      Demo.with_alice.
Proof.
  intros H.
  destruct (H "outputs/output_alice_01234567.wav"
              (synthesize Demo.libs_stretch_fails "Hello world" "alice" "en" (2 # 1)
                 Demo.with_alice).2)
    as (generated & audio & sr & stretched & _ & Hstretch & _).
  - apply run_outcome. vm_compute. reflexivity.
  - reflexivity.
  - discriminate Hstretch.
Qed.

(** There the caller gets the four generated samples, not two. *)
Example unstretched_output :
  fs (synthesize Demo.libs_stretch_fails "Hello world" "alice" "en" (2 # 1)
        Demo.with_alice).2 !! "outputs/output_alice_01234567.wav"
  = Some (File (Audio [[1 # 8; 1 # 4; 1 # 8; 0]%Q] 24000)).
Proof. vm_compute. reflexivity. Qed.

(** ** Further properties of the duration window *)

Lemma clamp_duration_bounds (target_sr : Z) (audio out : signal) :
  0 < target_sr → clamp_duration target_sr audio = Ok out →
  3 * target_sr ≤ py_len out ≤ 30 * target_sr.
Proof.
  intros Hsr. unfold clamp_duration.
  destruct (Z.ltb_spec (py_len audio) (target_sr * 3)) as [Hshort|Hlong].
  - destruct (decide (audio = [])) as [->|Hne].
    { cbn. replace (0 <? target_sr * 3) with true by (symmetry; apply Z.ltb_lt; lia).
      done. }
    apply py_len_nonempty in Hne.
    destruct (py_ceil_div_pos (target_sr * 3) (py_len audio) Hne) as (k & -> & Hk & Hpos).
    cbn. unfold np_tile.
    destruct (Z.ltb_spec k 0) as [?|_]; [lia|]. cbn.
    rewrite py_slice_to_nonneg by lia.
    set (tiled := concat _).
    assert (py_len (take (Z.to_nat (target_sr * 3)) tiled) = target_sr * 3) as Hlen.
    { unfold py_len. rewrite length_take. unfold tiled.
      rewrite (length_tile audio). unfold py_len in Hk. nia. }
    rewrite Hlen.
    destruct (Z.ltb_spec (target_sr * 30) (target_sr * 3)) as [?|_]; [lia|].
    intros [= <-]. lia.
  - cbn.
    destruct (Z.ltb_spec (target_sr * 30) (py_len audio)) as [Hcut|Hfit].
    + intros [= <-]. rewrite py_slice_to_nonneg by lia.
      unfold py_len in *. rewrite length_take. lia.
    + intros [= <-]. lia.
Qed.

Lemma clamp_duration_fixed (target_sr : Z) (audio : signal) :
  3 * target_sr ≤ py_len audio ≤ 30 * target_sr →
  clamp_duration target_sr audio = Ok audio.
Proof.
  intros [Hlo Hhi]. unfold clamp_duration.
  destruct (Z.ltb_spec (py_len audio) (target_sr * 3)) as [?|_]; [lia|]. cbn.
  by destruct (Z.ltb_spec (target_sr * 30) (py_len audio)) as [?|_]; [lia|].
Qed.

(** X1. The duration window is idempotent: a signal that came out of it
    passes through it unchanged. *)
Theorem clamp_duration_idempotent (target_sr : Z) (audio out : signal) :
  0 < target_sr → clamp_duration target_sr audio = Ok out →
  clamp_duration target_sr out = Ok out.
Proof.
  intros Hsr Hout. apply clamp_duration_fixed. by eapply clamp_duration_bounds.
Qed.

Lemma clamp_duration_idempotent_witness :
  clamp_duration 2 [1; 2; 3; 4; 1; 2]%Q = Ok [1; 2; 3; 4; 1; 2]%Q.
Proof.
  apply (clamp_duration_idempotent 2 [1; 2; 3; 4]%Q); [lia|reflexivity].
Defined.

Section PreprocessWindow.
Context (E : Externals).

(** X2. Whenever [preprocess_audio], called with a positive target rate,
    returns a path other than the one it was given, the file at that path
    holds one channel at the target rate whose length lies between 3 and
    30 seconds of samples, bounds included. *)
Theorem preprocess_output_within_window (path : string) (sr : Z) (w : world)
    (p : string) (w' : world) :
  0 < sr →
  preprocess_audio E path sr w = (Ok p, w') →
  p ≠ path →
  ∃ audio, fs w' !! p = Some (File (Audio [audio] sr)) ∧
           3 * sr ≤ py_len audio ≤ 30 * sr.
Proof.
  intros Hsr H Hne. unfold preprocess_audio in H.
  apply try_except_ok_inv in H as [H|(e & w1 & _ & H)].
  - unfold preprocess_body in H.
    repeat ok_step.
    + eexists. split; [cbn; apply lookup_insert_eq|].
      by eapply clamp_duration_bounds.
    + eexists. split; [cbn; apply lookup_insert_eq|].
      by eapply clamp_duration_bounds.
  - rewrite bind_run, logger_run in H. by injection H as <- _.
Qed.
End PreprocessWindow.

Lemma preprocess_output_within_window_witness :
  ∃ audio,
    fs (preprocess_audio Demo.libs "clip.wav" 8 Demo.one_clip).2 !! "clip_processed.wav"
      = Some (File (Audio [audio] 8)) ∧
    3 * 8 ≤ py_len audio ≤ 30 * 8.
Proof.
  apply (preprocess_output_within_window Demo.libs "clip.wav" 8 Demo.one_clip);
    [lia|by apply run_outcome|done].
Defined.

(** ** The index file: saving, loading and start-up *)

Section Index.
Context (E : Externals).


Lemma load_voices_metadata_run w :
  load_voices_metadata w =
  match fs w !! voice_metadata_file with
  | Some (File (Json d)) => (Ok d, w)
  | Some (File _) =>
      (Ok [], add_log ("ERROR", "Error loading voice metadata: " +:+
                         exn_str (PyExc "JSONDecodeError" "Expecting value")) w)
  | Some Dir =>
      (Ok [], add_log ("ERROR", "Error loading voice metadata: " +:+
                         exn_str (IsADirectoryError voice_metadata_file)) w)
  | None => (Ok [], w)
  end.
Proof.
  unfold load_voices_metadata. rewrite bind_run. cbn [get_world]. unfold exists_path.
  destruct (fs w !! voice_metadata_file) as [[|c]|] eqn:Hidx; [| |done].
  - unfold try_except. rewrite bind_run. unfold fs_read. rewrite Hidx.
    by rewrite bind_run, logger_run.
  - unfold try_except. rewrite bind_run. unfold fs_read. rewrite Hidx.
    cbn beta iota. destruct c; unfold raise; cbn beta iota; [| |done];
      by rewrite bind_run, logger_run.
Qed.



Lemma save_voices_metadata_run w :
  save_voices_metadata E w =
  match fs_write E voice_metadata_file (Json (voices w)) w with
  | (Ok _, w1) => (Ok tt, w1)
  | (Raise e, w1) =>
      (Ok tt, add_log ("ERROR", "Error saving voice metadata: " +:+ exn_str e) w1)
  end.
Proof.
  unfold save_voices_metadata, try_except. rewrite bind_run. cbn [get_world].
  destruct (fs_write E _ _ w) as [[[]|e] w1]; [done|]. by rewrite logger_run.
Qed.

(** X4. [save_voices_metadata] never raises and leaves the registry as it
    is.  Either the index file then holds the registry, nothing was
    logged, and [load_voices_metadata] reads the same registry back
    without changing anything; or the write failed and exactly one error
    record was logged.  The write succeeds when [voice_embeddings] is a
    directory, the index path is not one, and the disk accepts the write. *)
Theorem save_then_load (w : world) :
  ∃ w', save_voices_metadata E w = (Ok tt, w') ∧ voices w' = voices w ∧
    ((fs w' = <[voice_metadata_file := File (Json (voices w))]> (fs w) ∧
      log w' = log w ∧
      load_voices_metadata w' = (Ok (voices w), w')) ∨
     (∃ e, log w' = log w ++ [("ERROR", "Error saving voice metadata: " +:+ exn_str e)])) ∧
    (is_dir (fs w) "voice_embeddings" = true →
     is_dir (fs w) voice_metadata_file = false →
     write_fault E voice_metadata_file (Json (voices w)) (fs w) = None →
     load_voices_metadata w' = (Ok (voices w), w')).
Proof.
  rewrite save_voices_metadata_run.
  assert (∀ w', fs w' !! voice_metadata_file = Some (File (Json (voices w))) →
                load_voices_metadata w' = (Ok (voices w), w')) as Hload.
  { intros w' Hidx.
    by rewrite load_voices_metadata_run, Hidx. }
  destruct (fs_write E voice_metadata_file (Json (voices w)) w) as [[[]|e] w1] eqn:Hw.
  - pose proof Hw as ->%fs_write_ok. eexists. split; [reflexivity|].
    split; [done|]. split.
    + left. split_and!; [done..|]. apply Hload. cbn. apply lookup_insert_eq.
    + intros _ _ _. apply Hload. cbn. apply lookup_insert_eq.
  - eexists. split; [reflexivity|]. pose proof Hw as Hreg%fs_write_registry.
    destruct Hreg as (Hv & _ & _). split; [done|]. split.
    + right. exists e. cbn. f_equal.
      unfold fs_write in Hw. repeat case_match; by simplify_eq.
    + intros Hdir Hnd Hfault. exfalso. unfold fs_write in Hw.
      assert (parent_ok (fs w) voice_metadata_file = true) as Hp.
      { exact Hdir. }
      rewrite Hp in Hw. cbn [negb] in Hw. rewrite Hnd, Hfault in Hw. done.
Qed.


(** X6. When the model cannot be loaded, start-up raises that very
    exception after logging it as an error: the global stays unset, and
    neither the registry nor the disk has been touched. *)
Theorem startup_model_failure (w : world) (e : exn) :
  tts_load E = Raise e →
  ∃ w', startup_event E w = (Raise e, w') ∧
        started w' = started w ∧ voices w' = voices w ∧ fs w' = fs w ∧
        last (log w') = Some ("ERROR", "Failed to load XTTS model: " +:+ exn_str e).
Proof.
  intros Hload.
  unfold startup_event, VoiceCloner_init, try_except, logger, modify, lift, raise.
  cbn. rewrite Hload. cbn.
  eexists. split; [reflexivity|]. cbn. split_and!; [done..|].
  by rewrite !last_snoc.
Qed.
End Index.

(** ** How create and delete act on the other entries of the registry *)

Lemma dict_remove_set k v d : dict_remove k (dict_set k v d) = dict_remove k d.
Proof.
  induction d as [|[k' v'] d IH]; cbn.
  - by rewrite decide_True.
  - destruct (decide (k = k')) as [->|Hne]; cbn.
    + by rewrite decide_True.
    + rewrite decide_False by done. by rewrite IH.
Qed.

Lemma dict_remove_absent k d : k ∉ dict_keys d → dict_remove k d = d.
Proof.
  induction d as [|[k' v'] d IH]; [done|]. csimpl.
  intros [Hne Hnot]%not_elem_of_cons. rewrite decide_False by done.
  by rewrite IH.
Qed.

Lemma dict_keys_remove_sublist k d : dict_keys (dict_remove k d) `sublist_of` dict_keys d.
Proof.
  induction d as [|[k' v'] d IH]; [done|]. csimpl.
  destruct (decide (k = k')).
  - by apply sublist_cons.
  - csimpl. by apply sublist_skip.
Qed.

Section Entries.
Context (E : Externals).

(** X7. Whatever its outcome, [create_voice_embedding] leaves the entry
    of every other name as it was and keeps the order of the registry: the
    list of names is unchanged, or the name was new and has been appended
    at the end. *)
Theorem create_touches_one_entry (path name : string) (w : world)
    (r : result bool) (w' : world) :
  create_voice_embedding E path name w = (r, w') →
  (∀ other, other ≠ name → dict_get other (voices w') = dict_get other (voices w)) ∧
  (dict_keys (voices w') = dict_keys (voices w) ∨
   (dict_contains name (voices w) = false ∧
    dict_keys (voices w') = dict_keys (voices w) ++ [name])).
Proof.
  intros (_ & _ & [[Hv _]|(prof & Hv & _)])%create_voice_embedding_post; rewrite Hv.
  - split; [done|by left].
  - split.
    + intros other Hne. by apply dict_get_set_ne.
    + rewrite dict_keys_set. destruct (dict_contains name (voices w)); [by left|by right].
Qed.

(** X8. Whatever its outcome, [delete_speaker] leaves the entry of every
    other name as it was, adds no name, and keeps the remaining names in
    their order. *)
Theorem delete_touches_one_entry (name : string) (w : world)
    (r : result bool) (w' : world) :
  delete_speaker E name w = (r, w') →
  (∀ other, other ≠ name → dict_get other (voices w') = dict_get other (voices w)) ∧
  dict_keys (voices w') `sublist_of` dict_keys (voices w).
Proof.
  intros (_ & _ & [[Hv _]|(Hv & _ & _)])%delete_speaker_registry; rewrite Hv.
  - done.
  - split.
    + intros other Hne. by apply dict_get_remove_ne.
    + apply dict_keys_remove_sublist.
Qed.

(** X9. Creating a speaker and then deleting it, both with success,
    leaves the registry without the name and otherwise as it was before
    the create; if the name was new, the registry is exactly what it was. *)
Theorem create_then_delete (path name : string) (w w1 w2 : world) :
  create_voice_embedding E path name w = (Ok true, w1) →
  delete_speaker E name w1 = (Ok true, w2) →
  voices w2 = dict_remove name (voices w) ∧
  (dict_contains name (voices w) = false → voices w2 = voices w).
Proof.
  intros (_ & _ & [[_ ?]|(prof & Hv1 & _)])%create_voice_embedding_post; [done|].
  intros (_ & _ & [[_ ?]|(Hv2 & _ & _)])%delete_speaker_registry; [done|].
  rewrite Hv2, Hv1, dict_remove_set. split; [done|].
  intros Hnew%dict_contains_false. by apply dict_remove_absent.
Qed.
End Entries.

(** ** The handlers: what they answer and what they leave alone *)

Lemma all_space_lstrip s : all_space (str_lstrip s) = all_space s.
Proof.
  unfold all_space. induction s as [|a s IH]; [done|]. cbn [str_lstrip forallb].
  destruct (py_isspace a) eqn:Ha; [done|]. cbn [forallb]. by rewrite Ha.
Qed.

Lemma lstrip_empty s : str_lstrip s = [] ↔ all_space s = true.
Proof.
  unfold all_space. induction s as [|a s IH]; [done|]. cbn [str_lstrip forallb].
  by destruct (py_isspace a).
Qed.

Lemma all_space_rev s : all_space (rev s) = all_space s.
Proof.
  unfold all_space. induction s as [|a s IH]; [done|]. cbn [rev forallb].
  rewrite forallb_app, IH. cbn [forallb].
  by destruct (py_isspace a), (forallb py_isspace s).
Qed.

Lemma py_strip_empty s : py_len (py_strip s) = 0 ↔ all_space s = true.
Proof.
  unfold py_strip, py_len. rewrite length_rev. split.
  - intros Hlen.
    assert (str_lstrip (rev (str_lstrip s)) = []) as Hx.
    { destruct (str_lstrip (rev (str_lstrip s))); [done|]. cbn in Hlen. lia. }
    apply lstrip_empty in Hx. by rewrite all_space_rev, all_space_lstrip in Hx.
  - intros Hs. apply lstrip_empty in Hs. by rewrite Hs.
Qed.

Section Handlers.
Context (E : Externals).

(** *** [clone_voice] *)

Lemma clone_voice_finally_run fp w :
  ∃ w', clone_voice_finally E fp w = (Ok tt, w') ∧
        voices w' = voices w ∧ started w' = started w ∧ log w' = log w ∧
        (∀ q, q ≠ fp → fs w' !! q = fs w !! q) ∧
        (fs w' !! fp = None ∨
         (fs w !! fp = Some Dir ∧ w' = w) ∨
         ∃ c e, fs w !! fp = Some (File c) ∧
                remove_fault E fp (fs w) = Some e ∧ w' = w).
Proof.
  unfold clone_voice_finally. rewrite bind_run. unfold fs_exists, exists_path.
  destruct (fs w !! fp) as [[|c]|] eqn:Hfp; cbn beta iota.
  - unfold try_except, fs_remove. rewrite Hfp. eexists. split; [reflexivity|].
    split_and!; try done. by right; left.
  - unfold try_except, fs_remove. rewrite Hfp.
    destruct (remove_fault E fp (fs w)) as [e|] eqn:Hfault.
    + eexists. split; [reflexivity|]. split_and!; try done. right; right.
      by exists c, e.
    + eexists. split; [reflexivity|]. cbn. split_and!; try done.
      * intros q Hq. by apply lookup_delete_ne.
      * left. apply lookup_delete_eq.
  - eexists. split; [reflexivity|]. split_and!; try done. by left.
Qed.

Lemma clone_voice_try_raise fp name data w e w' :
  clone_voice_try E fp name data w = (Raise e, w') →
  ∃ e0, e = HTTPException 500 ("Voice cloning failed: " +:+ exn_str e0) ∧
        last (log w') = Some ("ERROR", "Error cloning voice: " +:+ exn_str e0).
Proof.
  unfold clone_voice_try, try_except.
  match goal with |- context [match ?body w with _ => _ end] =>
    destruct (body w) as [[resp|e0] w1] end; [done|].
  rewrite bind_run, logger_run. intros [= <- <-]. exists e0. split; [done|].
  cbn. apply last_snoc.
Qed.

(** X10. When [create_voice_embedding] reports failure by returning
    [False], the exception the handler raises for it is caught by the
    handler's own [except Exception] and wrapped once more: the client
    receives status 500 with a detail that carries the text of the first
    exception behind the prefix. *)
Theorem clone_voice_wraps_its_own_error (fp name data : string) (w w1 w2 : world) :
  fs_write E fp (Bytes data) w = (Ok tt, w1) →
  create_voice_embedding E fp name
    (add_log ("INFO", "Processing voice cloning for speaker: " +:+ name) w1)
    = (Ok false, w2) →
  clone_voice_try E fp name data w =
    (Raise (HTTPException 500 "Voice cloning failed: 500: Voice cloning failed"),
     add_log ("ERROR", "Error cloning voice: 500: Voice cloning failed") w2).
Proof.
  intros Hwrite Hcreate. unfold clone_voice_try, try_except.
  rewrite bind_run, Hwrite, bind_run, logger_run, bind_run, Hcreate.
  unfold raise at 1. by rewrite bind_run, logger_run.
Qed.

(** X11. Every failure of a clone-voice request is one of these.  A
    rejection by one of the four checks, in this order: 503 before
    start-up, 400 for an upload that does not declare an audio type, 409
    for a registered name without overwrite, 413 for more than 50 MB; a
    rejected request leaves the state as it was.  A [TypeError] that
    escapes when the upload has no file name.  Or status 500 with the text
    of the underlying exception in its detail, and that exception logged
    as an error. *)
Theorem clone_voice_errors (upload : UploadFile) (name : string) (overwrite : bool)
    (w : world) (e : exn) (w' : world) :
  clone_voice E upload name overwrite w = (Raise e, w') →
  (w' = w ∧
   ((e = not_initialized ∧ started w = false) ∨
    (e = HTTPException 400 "File must be audio format (WAV, MP3, FLAC)" ∧
     started w = true ∧ is_audio_type (content_type upload) = false) ∨
    (e = HTTPException 409 ("Speaker '" +:+ name
           +:+ "' already exists. Use overwrite=true to replace.") ∧
     started w = true ∧ dict_contains name (voices w) = true ∧ overwrite = false) ∨
    (e = HTTPException 413 "File too large. Maximum size is 50MB" ∧
     started w = true ∧ max_size < Z.of_nat (String.length (file_bytes upload))))) ∨
  (filename upload = None ∧ started w = true ∧ ∃ msg, e = PyExc "TypeError" msg) ∨
  (started w = true ∧
   ∃ e0, e = HTTPException 500 ("Voice cloning failed: " +:+ exn_str e0) ∧
         ("ERROR", "Error cloning voice: " +:+ exn_str e0) ∈ log w').
Proof.
  unfold clone_voice. rewrite bind_run. cbn [get_world].
  destruct (started w) eqn:Hs; cbn [negb].
  2:{ intros [= <- <-]. left. split; [done|]. by left. }
  destruct (is_audio_type (content_type upload)) eqn:Ha; cbn [negb].
  2:{ intros [= <- <-]. left. split; [done|]. right; left. done. }
  rewrite bind_run, has_speaker_run.
  destruct (dict_contains name (voices w) && negb overwrite) eqn:Hk.
  { intros [= <- <-]. left. split; [done|]. right; right; left.
    apply andb_true_iff in Hk as [-> Ho%negb_true_iff]. done. }
  destruct (Z.ltb_spec max_size (Z.of_nat (String.length (file_bytes upload))))
    as [Hbig|_].
  { intros [= <- <-]. left. split; [done|]. right; right; right. done. }
  rewrite bind_run. cbn [uuid4]. rewrite bind_run. unfold lift at 1.
  destruct (filename upload) as [f|].
  2:{ intros [= <- _]. right; left. split_and!; [done..|]. by eexists. }
  unfold try_finally.
  match goal with |- context [clone_voice_try E ?fp name ?data ?w0] =>
    destruct (clone_voice_try E fp name data w0) as [r w2] eqn:Htry;
    destruct (clone_voice_finally_run fp w2) as (w3 & -> & _ & _ & Hlog & _)
  end.
  intros [= -> <-]. right; right. split; [done|].
  apply clone_voice_try_raise in Htry as (e0 & -> & Hlast).
  exists e0. split; [done|]. rewrite Hlog. by apply last_Some_elem_of.
Qed.

(** X12. Once a clone-voice request has passed its checks, the upload
    it stored under [uploads] is gone when the request ends, however it
    ends, with two exceptions, both read off the state [w2] that the [try]
    block of this request leaves and in which its [finally] block runs:
    the path is a directory there, or it is a file there and [os.remove]
    raises for it.  In both the [finally] block changes nothing, so the
    request ends in [w2], the path still taken. *)
Theorem clone_voice_removes_upload (upload : UploadFile) (name f : string)
    (overwrite : bool) (w : world) (r : result response) (w' : world) :
  started w = true →
  is_audio_type (content_type upload) = true →
  dict_contains name (voices w) && negb overwrite = false →
  Z.of_nat (String.length (file_bytes upload)) ≤ max_size →
  filename upload = Some f →
  clone_voice E upload name overwrite w = (r, w') →
  let file_path := upload_path E name (upload_ext f) w in
  let w2 := (clone_voice_try E file_path name (file_bytes upload) (bump_uuid w)).2 in
  fs w' !! file_path = None ∨
  (fs w2 !! file_path = Some Dir ∧ w' = w2) ∨
  (∃ c e, fs w2 !! file_path = Some (File c) ∧
          remove_fault E file_path (fs w2) = Some e ∧ w' = w2).
Proof.
  intros Hs Ha Hk Hsize Hf. unfold clone_voice. rewrite bind_run. cbn [get_world].
  rewrite Hs, Ha. cbn [negb]. rewrite bind_run, has_speaker_run, Hk.
  destruct (Z.ltb_spec max_size (Z.of_nat (String.length (file_bytes upload))))
    as [?|_]; [lia|].
  rewrite bind_run. cbn [uuid4]. rewrite bind_run, Hf. unfold lift at 1.
  fold (upload_ext f). fold (upload_path E name (upload_ext f) w).
  unfold try_finally. cbv zeta.
  destruct (clone_voice_try E _ name _ (bump_uuid w)) as [r2 w2].
  destruct (clone_voice_finally_run (upload_path E name (upload_ext f) w) w2)
    as (w3 & -> & _ & _ & _ & _ & Hgone).
  intros [= _ <-]. exact Hgone.
Qed.

(** *** [synthesize_speech] *)

Lemma adjust_speed_fs (S : string → Prop) path speed :
  S path → keeps (fs_outside S) (_adjust_speed E path speed).
Proof. intros HS. unfold _adjust_speed, adjust_speed_body. keeps_fs. Qed.

Lemma synthesize_fs text name lang speed w r w' :
  synthesize E text name lang speed w = (r, w') →
  ∀ p, p ≠ synth_path E name w → p ≠ synth_dir E name w → fs w' !! p = fs w !! p.
Proof.
  unfold synthesize. rewrite bind_run. cbn [get_world].
  destruct (dict_get name (voices w)) as [entry|]; [|by intros [= _ <-]].
  rewrite bind_run. cbn [uuid4].
  fold (synth_path E name w) (synth_dir E name w).
  set (S := λ p, p = synth_path E name w ∨ p = synth_dir E name w).
  intros H p Hp Hd.
  keeps_in H (fs_outside S)
    ltac:(keeps_fs;
          [apply fs_mkdir_fs; by right
          |apply tts_to_file_fs; by left
          |apply adjust_speed_fs; by left]).
  rewrite (H p); [done|]. unfold S. tauto.
Qed.

Lemma synthesize_returns text name lang speed w p w' :
  synthesize E text name lang speed w = (Ok p, w') → p = synth_path E name w.
Proof.
  unfold synthesize. rewrite bind_run. cbn [get_world].
  destruct (dict_get name (voices w)) as [entry|]; [|done].
  rewrite bind_run. cbn [uuid4]. fold (synth_path E name w).
  intros H. apply bind_ok_inv in H as (? & w1 & _ & H).
  apply try_except_ok_inv in H as [H|(e & w2 & _ & H)].
  - repeat (apply bind_ok_inv in H as (? & ? & _ & H)). by injection H as <- _.
  - rewrite bind_run, logger_run in H. done.
Qed.

(** X13. A synthesize request, whatever its outcome, leaves the
    registry as it is and changes no path other than the output file of
    this call and the directory that file is put in.  If it succeeds it
    answers with that output file as [audio/wav]; if it fails, it fails
    with 503, 404 or 400 and an untouched state, or with 500 and the
    text of the underlying exception, which has been logged as an error. *)
Theorem synthesize_speech_outcomes (text name lang : string) (speed : Q) (w : world)
    (r : result response) (w' : world) :
  synthesize_speech E text name lang speed w = (r, w') →
  voices w' = voices w ∧ started w' = started w ∧
  (∀ p, p ≠ synth_path E name w → p ≠ synth_dir E name w → fs w' !! p = fs w !! p) ∧
  match r with
  | Ok resp => ∃ download, resp = FileResponse (synth_path E name w) "audio/wav" download
  | Raise e =>
      (w' = w ∧ ∃ detail, e = HTTPException 503 detail ∨ e = HTTPException 404 detail ∨
                          e = HTTPException 400 detail) ∨
      (∃ e0, e = HTTPException 500 ("Speech synthesis failed: " +:+ exn_str e0) ∧
             ("ERROR", "Error synthesizing speech: " +:+ exn_str e0) ∈ log w')
  end.
Proof.
  unfold synthesize_speech. rewrite bind_run. cbn [get_world].
  destruct (started w) eqn:Hs; cbn [negb].
  2:{ intros [= <- <-]. split_and!; [done..|]. left. split; [done|]. eexists. by left. }
  rewrite bind_run, has_speaker_run.
  destruct (dict_contains name (voices w)) eqn:Hk; cbn [negb].
  2:{ rewrite bind_run, list_speakers_run. intros [= <- <-].
      split_and!; [done..|]. left. split; [done|]. eexists. right; by left. }
  destruct (py_len (py_strip (str_chars text)) =? 0).
  { intros [= <- <-]. split_and!; [done..|]. left. split; [done|].
    eexists. right; by right. }
  unfold try_except. rewrite bind_run, logger_run, bind_run.
  destruct (synthesize E text name lang speed _) as [[out|e0] w1] eqn:Hsyn.
  - rewrite bind_run. cbn [uuid4]. intros [= <- <-].
    pose proof (synthesize_registry E _ _ _ _ _ _ _ Hsyn) as (Hv & Hst & _).
    pose proof (synthesize_fs _ _ _ _ _ _ _ Hsyn) as Hfs.
    pose proof (synthesize_returns _ _ _ _ _ _ _ Hsyn) as ->.
    change (synth_path E name (add_log _ w)) with (synth_path E name w) in *.
    change (synth_dir E name (add_log _ w)) with (synth_dir E name w) in *.
    cbn in *. split_and!; [congruence..|done|]. by eexists.
  - rewrite bind_run, logger_run. intros [= <- <-].
    pose proof (synthesize_registry E _ _ _ _ _ _ _ Hsyn) as (Hv & Hst & _).
    pose proof (synthesize_fs _ _ _ _ _ _ _ Hsyn) as Hfs.
    change (synth_path E name (add_log _ w)) with (synth_path E name w) in *.
    change (synth_dir E name (add_log _ w)) with (synth_dir E name w) in *.
    cbn in *. split_and!; [congruence..|done|]. right. exists e0. split; [done|].
    apply elem_of_app. right. by constructor.
Qed.

(** X14. For a registered speaker after start-up, a synthesize request
    is refused with 400 and no effect exactly when every character of the
    text is whitespace as [str.strip()] sees it, the Unicode spaces beyond
    ASCII as well (the empty text included). *)
Theorem synthesize_speech_blank_text (text name lang : string) (speed : Q) (w : world) :
  started w = true →
  dict_contains name (voices w) = true →
  synthesize_speech E text name lang speed w
    = (Raise (HTTPException 400 "Text cannot be empty"), w)
  ↔ all_space (str_chars text) = true.
Proof.
  intros Hs Hk. unfold synthesize_speech. rewrite bind_run. cbn [get_world].
  rewrite Hs. cbn [negb]. rewrite bind_run, has_speaker_run, Hk. cbn [negb].
  destruct (Z.eqb_spec (py_len (py_strip (str_chars text))) 0) as [Hz|Hnz].
  - split; [|done]. intros _. by apply py_strip_empty.
  - split.
    + unfold try_except. rewrite bind_run, logger_run, bind_run.
      destruct (synthesize E text name lang speed _) as [[out|e0] w1].
      * rewrite bind_run. cbn [uuid4]. done.
      * rewrite bind_run, logger_run. done.
    + intros Hsp%py_strip_empty. done.
Qed.

(** *** [delete_speaker] *)

(** X15. After start-up a delete request has two outcomes.  It answers
    with the success message, and then the name was registered and its
    entry is gone; or it fails with 404, and then the registry is what it
    was.  It answers 404 for a name that is not registered, and also for a
    registered name whose directory could not be removed: that speaker is
    reported as not found and stays registered. *)
Theorem delete_endpoint_outcomes (name : string) (w : world) :
  started w = true →
  (∀ r w', delete_speaker_endpoint E name w = (r, w') →
     (r = Ok (DeleteResponse ("Speaker '" +:+ name +:+ "' deleted successfully")) ∧
      dict_contains name (voices w) = true ∧
      voices w' = dict_remove name (voices w)) ∨
     (r = Raise (HTTPException 404 ("Speaker '" +:+ name +:+ "' not found")) ∧
      voices w' = voices w)) ∧
  (dict_contains name (voices w) = false →
   delete_speaker_endpoint E name w =
     (Raise (HTTPException 404 ("Speaker '" +:+ name +:+ "' not found")), w)) ∧
  (∀ e w1, dict_contains name (voices w) = true →
     exists_path (fs w) (voice_dir_of name) = true →
     fs_rmtree E (voice_dir_of name) w = (Raise e, w1) →
     ∃ w', delete_speaker_endpoint E name w =
             (Raise (HTTPException 404 ("Speaker '" +:+ name +:+ "' not found")), w') ∧
           has_speaker name w' = (Ok true, w')).
Proof.
  intros Hs. unfold delete_speaker_endpoint. rewrite !bind_run. cbn [get_world].
  rewrite Hs. cbn [negb]. split_and!.
  - intros r w'. rewrite bind_run.
    destruct (delete_speaker E name w) as [rd w1] eqn:Hd.
    apply delete_speaker_registry in Hd as (_ & _ & [[Hv ->]|(Hv & -> & Hk)]).
    + intros [= <- <-]. by right.
    + rewrite bind_run, logger_run. intros [= <- <-]. by left.
  - intros Hk. rewrite bind_run. unfold delete_speaker. rewrite bind_run. cbn [get_world].
    by rewrite Hk.
  - intros e w1 Hk Hex Hrm. rewrite bind_run.
    assert ((if exists_path (fs w) (voice_dir_of name)
             then fs_rmtree E (voice_dir_of name) else mret ()) w = (Raise e, w1)) as Hrun.
    { by rewrite Hex. }
    pose proof (delete_body_run E name w Hk _ _ Hrun) as Hbody. cbn beta iota in Hbody.
    rewrite (delete_speaker_run E name w Hk _ _ Hbody).
    eexists. split; [reflexivity|]. rewrite has_speaker_run. cbn.
    apply fs_rmtree_registry in Hrm as (-> & _). by rewrite Hk.
Qed.

(** *** All handlers *)

Lemma clone_voice_not_503 upload name overwrite w e w' :
  started w = true →
  clone_voice E upload name overwrite w = (Raise e, w') →
  ∀ detail, e ≠ HTTPException 503 detail.
Proof.
  intros Hs. unfold clone_voice. rewrite bind_run. cbn [get_world]. rewrite Hs.
  cbn [negb]. destruct (is_audio_type _); cbn [negb]; [|by intros [= <- _]].
  rewrite bind_run, has_speaker_run.
  destruct (_ && _); [by intros [= <- _]|].
  destruct (_ <? _); [by intros [= <- _]|].
  rewrite bind_run. cbn [uuid4]. rewrite bind_run. unfold lift at 1.
  destruct (filename upload); [|by intros [= <- _]].
  unfold try_finally.
  match goal with |- context [clone_voice_try E ?fp name ?data ?w0] =>
    destruct (clone_voice_try E fp name data w0) as [r w2] eqn:Htry;
    destruct (clone_voice_finally_run fp w2) as (w3 & -> & _)
  end.
  intros [= -> _]. by apply clone_voice_try_raise in Htry as (e0 & -> & _).
Qed.

Lemma synthesize_speech_not_503 text name lang speed w e w' :
  started w = true →
  synthesize_speech E text name lang speed w = (Raise e, w') →
  ∀ detail, e ≠ HTTPException 503 detail.
Proof.
  intros Hs. unfold synthesize_speech. rewrite bind_run. cbn [get_world]. rewrite Hs.
  cbn [negb]. rewrite bind_run, has_speaker_run.
  destruct (dict_contains _ _); cbn [negb].
  - destruct (_ =? 0); [by intros [= <- _]|].
    unfold try_except. rewrite bind_run, logger_run, bind_run.
    destruct (synthesize E _ _ _ _ _) as [[?|?] ?].
    + rewrite bind_run. done.
    + rewrite bind_run, logger_run. by intros [= <- _].
  - rewrite bind_run, list_speakers_run. by intros [= <- _].
Qed.

Lemma delete_speaker_endpoint_not_503 name w e w' :
  started w = true →
  delete_speaker_endpoint E name w = (Raise e, w') →
  ∀ detail, e ≠ HTTPException 503 detail.
Proof.
  intros Hs. unfold delete_speaker_endpoint. rewrite bind_run. cbn [get_world].
  rewrite Hs. cbn [negb]. rewrite bind_run.
  destruct (delete_speaker E name w) as [rd w1] eqn:Hd.
  apply delete_speaker_registry in Hd as (_ & _ & [[_ ->]|(_ & -> & _)]).
  - by intros [= <- _].
  - by rewrite bind_run, logger_run.
Qed.

Lemma served_from_started w0 w :
  started w0 = true → served_from E w0 w → started w = true.
Proof.
  intros Hs. induction 1 as [|w c r w' _ IH Hrun]; [done|].
  pose proof (handle_keeps_inv E c _ _ _ Hrun) as (Hs' & _). congruence.
Qed.

(** X16. Before start-up every request is answered 503 and changes
    nothing.  No request switches the service off: from a state in which
    the service is started, whatever the disk it started on, every
    sequence of requests leads to a state in which it is started, and
    there no request is answered 503 and listing the speakers never
    fails. *)
Theorem service_availability (c : api_call) (w0 w : world) :
  (started w = false → handle E c w = (Raise not_initialized, w)) ∧
  (started w0 = true → served_from E w0 w →
   started w = true ∧
   ∀ r w', handle E c w = (r, w') →
     started w' = true ∧
     (∀ detail, r ≠ Raise (HTTPException 503 detail)) ∧
     (c = GetSpeakers →
      r = Ok (SpeakersResponse (dict_keys (voices w)) (py_len (dict_keys (voices w))))
      ∧ w' = w)).
Proof.
  split.
  - intros Hs. destruct c; cbn [handle].
    + unfold clone_voice. rewrite bind_run. cbn [get_world]. by rewrite Hs.
    + unfold synthesize_speech. rewrite bind_run. cbn [get_world]. by rewrite Hs.
    + unfold list_speakers_endpoint. rewrite bind_run. cbn [get_world]. by rewrite Hs.
    + unfold delete_speaker_endpoint. rewrite bind_run. cbn [get_world]. by rewrite Hs.
  - intros Hs0 Hserved.
    pose proof (served_from_started _ _ Hs0 Hserved) as Hs.
    split; [done|]. intros r w' Hrun.
    pose proof (handle_keeps_inv E c _ _ _ Hrun) as (Hs' & _).
    split; [congruence|]. split.
    + intros detail ->. destruct c; cbn [handle] in Hrun.
      * by eapply clone_voice_not_503.
      * by eapply synthesize_speech_not_503.
      * unfold list_speakers_endpoint in Hrun. rewrite bind_run in Hrun.
        cbn [get_world] in Hrun. rewrite Hs in Hrun. cbn [negb] in Hrun.
        rewrite bind_run, list_speakers_run in Hrun. done.
      * by eapply delete_speaker_endpoint_not_503.
    + intros ->. cbn [handle] in Hrun. unfold list_speakers_endpoint in Hrun.
      rewrite bind_run in Hrun. cbn [get_world] in Hrun. rewrite Hs in Hrun.
      cbn [negb] in Hrun. rewrite bind_run, list_speakers_run in Hrun.
      by injection Hrun as <- <-.
Qed.
End Handlers.

(** ** Speaker information *)

Lemma round_half_even_near (q : Q) :
  2 * Z.abs (round_half_even q * Z.pos (Qden q) - Qnum q) ≤ Z.pos (Qden q).
Proof.
  unfold round_half_even.
  pose proof (Z.div_mod (Qnum q) (Z.pos (Qden q)) ltac:(lia)) as Hdm.
  pose proof (Z.mod_pos_bound (Qnum q) (Z.pos (Qden q)) ltac:(lia)) as Hmod.
  set (lo := Qnum q `div` Z.pos (Qden q)) in *.
  set (rem := Qnum q `mod` Z.pos (Qden q)) in *.
  set (d := Z.pos (Qden q)) in *.
  destruct (Z.ltb_spec (2 * rem) d); [nia|].
  destruct (Z.ltb_spec d (2 * rem)); [nia|].
  destruct (Z.even lo); nia.
Qed.

Lemma py_round2_near (q : Q) :
  (- (1 # 200) <= py_round2 q - q)%Q ∧ (py_round2 q - q <= 1 # 200)%Q.
Proof.
  pose proof (round_half_even_near (q * 100)) as Hnear.
  unfold py_round2. set (k := round_half_even (q * 100)) in *. clearbody k.
  destruct q as [a b]. cbn in Hnear. rewrite Pos.mul_1_r in Hnear.
  unfold Qle, Qminus, Qplus, Qopp. cbn.
  split; nia.
Qed.

Lemma py_round2_small (bytes : Z) :
  0 ≤ bytes < 5243 →
  py_round2 (inject_Z bytes / inject_Z (1024 * 1024)) = (0 # 100)%Q.
Proof.
  intros Hb. unfold py_round2, round_half_even. cbn.
  rewrite Z.mul_1_r. f_equal.
  change (Z.pos (1 * Qden (/ inject_Z (1024 * 1024)) * 1)) with 1048576.
  rewrite (Z.div_small (bytes * 100) 1048576) by lia.
  rewrite (Z.mod_small (bytes * 100) 1048576) by lia.
  destruct (Z.ltb_spec (2 * (bytes * 100)) 1048576); [done|lia].
Qed.

Section Info.
Context (st_size : node → Z).

Lemma get_speaker_info_run name w :
  get_speaker_info st_size name w =
  (Ok match dict_get name (voices w) with
      | None => None
      | Some entry =>
          Some {| info_entry := entry;
                  file_size_mb :=
                    match fs w !! reference_path entry with
                    | Some nd =>
                        if decide (reference_path entry = EmptyString) then None
                        else Some (py_round2 (inject_Z (st_size nd)
                                              / inject_Z (1024 * 1024)))
                    | None => None
                    end |}
      end, w).
Proof.
  unfold get_speaker_info. rewrite bind_run. cbn [get_world].
  destruct (dict_get name (voices w)) as [entry|]; [|done].
  cbn zeta. rewrite bind_run.
  destruct (decide (reference_path entry = EmptyString)) as [Hempty|Hne].
  - rewrite bool_decide_eq_true_2 by done. cbn [negb].
    by destruct (fs w !! reference_path entry).
  - rewrite bool_decide_eq_false_2 by done. cbn [negb].
    unfold fs_exists, exists_path.
    destruct (fs w !! reference_path entry) as [nd|] eqn:Hnd; cbn beta iota.
    + rewrite !bind_run. unfold os_path_getsize. by rewrite Hnd.
    + by rewrite bind_run.
Qed.

(** X17. [get_speaker_info] never raises and changes nothing.  For a
    name that is not registered it returns [None].  For a registered name
    it returns the entry, and adds [file_size_mb] exactly when the stored
    reference path is not empty and exists on disk; the figure is a
    multiple of 0.01 that differs from the size in units of 2^20 bytes by
    at most 0.005, so that a reference of fewer than 5243 bytes is reported
    with size 0. *)
Theorem get_speaker_info_spec (name : string) (w : world) :
  ∃ r, get_speaker_info st_size name w = (Ok r, w) ∧
    match dict_get name (voices w) with
    | None => r = None
    | Some entry =>
        ∃ size, r = Some {| info_entry := entry; file_size_mb := size |} ∧
          match fs w !! reference_path entry with
          | Some nd =>
              if decide (reference_path entry = EmptyString) then size = None
              else ∃ k, size = Some (k # 100)%Q ∧
                     (- (1 # 200) <= (k # 100) - inject_Z (st_size nd) / inject_Z (2 ^ 20))%Q ∧
                     ((k # 100) - inject_Z (st_size nd) / inject_Z (2 ^ 20) <= 1 # 200)%Q ∧
                     (0 ≤ st_size nd < 5243 → k = 0)
          | None => size = None
          end
    end.
Proof.
  rewrite get_speaker_info_run. eexists. split; [reflexivity|].
  destruct (dict_get name (voices w)) as [entry|]; [|done].
  eexists. split; [reflexivity|].
  destruct (fs w !! reference_path entry) as [nd|]; [|done].
  destruct (decide (reference_path entry = EmptyString)); [done|].
  eexists. split; [reflexivity|].
  pose proof (py_round2_near (inject_Z (st_size nd) / inject_Z (1024 * 1024))) as [Hlo Hhi].
  split_and!; [exact Hlo|exact Hhi|].
  intros Hsmall. apply py_round2_small in Hsmall.
  unfold py_round2 in Hsmall. by injection Hsmall.
Qed.

(** X18. The info request changes nothing.  It succeeds exactly for a
    registered name after start-up, and then answers with that name and
    the entry of the registry, never with an empty [info]; before
    start-up it fails with 503 and for a name that is not registered
    with 404. *)
Theorem info_endpoint_outcomes (name : string) (w : world)
    (r : result info_response) (w' : world) :
  get_speaker_info_endpoint st_size name w = (r, w') →
  w' = w ∧
  match r with
  | Ok resp =>
      started w = true ∧
      ∃ entry size, dict_get name (voices w) = Some entry ∧
        resp = InfoResponse name
                 (Some {| info_entry := entry; file_size_mb := size |}) "success"
  | Raise e =>
      (started w = false ∧ e = not_initialized) ∨
      (started w = true ∧ dict_get name (voices w) = None ∧
       e = HTTPException 404 ("Speaker '" +:+ name +:+ "' not found"))
  end.
Proof.
  unfold get_speaker_info_endpoint. rewrite bind_run. cbn [get_world].
  destruct (started w) eqn:Hs; cbn [negb].
  2:{ intros [= <- <-]. split; [done|]. by left. }
  rewrite bind_run, has_speaker_run.
  destruct (dict_contains name (voices w)) eqn:Hk; cbn [negb].
  - apply dict_contains_get in Hk as [entry Hg].
    rewrite bind_run, get_speaker_info_run, Hg. intros [= <- <-]. split; [done|].
    split; [done|]. by eexists entry, _.
  - intros [= <- <-]. split; [done|]. right. split_and!; [done| |done].
    apply dict_get_None. by apply dict_contains_false.
Qed.
End Info.

(** ** The clean-up task *)

Global Instance cleaned_preorder P : PreOrder (cleaned P).
Proof.
  split.
  - intros w. split_and!; [done..|]. intros p. by left.
  - intros w1 w2 w3 (Hv & Hs & H12) (Hv' & Hs' & H23).
    split_and!; [congruence..|]. intros p.
    destruct (H23 p) as [Heq|(Hnone & HP & c & Hc)].
    + rewrite Heq. apply H12.
    + right. split; [done|]. split; [done|]. exists c.
      destruct (H12 p) as [<-|(Hnone' & _)]; [done|congruence].
Qed.

Lemma keeps_for_each {A} (R : relation world) `{!PreOrder R} (l : list A)
    (body : A → M unit) :
  (∀ x, x ∈ l → keeps R (body x)) → keeps R (for_each l body).
Proof.
  induction l as [|x l IH]; intros Hbody; cbn [for_each].
  - by apply keeps_ret.
  - apply keeps_bind; [done| |].
    + apply Hbody. by left.
    + intros _. apply IH. intros y Hy. apply Hbody. by right.
Qed.

Lemma str_strip_prefix_inv a s r : str_strip_prefix a s = Some r → s = a +:+ r.
Proof.
  revert s. induction a as [|c a IH]; intros s; cbn [str_strip_prefix].
  - by intros [= ->].
  - destruct s as [|c' s]; [done|].
    destruct (decide (c = c')) as [->|]; [|done].
    intros ->%IH. by rewrite str_app_cons.
Qed.

Lemma str_strip_prefix_app a r : str_strip_prefix a (a +:+ r) = Some r.
Proof.
  induction a as [|c a IH]; [by destruct r|].
  rewrite str_app_cons. cbn [str_strip_prefix]. by rewrite decide_True.
Qed.

Lemma entry_name_inv d p name :
  entry_name d p = Some name →
  p = dir_prefix d +:+ name ∧ name ≠ EmptyString ∧ str_contains slash name = false.
Proof.
  unfold entry_name. destruct (str_strip_prefix (dir_prefix d) p) as [r|] eqn:Hr; [|done].
  cbn. destruct (decide (r = EmptyString)) as [->|Hne].
  - by rewrite bool_decide_eq_true_2.
  - rewrite bool_decide_eq_false_2 by done. cbn.
    destruct (str_contains slash r) eqn:Hsl; [done|]. intros [= <-].
    by apply str_strip_prefix_inv in Hr.
Qed.

Lemma entry_name_app d name :
  name ≠ EmptyString → str_contains slash name = false →
  entry_name d (dir_prefix d +:+ name) = Some name.
Proof.
  intros Hne Hsl. unfold entry_name. rewrite str_strip_prefix_app. cbn.
  by rewrite bool_decide_eq_false_2, Hsl.
Qed.

(** For the two folders of the task, [os.path.join] of the folder and a
    listed name is the path the name was listed for. *)
Lemma join_listed folder p name :
  folder ∈ ["uploads"; "outputs"] →
  entry_name folder p = Some name → os_path_join folder name = p.
Proof.
  intros Hfolder (-> & Hne & Hsl)%entry_name_inv.
  assert (str_startswith "/" name = false) as Hstart.
  { destruct name as [|c name]; [done|]. cbn [str_contains] in Hsl.
    destruct (decide (c = slash)) as [->|Hc]; [done|].
    unfold str_startswith. cbn [String.prefix].
    by destruct (ascii_dec "/" c) as [<-|]. }
  unfold os_path_join. rewrite Hstart.
  apply elem_of_cons in Hfolder as [->|Hfolder]; [done|].
  by apply list_elem_of_singleton in Hfolder as ->.
Qed.


Section Cleanup.
Context (E : Externals) (st_ctime : string → Q).
Context (listdir_order : list string → list string).
Context (current_time : Q).

Lemma cleanup_file_run folder file w :
  cleanup_file E st_ctime current_time folder file w =
  let file_path := os_path_join folder file in
  match fs w !! file_path with
  | Some (File _) =>
      if negb (Qle_bool (current_time - st_ctime file_path) 3600) then
        match remove_fault E file_path (fs w) with
        | Some _ => (Ok tt, w)
        | None =>
            (Ok tt, add_log ("INFO", "Cleaned up old file: " +:+ file_path)
                      (set_fs (delete file_path (fs w)) w))
        end
      else (Ok tt, w)
  | _ => (Ok tt, w)
  end.
Proof.
  unfold cleanup_file. cbn zeta. rewrite bind_run. unfold os_path_isfile.
  destruct (fs w !! os_path_join folder file) as [[|c]|] eqn:Hfp; [done| |done].
  rewrite bind_run. unfold os_path_getctime. rewrite Hfp.
  destruct (negb _); [|done].
  unfold try_except. rewrite bind_run. unfold fs_remove. rewrite Hfp.
  destruct (remove_fault E _ (fs w)); [done|]. by rewrite logger_run.
Qed.

Lemma cleanup_file_keeps (P : string → Prop) folder file :
  ((3600 < current_time - st_ctime (os_path_join folder file))%Q →
   P (os_path_join folder file)) →
  keeps (cleaned P) (cleanup_file E st_ctime current_time folder file).
Proof.
  intros HP w r w'. rewrite cleanup_file_run. cbn zeta.
  destruct (fs w !! os_path_join folder file) as [[|c]|] eqn:Hfp;
    [by intros [= _ <-]| |by intros [= _ <-]].
  destruct (Qle_bool _ _) eqn:Hage; cbn [negb]; [by intros [= _ <-]|].
  destruct (remove_fault E _ (fs w)); [by intros [= _ <-]|].
  intros [= _ <-]. split_and!; [done..|]. intros p. cbn.
  destruct (decide (p = os_path_join folder file)) as [->|Hne].
  - right. split; [apply lookup_delete_eq|]. split; [|by exists c].
    apply HP. apply Qnot_le_lt. intros Hle%Qle_bool_iff. congruence.
  - left. by apply lookup_delete_ne.
Qed.

Lemma cleanup_file_ok folder file w :
  ∃ w', cleanup_file E st_ctime current_time folder file w = (Ok tt, w').
Proof.
  rewrite cleanup_file_run. cbn zeta. repeat case_match; eauto.
Qed.

Lemma for_each_cleanup_ok folder files w :
  ∃ w', for_each files (cleanup_file E st_ctime current_time folder) w = (Ok tt, w').
Proof.
  revert w. induction files as [|file files IH]; intros w; cbn [for_each].
  - by eexists.
  - rewrite bind_run. destruct (cleanup_file_ok folder file w) as [w1 ->]. apply IH.
Qed.

Lemma os_listdir_ok d w files w' :
  (∀ l, listdir_order l ≡ₚ l) →
  os_listdir listdir_order d w = (Ok files, w') →
  w' = w ∧ fs w !! d = Some Dir ∧
  ∀ file, file ∈ files ↔ ∃ p, is_Some (fs w !! p) ∧ entry_name d p = Some file.
Proof.
  intros Hperm. unfold os_listdir.
  destruct (fs w !! d) as [[|c]|]; [|done..]. intros [= <- <-].
  split; [done|]. split; [done|]. intros file. rewrite Hperm, list_elem_of_omap.
  split; intros (p & Hp & Hname); exists p; (split; [|done]).
  - apply list_elem_of_fmap in Hp as ([p' nd] & -> & Hin).
    apply elem_of_map_to_list in Hin. by exists nd.
  - destruct Hp as [nd Hnd]. apply list_elem_of_fmap. exists (p, nd).
    split; [done|]. by apply elem_of_map_to_list.
Qed.

(** One folder: what is removed is an old plain file listed in it. *)
Lemma cleanup_folder_keeps folder :
  (∀ l, listdir_order l ≡ₚ l) →
  folder ∈ ["uploads"; "outputs"] →
  keeps (cleaned (old_entry st_ctime current_time))
    (cleanup_folder E st_ctime listdir_order current_time folder).
Proof.
  intros Hperm Hfolder w r w'. unfold cleanup_folder. rewrite bind_run.
  unfold fs_exists, exists_path.
  destruct (fs w !! folder) as [nd|] eqn:Hnd; cbn beta iota; [|by intros [= _ <-]].
  rewrite bind_run.
  destruct (os_listdir listdir_order folder w) as [[files|e] w1] eqn:Hls.
  - apply (os_listdir_ok _ _ _ _ Hperm) in Hls as (-> & _ & Hfiles).
    apply keeps_for_each; [apply _|]. intros file (p & _ & Hp)%Hfiles.
    apply cleanup_file_keeps. intros Hold.
    rewrite (join_listed _ _ _ Hfolder Hp) in *. split; [|done].
    exists file. apply elem_of_cons in Hfolder as [->|Hfolder]; [by left|].
    apply list_elem_of_singleton in Hfolder as ->. by right.
  - unfold os_listdir in Hls. rewrite Hnd in Hls.
    destruct nd; [done|]. injection Hls as _ <-. by intros [= _ <-].
Qed.

Lemma cleanup_old_files_keeps :
  (∀ l, listdir_order l ≡ₚ l) →
  keeps (cleaned (old_entry st_ctime current_time))
    (cleanup_old_files E st_ctime listdir_order current_time).
Proof.
  intros Hperm. unfold cleanup_old_files. apply keeps_for_each; [apply _|].
  intros folder Hfolder. by apply cleanup_folder_keeps.
Qed.

(** X19. Whatever the outcome of the clean-up task, the registry is what
    it was, and every path of the disk either holds what it held, or is
    gone and was a plain file directly in [uploads] or [outputs] whose
    change time lay more than an hour before the task started.
    Directories, files in sub-directories, files elsewhere and files no
    older than an hour are never removed. *)
Theorem cleanup_removes_only_old_files (w : world) (r : result unit) (w' : world) :
  (∀ l, listdir_order l ≡ₚ l) →
  cleanup_old_files E st_ctime listdir_order current_time w = (r, w') →
  voices w' = voices w ∧ started w' = started w ∧
  ∀ p, fs w' !! p = fs w !! p ∨
       (fs w' !! p = None ∧
        (∃ c, fs w !! p = Some (File c)) ∧
        (∃ name, entry_name "uploads" p = Some name ∨
                 entry_name "outputs" p = Some name) ∧
        (3600 < current_time - st_ctime p)%Q).
Proof.
  intros Hperm (Hv & Hs & Hfs)%(cleanup_old_files_keeps Hperm).
  split_and!; [done..|]. intros p.
  destruct (Hfs p) as [?|(? & [? ?] & ?)]; [by left|by right].
Qed.


(** X21. The task does not fail on the files it visits: a refusal of
    the operating system to remove one is swallowed.  It ends normally
    when each of [uploads] and [outputs] is missing or a directory, and
    it raises [NotADirectoryError], the only exception that escapes it,
    when one of the two names exists as a plain file. *)
Theorem cleanup_old_files_result (w : world) :
  ((fs w !! "uploads" = None ∨ fs w !! "uploads" = Some Dir) →
   (fs w !! "outputs" = None ∨ fs w !! "outputs" = Some Dir) →
   ∃ w', cleanup_old_files E st_ctime listdir_order current_time w = (Ok tt, w')) ∧
  (∀ c, fs w !! "uploads" = Some (File c) →
     cleanup_old_files E st_ctime listdir_order current_time w
       = (Raise (NotADirectoryError "uploads"), w)) ∧
  (∀ c, (fs w !! "uploads" = None ∨ fs w !! "uploads" = Some Dir) →
     fs w !! "outputs" = Some (File c) →
     ∃ w', cleanup_old_files E st_ctime listdir_order current_time w
             = (Raise (NotADirectoryError "outputs"), w')).
Proof.
  assert (∀ (P : string → Prop) folder w0,
            (∀ file, P (os_path_join folder file)) →
            fs w0 !! folder = None ∨ fs w0 !! folder = Some Dir →
            ∃ w1, cleanup_folder E st_ctime listdir_order current_time folder w0
                    = (Ok tt, w1) ∧
                  cleaned P w0 w1) as Hpass.
  { intros P folder w0 HP Hf. unfold cleanup_folder. rewrite bind_run.
    unfold fs_exists, exists_path.
    destruct Hf as [-> | Hf].
    - eexists. split; [reflexivity|]. reflexivity.
    - rewrite Hf. cbn beta iota. rewrite bind_run. unfold os_listdir. rewrite Hf.
      set (files := listdir_order _).
      destruct (for_each_cleanup_ok folder files w0) as [w1 Hrun].
      exists w1. split; [done|].
      assert (keeps (cleaned P)
                (for_each files (cleanup_file E st_ctime current_time folder))) as Hk.
      { apply keeps_for_each; [apply _|]. intros file _.
        by apply cleanup_file_keeps. }
      by eapply Hk. }
  assert (∀ folder w0 c,
            fs w0 !! folder = Some (File c) →
            cleanup_folder E st_ctime listdir_order current_time folder w0
              = (Raise (NotADirectoryError folder), w0)) as Hfail.
  { intros folder w0 c Hf. unfold cleanup_folder. rewrite bind_run.
    unfold fs_exists, exists_path. rewrite Hf. cbn beta iota.
    rewrite bind_run. unfold os_listdir. by rewrite Hf. }
  assert (∀ file, os_path_join "uploads" file ≠ "outputs") as Hother.
  { intros file. unfold os_path_join.
    destruct (str_startswith "/" file) eqn:Hstart; [|done].
    intros ->. done. }
  unfold cleanup_old_files. cbn [for_each]. split_and!.
  - intros Hup Hout. rewrite bind_run.
    destruct (Hpass (λ p, p ≠ "outputs") "uploads" w Hother Hup) as (w1 & -> & _ & _ & Hfs).
    rewrite bind_run.
    assert (fs w1 !! "outputs" = None ∨ fs w1 !! "outputs" = Some Dir) as Hout1.
    { destruct (Hfs "outputs") as [->|(-> & _)]; [done|by left]. }
    destruct (Hpass (λ _, True) "outputs" w1 (λ _, I) Hout1) as (w2 & -> & _).
    by eexists.
  - intros c Hup. by rewrite bind_run, (Hfail _ _ _ Hup).
  - intros c Hup Hout. rewrite bind_run.
    destruct (Hpass (λ p, p ≠ "outputs") "uploads" w Hother Hup) as (w1 & -> & _ & _ & Hfs).
    rewrite bind_run.
    assert (fs w1 !! "outputs" = Some (File c)) as Hout1.
    { by destruct (Hfs "outputs") as [->|(_ & ? & _)]. }
    rewrite (Hfail _ _ _ Hout1). by eexists.
Qed.
Lemma for_each_cleanup_removes folder files w w' :
  (∀ p fs1, remove_fault E p fs1 = None) →
  for_each files (cleanup_file E st_ctime current_time folder) w = (Ok tt, w') →
  ∀ file, file ∈ files →
    (3600 < current_time - st_ctime (os_path_join folder file))%Q →
    (fs w !! os_path_join folder file = None ∨
     ∃ c, fs w !! os_path_join folder file = Some (File c)) →
    fs w' !! os_path_join folder file = None.
Proof.
  intros Hnofault. revert w. induction files as [|x files IH]; intros w Hrun file Hin Hold Hfp.
  { by apply elem_of_nil in Hin. }
  cbn [for_each] in Hrun. apply bind_ok_inv in Hrun as ([] & w1 & Hx & Hrest).
  pose proof (cleanup_file_keeps (λ _, True) folder x (λ _, I) _ _ _ Hx)
    as (_ & _ & Hfs1).
  assert (keeps (cleaned (λ _, True))
            (for_each files (cleanup_file E st_ctime current_time folder))) as Hk.
  { apply keeps_for_each; [apply _|]. intros y _. by apply cleanup_file_keeps. }
  pose proof (Hk _ _ _ Hrest) as (_ & _ & Hfs').
  assert (fs w1 !! os_path_join folder file = None → fs w' !! os_path_join folder file = None)
    as Hstays.
  { intros Hnone. destruct (Hfs' (os_path_join folder file)) as [->|[? _]]; done. }
  apply elem_of_cons in Hin as [->|Hin].
  - apply Hstays. rewrite cleanup_file_run in Hx. cbn zeta in Hx.
    destruct Hfp as [Hnone|[c Hc]].
    + rewrite Hnone in Hx. injection Hx as <-. done.
    + rewrite Hc in Hx.
      assert (Qle_bool (current_time - st_ctime (os_path_join folder x)) 3600 = false)
        as Hage.
      { apply not_true_is_false. intros Hle%Qle_bool_iff. by apply Qlt_not_le in Hold. }
      rewrite Hage, Hnofault in Hx. cbn [negb] in Hx. injection Hx as <-. cbn.
      apply lookup_delete_eq.
  - apply (IH w1 Hrest file Hin Hold).
    destruct (Hfs1 (os_path_join folder file)) as [->|[? _]]; [done|by left].
Qed.

Lemma cleanup_folder_removes folder w w1 :
  (∀ l, listdir_order l ≡ₚ l) →
  (∀ p fs1, remove_fault E p fs1 = None) →
  folder ∈ ["uploads"; "outputs"] →
  cleanup_folder E st_ctime listdir_order current_time folder w = (Ok tt, w1) →
  fs w !! folder = Some Dir →
  ∀ p name c, entry_name folder p = Some name →
    fs w !! p = Some (File c) →
    (3600 < current_time - st_ctime p)%Q →
    fs w1 !! p = None.
Proof.
  intros Hperm Hnofault Hfolder Hrun Hdir p name c Hname Hc Hold.
  unfold cleanup_folder in Hrun. rewrite bind_run in Hrun.
  unfold fs_exists, exists_path in Hrun. rewrite Hdir in Hrun. cbn beta iota in Hrun.
  apply bind_ok_inv in Hrun as (files & w0 & Hls & Hrun).
  apply (os_listdir_ok _ _ _ _ Hperm) in Hls as (-> & _ & Hfiles).
  assert (name ∈ files) as Hin. { apply Hfiles. exists p. by rewrite Hc. }
  pose proof (join_listed _ _ _ Hfolder Hname) as Hjoin.
  pose proof (for_each_cleanup_removes _ _ _ _ Hnofault Hrun name Hin) as Hgone.
  rewrite Hjoin in Hgone. apply Hgone; [done|]. right. by exists c.
Qed.

(** X22. When the operating system refuses no removal, a run of the
    clean-up task that ends normally leaves no old file behind: every
    plain file that sat directly in [uploads] or [outputs], these being
    directories, with a change time more than an hour back, is gone. *)
Theorem cleanup_removes_every_old_file (w w' : world) :
  (∀ l, listdir_order l ≡ₚ l) →
  (∀ p fs1, remove_fault E p fs1 = None) →
  cleanup_old_files E st_ctime listdir_order current_time w = (Ok tt, w') →
  ∀ folder p name c,
    folder ∈ ["uploads"; "outputs"] →
    fs w !! folder = Some Dir →
    entry_name folder p = Some name →
    fs w !! p = Some (File c) →
    (3600 < current_time - st_ctime p)%Q →
    fs w' !! p = None.
Proof.
  intros Hperm Hnofault Hrun folder p name c Hfolder Hdir Hname Hc Hold.
  unfold cleanup_old_files in Hrun. cbn [for_each] in Hrun.
  apply bind_ok_inv in Hrun as ([] & w1 & Hup & Hrun).
  apply bind_ok_inv in Hrun as ([] & w2 & Hout & [= <-]).
  pose proof (cleanup_folder_keeps "uploads" Hperm ltac:(by left) _ _ _ Hup)
    as (_ & _ & Hfs1).
  pose proof (cleanup_folder_keeps "outputs" Hperm ltac:(by right; left) _ _ _ Hout)
    as (_ & _ & Hfs2).
  apply elem_of_cons in Hfolder as [->|Hfolder].
  - pose proof (cleanup_folder_removes _ _ _ Hperm Hnofault ltac:(by left) Hup
                  Hdir _ _ _ Hname Hc Hold) as Hnone.
    destruct (Hfs2 p) as [->|[? _]]; done.
  - apply list_elem_of_singleton in Hfolder as ->.
    destruct (Hfs1 p) as [Hsame|[? _]].
    + rewrite <- Hsame in Hc.
      assert (fs w1 !! "outputs" = Some Dir) as Hdir1.
      { destruct (Hfs1 "outputs") as [->|(_ & _ & c' & Hc')]; [done|congruence]. }
      exact (cleanup_folder_removes "outputs" w1 w2 Hperm Hnofault
               ltac:(by right; left) Hout Hdir1 p name c Hname Hc Hold).
    + destruct (Hfs2 p) as [->|[? _]]; done.
Qed.
End Cleanup.

(** ** Where the files of the service lie *)

Lemma prefix_app a r : str_startswith a (a +:+ r) = true.
Proof.
  unfold str_startswith. induction a as [|c a IH]; [by destruct r|].
  rewrite str_app_cons. cbn [String.prefix]. by destruct (ascii_dec c c).
Qed.

Lemma startswith_slash s :
  str_startswith "/" s = bool_decide (head_char s = Some slash).
Proof.
  destruct s as [|c s]; [done|]. unfold str_startswith. cbn [String.prefix head_char].
  destruct (ascii_dec "/" c) as [<-|Hne].
  - by destruct s.
  - rewrite bool_decide_eq_false_2; [done|]. intros [= ->]. done.
Qed.

Lemma posix_parse_relative name :
  head_char name ≠ Some slash → anchor (posix_parse name) = EmptyString.
Proof.
  intros Hrel. unfold posix_parse. cbn [anchor].
  rewrite (startswith_slash name), (bool_decide_eq_false_2 _ Hrel).
  destruct name as [|c s]; [done|]. unfold str_startswith. cbn [String.prefix].
  destruct (ascii_dec "/" c) as [<-|_]; [|done]. by destruct Hrel.
Qed.

Lemma posix_parse_absolute name :
  head_char name = Some slash →
  anchor (posix_parse name) = "/" ∨ anchor (posix_parse name) = "//".
Proof.
  intros Habs. unfold posix_parse. cbn [anchor].
  rewrite (startswith_slash name), (bool_decide_eq_true_2 _ Habs).
  destruct (_ && _); [by right|by left].
Qed.

Lemma ppath_str_head a ps :
  a ≠ EmptyString → head_char (ppath_str (PPath a ps)) = head_char a.
Proof.
  intros Ha. unfold ppath_str. cbn [parts anchor]. destruct ps as [|p ps].
  - by rewrite bool_decide_eq_false_2.
  - by apply head_char_app.
Qed.

Lemma split_slash_head c s :
  c ≠ slash → ∃ x xs, split_slash (String c s) = String c x :: xs.
Proof.
  intros Hc. cbn [split_slash]. rewrite decide_False by done.
  destruct (split_slash s); eauto.
Qed.

Lemma synth_paths_head (E : Externals) name w :
  head_char (synth_path E name w) = Some "o"%char ∧
  head_char (synth_dir E name w) = Some "o"%char.
Proof.
  unfold synth_path, synth_dir, output_path_of.
  set (s := "output_" +:+ _).
  assert (∃ s', s = String "o" s') as [s' ->] by (by eexists).
  destruct (split_slash_head "o" s') as (x & xs & Hsplit); [done|].
  assert (posix_parse (String "o" s')
          = PPath EmptyString (String "o" x :: filter (λ y, is_component y = true) xs))
    as Hparse.
  { unfold posix_parse. f_equal. rewrite Hsplit. by rewrite filter_cons_True. }
  unfold ppath_join. rewrite Hparse. cbn [anchor parts bool_decide].
  rewrite bool_decide_eq_true_2 by done.
  change (parts (posix_parse "outputs")) with ["outputs"].
  change (anchor (posix_parse "outputs")) with EmptyString.
  split.
  - unfold ppath_str. cbn [parts anchor app]. cbv [String.append].
    by rewrite head_concat.
  - unfold ppath_parent, ppath_str. cbn [parts anchor app removelast].
    cbv [String.append]. by rewrite head_concat.
Qed.

(** X23. Where a profile is kept depends on the first character of the
    name.  For a name that does not begin with a slash the directory is
    [voice_embeddings] itself or a path that begins with
    [voice_embeddings/] (as text: [..] is not resolved).  For a name that
    begins with a slash the directory is the path the name spells out,
    outside [voice_embeddings], and so are the reference recording and the
    test sample. *)
Theorem profile_location (name : string) :
  (head_char name ≠ Some slash →
   is_under "voice_embeddings" (voice_dir_of name) = true) ∧
  (head_char name = Some slash →
   voice_dir_of name = ppath_str (posix_parse name) ∧
   head_char (voice_dir_of name) = Some slash ∧
   head_char (reference_of name) = Some slash ∧
   head_char (test_sample_of name) = Some slash ∧
   is_under "voice_embeddings" (voice_dir_of name) = false).
Proof.
  split.
  - intros Hrel%posix_parse_relative. unfold voice_dir_of, ppath_join.
    rewrite Hrel, bool_decide_eq_true_2 by done.
    change (parts voices_dir) with ["voice_embeddings"].
    change (anchor voices_dir) with EmptyString.
    unfold ppath_str. cbn [parts anchor app]. rewrite str_app_nil.
    destruct (parts (posix_parse name)) as [|p ps]; [done|].
    unfold is_under. apply orb_true_iff. right.
    change (dir_prefix "voice_embeddings") with "voice_embeddings/".
    change (String.concat "/" ("voice_embeddings" :: p :: ps))
      with ("voice_embeddings/" +:+ String.concat "/" (p :: ps)).
    apply prefix_app.
  - intros Habs. pose proof (posix_parse_absolute name Habs) as Hanchor.
    assert (anchor (posix_parse name) ≠ EmptyString) as Hne.
    { destruct Hanchor as [-> | ->]; done. }
    assert (head_char (anchor (posix_parse name)) = Some slash) as Hhead.
    { destruct Hanchor as [-> | ->]; done. }
    assert (ppath_join voices_dir name = posix_parse name) as Hjoin.
    { unfold ppath_join. by rewrite bool_decide_eq_false_2. }
    assert (∀ leaf, anchor (posix_parse leaf) = EmptyString →
              head_char (ppath_str (ppath_join (posix_parse name) leaf)) = Some slash)
      as Hleaf.
    { intros leaf Hl. unfold ppath_join. rewrite bool_decide_eq_true_2 by done.
      by rewrite ppath_str_head. }
    unfold voice_dir_of, reference_of, test_sample_of. rewrite Hjoin.
    split_and!; [done| |by apply Hleaf|by apply Hleaf|].
    + destruct (posix_parse name) as [a ps]. by rewrite ppath_str_head.
    + assert (head_char (ppath_str (posix_parse name)) = Some slash) as Hh.
      { destruct (posix_parse name) as [a ps]. by rewrite ppath_str_head. }
      unfold is_under. apply orb_false_iff. split.
      * apply bool_decide_eq_false. intros Heq. by rewrite Heq in Hh.
      * change (dir_prefix "voice_embeddings") with "voice_embeddings/".
        destruct (ppath_str (posix_parse name)) as [|c s]; [done|]. injection Hh as ->.
        done.
Qed.

(** ** What is kept where: invariants of the registry and of the disk *)

Global Instance paths_step_preorder : PreOrder paths_step.
Proof.
  split.
  - intros w H. exact H.
  - intros w1 w2 w3 H12 H23 H. apply H23, H12, H.
Qed.

Lemma same_registry_paths_step w w' : same_registry w w' → paths_step w w'.
Proof. intros (Hv & _) H. by rewrite Hv. Qed.

Lemma replace_dots_follow_d prev s :
  dots_follow_d prev (str_replace_char dot "_processed." s) = true.
Proof.
  revert prev. induction s as [|a s IH]; intros prev; [done|].
  cbn [str_replace_char]. destruct (decide (a = dot)) as [->|Hne].
  - cbv [String.append]. cbn [dots_follow_d].
    rewrite IH. by rewrite !andb_true_r.
  - cbn [dots_follow_d]. rewrite IH, (bool_decide_eq_false_2 _ Hne). done.
Qed.

Lemma replace_not_index s : str_replace_char dot "_processed." s ≠ voice_metadata_file.
Proof.
  intros Heq. pose proof (replace_dots_follow_d "x" s) as H.
  rewrite Heq in H. vm_compute in H. done.
Qed.

Section Keeping.
Context (E : Externals).

Lemma create_keeps_paths path name :
  keeps paths_step (create_voice_embedding E path name).
Proof.
  intros w r w' (_ & _ & [[Hv _]|(prof & Hv & _ & Hr & Ht & _)])%create_voice_embedding_post
    [Hwf Hok]; rewrite Hv; [done|].
  split; [by apply dict_wf_set|].
  intros n p Hg. destruct (decide (name = n)) as [->|Hne].
  - rewrite dict_get_set_eq in Hg. by injection Hg as <-.
  - rewrite dict_get_set_ne in Hg by done. by apply Hok.
Qed.

Lemma delete_keeps_paths name : keeps paths_step (delete_speaker E name).
Proof.
  intros w r w' (_ & _ & [[Hv _]|(Hv & _ & Hk)])%delete_speaker_registry [Hwf Hok];
    rewrite Hv; [done|].
  split; [by apply dict_wf_remove|].
  intros n p Hg. destruct (decide (name = n)) as [->|Hne].
  - by rewrite dict_get_remove_eq in Hg.
  - rewrite dict_get_remove_ne in Hg by done. by apply Hok.
Qed.

Lemma handle_keeps_paths c : keeps paths_step (handle E c).
Proof.
  assert (∀ A (m : M A), keeps same_registry m → keeps paths_step m) as Hweak.
  { intros A m. apply keeps_weaken, same_registry_paths_step. }
  destruct c; cbn [handle].
  - unfold clone_voice, clone_voice_try, clone_voice_finally, has_speaker.
    repeat keeps_step;
      first [apply create_keeps_paths | apply Hweak; keeps_registry].
  - unfold synthesize_speech, has_speaker, list_speakers.
    repeat keeps_step;
      first [apply Hweak; eauto using synthesize_registry; keeps_registry].
  - unfold list_speakers_endpoint, list_speakers.
    repeat keeps_step; apply Hweak; keeps_registry.
  - unfold delete_speaker_endpoint.
    repeat keeps_step;
      first [apply delete_keeps_paths | apply Hweak; keeps_registry].
Qed.

Lemma reachable_paths_by_name w :
  reachable E w → dict_wf (voices w) ∧ paths_by_name (voices w).
Proof.
  induction 1 as [w0 w Hnone Hstart|w c r w' _ IH Hrun].
  - destruct (startup_fresh _ _ _ Hnone Hstart) as [_ Hv]. rewrite Hv.
    split; [apply NoDup_nil_2|done].
  - apply handle_keeps_paths in Hrun. exact (Hrun IH).
Qed.

(** X24. In every state the service can reach from a fresh start, the
    registry holds each name once and every entry points to the two files
    derived from its own name.  So a synthesis that succeeds for a name
    has generated its audio from the recording stored at that name's
    reference path, as it was on disk when the call began. *)
Theorem reachable_profiles_by_name (w : world) :
  reachable E w →
  (∀ name prof, dict_get name (voices w) = Some prof →
     reference_path prof = reference_of name ∧
     test_sample_path prof = test_sample_of name) ∧
  (∀ text name lang speed p w',
     synthesize E text name lang speed w = (Ok p, w') →
     ∃ c wav sr, fs w !! reference_of name = Some (File c) ∧
                 tts_generate E text c lang (Some true) = Ok (wav, sr)).
Proof.
  intros [_ Hpaths]%reachable_paths_by_name. split; [exact Hpaths|].
  intros text name lang speed p w'
    (entry & w0 & w1 & Hentry & Hmk & Htts)%synthesize_ok_inv.
  destruct (Hpaths _ _ Hentry) as [Hr _]. rewrite Hr in Htts.
  apply tts_to_file_ok in Htts as (c & wav & sr & Hc & Hgen & _).
  exists c, wav, sr. split; [|done].
  apply (fs_mkdir_fs E (λ q, q = synth_dir E name w) _ eq_refl) in Hmk.
  rewrite Hmk in Hc; [done|].
  intros Heq. destruct (synth_paths_head E name w) as [_ Hd].
  destruct (profile_paths_head name) as [[Hh|Hh] _]; rewrite Heq, Hd in Hh; done.
Qed.

(** X25. [VoiceCloner.synthesize], whatever its outcome, leaves the
    registry as it is and touches neither the index file nor the
    reference recording or the test sample of any name. *)
Theorem synthesize_spares_profiles (text name lang : string) (speed : Q) (w : world)
    (r : result string) (w' : world) :
  synthesize E text name lang speed w = (r, w') →
  voices w' = voices w ∧
  fs w' !! voice_metadata_file = fs w !! voice_metadata_file ∧
  ∀ other, fs w' !! reference_of other = fs w !! reference_of other ∧
           fs w' !! test_sample_of other = fs w !! test_sample_of other.
Proof.
  intros Hrun. pose proof (synthesize_registry E _ _ _ _ _ _ _ Hrun) as (Hv & _).
  pose proof (synthesize_fs E _ _ _ _ _ _ _ Hrun) as Hfs.
  destruct (synth_paths_head E name w) as [Hp Hd].
  assert (∀ q, (head_char q = Some "v"%char ∨ head_char q = Some slash) →
               fs w' !! q = fs w !! q) as Hkeep.
  { intros q Hq. apply Hfs; intros ->; rewrite ?Hp, ?Hd in Hq; by destruct Hq. }
  split; [done|]. split; [apply Hkeep; by left|].
  intros other. destruct (profile_paths_head other). split; by apply Hkeep.
Qed.

(** X26. [create_voice_embedding] never raises: it returns [True], or
    it returns [False] after logging the error that stopped it. *)
Theorem create_voice_embedding_never_raises (path name : string) (w : world) :
  ∃ b w', create_voice_embedding E path name w = (Ok b, w') ∧
    (b = false →
     ∃ e, last (log w') =
            Some ("ERROR", "Error creating voice embedding for " +:+ name
                           +:+ ": " +:+ exn_str e)).
Proof.
  unfold create_voice_embedding, try_except.
  destruct (create_body E path name w) as [[b|e] w1] eqn:Hbody.
  - exists b, w1. split; [done|]. intros ->. exfalso.
    apply create_body_post in Hbody as (_ & _ & [[_ [e ?]]|(prof & _ & _ & _ & _ & Hr)]);
      [done|]. by destruct Hr as [?|[e ?]].
  - rewrite bind_run, logger_run. eexists _, _. split; [reflexivity|].
    intros _. exists e. cbn. apply last_snoc.
Qed.

(** X27. Deleting a registered speaker whose name leads to the
    registry directory itself (the empty name, a single dot) removes
    that directory with everything in it: afterwards nothing is left
    below [voice_embeddings], neither the recordings of the other
    speakers nor the index file, whose rewriting fails and is logged,
    while the other speakers stay in the registry and the call reports
    success. *)
Theorem delete_registry_root (name : string) (w : world) :
  voice_dir_of name = "voice_embeddings" →
  dict_contains name (voices w) = true →
  fs w !! "voice_embeddings" = Some Dir →
  rmtree_fault E "voice_embeddings" (fs w) = None →
  ∃ w', delete_speaker E name w = (Ok true, w') ∧
        (∀ p, is_under "voice_embeddings" p = true → fs w' !! p = None) ∧
        fs w' !! voice_metadata_file = None ∧
        (∀ other, other ≠ name →
           dict_get other (voices w') = dict_get other (voices w)) ∧
        (∃ e, ("ERROR", "Error saving voice metadata: " +:+ exn_str e) ∈ log w').
Proof.
  intros Hroot Hk Hdir Hfault.
  set (w1 := set_fs (filter (λ kv, is_under "voice_embeddings" kv.1 = false) (fs w)) w).
  assert ((if exists_path (fs w) (voice_dir_of name)
           then fs_rmtree E (voice_dir_of name) else mret tt) w = (Ok tt, w1)) as Hrm.
  { rewrite Hroot. unfold exists_path. rewrite Hdir. unfold fs_rmtree.
    by rewrite Hdir, Hfault. }
  destruct (delete_body_run E name w Hk _ _ Hrm) as (w2 & Hsave & Hbody).
  rewrite (delete_speaker_run E name w Hk _ _ Hbody).
  assert (∀ p, is_under "voice_embeddings" p = true → fs w1 !! p = None) as Hgone.
  { intros p Hp. cbn. apply map_lookup_filter_None_2. right. intros x _. cbn.
    by rewrite Hp. }
  rewrite save_voices_metadata_run in Hsave.
  assert (fs_write E voice_metadata_file
            (Json (voices (set_voices (dict_remove name (voices w)) w1)))
            (set_voices (dict_remove name (voices w)) w1)
          = (Raise (FileNotFoundError voice_metadata_file),
             set_voices (dict_remove name (voices w)) w1)) as Hwrite.
  { unfold fs_write.
    assert (parent_ok (fs (set_voices (dict_remove name (voices w)) w1))
              voice_metadata_file = false) as ->; [|done].
    change (parent_ok ?f voice_metadata_file) with (is_dir f "voice_embeddings").
    unfold is_dir. change (fs (set_voices _ w1)) with (fs w1).
    by rewrite (Hgone "voice_embeddings") by done. }
  rewrite Hwrite in Hsave. injection Hsave as <-.
  eexists. split; [reflexivity|]. cbn. split_and!.
  - exact Hgone.
  - by apply Hgone.
  - intros other Hne. by apply dict_get_remove_ne.
  - exists (FileNotFoundError voice_metadata_file).
    apply elem_of_app. left. apply elem_of_app. right. by constructor.
Qed.
End Keeping.

(** ** The registry on disk *)

Section Persisted.
Context (E : Externals).

Lemma fs_remove_ok p w u w' :
  fs_remove E p w = (Ok u, w') → w' = set_fs (delete p (fs w)) w.
Proof. unfold fs_remove. intros H. repeat case_match; by simplify_eq. Qed.

(** After the index has been saved in state [w]: it holds the registry,
    or the failure has been logged. *)
Lemma save_voices_metadata_saved w w' :
  save_voices_metadata E w = (Ok tt, w') →
  voices w' = voices w ∧
  (fs w' !! voice_metadata_file = Some (File (Json (voices w))) ∨
   ∃ e, ("ERROR", "Error saving voice metadata: " +:+ exn_str e) ∈ log w').
Proof.
  intros Hsave. pose proof (save_voices_metadata_registry E _ _ _ Hsave) as (Hv & _).
  split; [done|]. rewrite save_voices_metadata_run in Hsave.
  destruct (fs_write E voice_metadata_file (Json (voices w)) w) as [[[]|e] w1] eqn:Hw.
  - injection Hsave as <-. apply fs_write_ok in Hw as ->. left. cbn.
    apply lookup_insert_eq.
  - injection Hsave as <-. right. exists e. cbn. apply elem_of_app. right.
    by constructor.
Qed.

(** X28. A create or a delete that reports success has written the
    registry, as it stands at the end of the call, to the index file;
    the one exception is a failed write, and that has been logged as an
    error. *)
Theorem registry_persisted (w w' : world) :
  (∀ path name, create_voice_embedding E path name w = (Ok true, w') →
     fs w' !! voice_metadata_file = Some (File (Json (voices w'))) ∨
     ∃ e, ("ERROR", "Error saving voice metadata: " +:+ exn_str e) ∈ log w') ∧
  (∀ name, delete_speaker E name w = (Ok true, w') →
     fs w' !! voice_metadata_file = Some (File (Json (voices w'))) ∨
     ∃ e, ("ERROR", "Error saving voice metadata: " +:+ exn_str e) ∈ log w').
Proof.
  split.
  - intros path name [H|(e & w1 & _ & H)]%try_except_ok_inv.
    2:{ rewrite bind_run, logger_run in H. discriminate H. }
    unfold create_body in H.
    apply bind_ok_inv in H as (processed & w1 & Hpre & H).
    apply preprocess_audio_result in Hpre as Hproc.
    apply bind_ok_inv in H as ([] & w2 & _ & H).
    apply bind_ok_inv in H as (c & w3 & _ & H).
    apply bind_ok_inv in H as ([wf0 sr0] & w4 & _ & H).
    do 6 (apply bind_ok_inv in H as (? & ? & _ & H)).
    apply bind_ok_inv in H as ([] & w11 & Hsave & H).
    apply bind_ok_inv in H as (ex & w12 & [= <- <-] & H).
    apply bind_ok_inv in H as ([] & w13 & Hrm & H).
    rewrite bind_run, logger_run in H. injection H as <-.
    apply save_voices_metadata_saved in Hsave as (Hv & Hsaved).
    assert (voices w13 = voices w11 ∧ log w13 = log w11 ∧
            fs w13 !! voice_metadata_file = fs w11 !! voice_metadata_file)
      as (Hv13 & Hl13 & Hf13).
    { destruct (bool_decide (processed ≠ path)) eqn:Hdiff; cbn [andb] in Hrm.
      - apply bool_decide_eq_true in Hdiff.
        destruct (exists_path (fs w11) processed).
        + apply fs_remove_ok in Hrm as ->. cbn. split_and!; [done..|].
          apply lookup_delete_ne. destruct Hproc as [->| ->]; [done|].
          apply replace_not_index.
        + by injection Hrm as <-.
      - by injection Hrm as <-. }
    cbn. rewrite Hv13, Hl13, Hf13, Hv.
    destruct Hsaved as [?|[e ?]]; [by left|right]. exists e.
    apply elem_of_app. by left.
  - intros name H.
    destruct (decide (dict_contains name (voices w) = true)) as [Hc|Hc%not_true_is_false].
    2:{ unfold delete_speaker in H. rewrite bind_run in H. cbn [get_world] in H.
        rewrite Hc in H. discriminate H. }
    destruct ((if exists_path (fs w) (voice_dir_of name)
               then fs_rmtree E (voice_dir_of name) else mret tt) w) as [r1 w1] eqn:Hrm.
    pose proof (delete_body_run E name w Hc r1 w1 Hrm) as Hb.
    destruct r1 as [u|e].
    + destruct Hb as (w2 & Hsave & Hb).
      rewrite (delete_speaker_run E name w Hc _ _ Hb) in H. injection H as <-.
      apply save_voices_metadata_saved in Hsave as (Hv & Hsaved). cbn.
      rewrite Hv. destruct Hsaved as [?|[e ?]]; [by left|right]. exists e.
      apply elem_of_app. by left.
    + rewrite (delete_speaker_run E name w Hc _ _ Hb) in H. discriminate H.
Qed.
End Persisted.

(** ** A create that fails after it has registered the speaker *)

Section CreateFailure.
Context (E : Externals).

Lemma post_bind_returns {A B} (R : relation world)
    (Q : world → result B → world → Prop) (P : A → Prop) (m : M A) (f : A → M B) :
  keeps R m → returns P m →
  (∀ w w1 r w', R w w1 → Q w1 r w' → Q w r w') →
  (∀ w e w', R w w' → Q w (Raise e) w') →
  (∀ a, P a → post Q (f a)) →
  post Q (m ≫= f).
Proof.
  intros Hm HP Habs Hfail Hf w r w' H. rewrite bind_run in H.
  destruct (m w) as [[a|e] w1] eqn:Em.
  - eapply Habs; [eapply Hm, Em|]. eapply Hf, H. eapply HP, Em.
  - injection H as <- <-. eapply Hfail, Hm, Em.
Qed.

Lemma create_failure_absorbs path name w w1 r w' :
  same_registry w w1 → create_failure_post E path name w1 r w' →
  create_failure_post E path name w r w'.
Proof.
  intros (Hv & _) H. destruct r as [b|e]; [done|]. cbn in *. by rewrite <- Hv.
Qed.

Lemma create_failure_raise path name w e w' :
  same_registry w w' → create_failure_post E path name w (Raise e) w'.
Proof. intros (Hv & _). by left. Qed.

(** From the drawing of the uuid on. *)
Lemma create_tail_failure name (prof : string → profile) processed path msg :
  processed = path ∨ processed = str_replace_char dot "_processed." path →
  post (create_failure_post E path name)
    (token ← uuid4 E;
     modify (λ w, set_voices (dict_set name (prof token) (voices w)) w);;
     save_voices_metadata E;;
     ex ← fs_exists processed;
     (if bool_decide (processed ≠ path) && ex
      then fs_remove E processed else mret tt);;
     logger "INFO" msg;;
     mret true).
Proof.
  intros Hproc w r w' H.
  rewrite bind_run in H. cbn [uuid4] in H. rewrite bind_run in H. cbn [modify] in H.
  rewrite bind_run in H.
  match type of H with context [save_voices_metadata E ?w0] =>
    destruct (save_voices_metadata_ok E w0) as [w3 Hsave];
    pose proof (save_voices_metadata_registry E _ _ _ Hsave) as (Hv3 & _)
  end.
  rewrite Hsave in H. rewrite bind_run in H. cbn [fs_exists] in H.
  rewrite bind_run in H.
  destruct (bool_decide (processed ≠ path) && exists_path (fs w3) processed) eqn:Hcond.
  - apply andb_true_iff in Hcond as [Hdiff%bool_decide_eq_true _].
    destruct Hproc as [->| ->]; [done|].
    destruct (fs_remove E _ w3) as [[[]|e] w4] eqn:Hrm.
    + rewrite bind_run, logger_run in H. by injection H as <- _.
    + injection H as <- <-. right.
      apply fs_remove_registry in Hrm as Hreg. destruct Hreg as (Hv4 & _).
      eexists _, w3, w4. split; [|done]. rewrite Hv4, Hv3. done.
  - unfold mret, M_ret in H. rewrite bind_run, logger_run in H. by injection H as <- _.
Qed.

Lemma create_body_failure path name :
  post (create_failure_post E path name) (create_body E path name).
Proof.
  unfold create_body.
  eapply (post_bind_returns same_registry _
            (λ p, p = path ∨ p = str_replace_char dot "_processed." path));
    [keeps_registry
    |intros w p w' Hp; by eapply preprocess_audio_result
    |apply create_failure_absorbs|apply create_failure_raise|intros processed Hproc].
  repeat lazymatch goal with
  | |- post _ (let '(_, _) := ?x in _) => destruct x
  | |- post _ (uuid4 _ ≫= _) => fail
  | |- post _ (_ ≫= _) =>
      eapply (post_bind_keeps same_registry);
        [keeps_registry | apply create_failure_absorbs | apply create_failure_raise
        | intros ?]
  end.
  match goal with
  | |- post _ (uuid4 _ ≫= λ token,
                 modify (λ w, set_voices (dict_set _ (@?prof token) _) _) ≫= _) =>
      by apply (create_tail_failure name prof)
  end.
Qed.

(** X29. When [create_voice_embedding] returns [False], either the
    registry is what it was, or the speaker has been registered all the
    same: the entry of the name was set before the failure, and the
    exception that was logged was raised by the removal of the
    preprocessed copy of the upload, the last step of the method that
    can fail. *)
Theorem create_failure_after_registration (path name : string) (w w' : world) :
  create_voice_embedding E path name w = (Ok false, w') →
  ∃ e, last (log w') = Some ("ERROR", "Error creating voice embedding for " +:+ name
                                      +:+ ": " +:+ exn_str e) ∧
       (voices w' = voices w ∨
        ∃ prof wa wb,
          voices w' = dict_set name prof (voices w) ∧
          dict_contains name (voices w') = true ∧
          fs_remove E (str_replace_char dot "_processed." path) wa = (Raise e, wb)).
Proof.
  unfold create_voice_embedding, try_except.
  destruct (create_body E path name w) as [[b|e] w1] eqn:Hbody.
  - intros [= -> <-]. exfalso.
    apply create_body_post in Hbody as (_ & _ & [[_ [e ?]]|(prof & _ & _ & _ & _ & Hr)]);
      [done|]. by destruct Hr as [?|[e ?]].
  - rewrite bind_run, logger_run. intros [= <-]. exists e.
    split; [cbn; apply last_snoc|].
    apply create_body_failure in Hbody as [Hv|(prof & wa & wb & Hv & Hrm)]; cbn.
    + by left.
    + right. exists prof, wa, wb. split_and!; [done| |done].
      apply dict_contains_get. rewrite Hv, dict_get_set_eq. eauto.
Qed.
End CreateFailure.

(** ** A clone-voice request that succeeds *)

Section CloneSuccess.
Context (E : Externals).

(** X30. A clone-voice request that succeeds has passed the checks
    (the service is started, the upload declares an audio type, the name
    is new or overwrite was asked for) and answers with the success
    message for the name.  The name is then registered, at its old place
    if it was registered before and last otherwise, with a fresh profile
    whose duration is that of the waveform stored as its reference
    recording; all other entries are as they were. *)
Theorem clone_voice_success (upload : UploadFile) (name : string) (overwrite : bool)
    (w : world) (resp : response) (w' : world) :
  clone_voice E upload name overwrite w = (Ok resp, w') →
  resp = CloneResponse ("Voice '" +:+ name +:+ "' cloned successfully") name "success" ∧
  started w = true ∧ is_audio_type (content_type upload) = true ∧
  (dict_contains name (voices w) = true → overwrite = true) ∧
  has_speaker name w' = (Ok true, w') ∧
  (∀ other, other ≠ name → dict_get other (voices w') = dict_get other (voices w)) ∧
  ∃ prof waveform,
    voices w' = dict_set name prof (voices w) ∧
    fresh_profile (uuid4_hex E) (uuid_ctr w) (uuid_ctr w') prof ∧
    reference_path prof = reference_of name ∧
    test_sample_path prof = test_sample_of name ∧
    audio_duration prof = Qmake (n_frames waveform) 22050 ∧
    fs w' !! reference_of name = Some (File (Audio waveform 22050)).
Proof.
  intros H. unfold clone_voice in H. rewrite bind_run in H. cbn [get_world] in H.
  destruct (started w) eqn:Hs; cbn [negb] in H; [|discriminate H].
  destruct (is_audio_type (content_type upload)) eqn:Ha; cbn [negb] in H;
    [|discriminate H].
  rewrite bind_run, has_speaker_run in H.
  destruct (dict_contains name (voices w) && negb overwrite) eqn:Hk; [discriminate H|].
  destruct (max_size <? _) in H; [discriminate H|].
  apply bind_ok_inv in H as (hex & w1 & [= <- <-] & H).
  apply bind_ok_inv in H as (ext & ? & [_ ->]%lift_ok_inv & H).
  set (rest := uuid_str (uuid4_hex E (uuid_ctr w)) +:+ "_" +:+ name +:+ ext) in H.
  change ("uploads/" +:+ rest) with (String.append "uploads/" rest) in H.
  set (file_path := String.append "uploads/" rest) in H.
  destruct (upload_not_profile_path rest name) as (Hfr & Hft & Hpr & Hpt).
  fold file_path in Hfr, Hft, Hpr, Hpt.
  unfold try_finally in H.
  destruct (clone_voice_try E file_path name (file_bytes upload) (bump_uuid w))
    as [r w2] eqn:Htry.
  destruct (clone_voice_finally_run E file_path w2)
    as (w3 & Hfin & Hv3 & _ & _ & Hout & _).
  rewrite Hfin in H. injection H as -> ->.
  assert (same_registry w2 w') as (_ & _ & Hc3).
  { revert Hfin. generalize w2 (@Ok unit ()) w'.
    change (keeps same_registry (clone_voice_finally E file_path)).
    unfold clone_voice_finally. keeps_registry. }
  unfold clone_voice_try in Htry.
  apply try_except_ok_inv in Htry as [Htry|(e & w4 & _ & Htry)].
  2:{ rewrite bind_run, logger_run in Htry. discriminate Htry. }
  apply bind_ok_inv in Htry as ([] & w4 & Hup & Htry).
  apply fs_write_registry in Hup as (Hv4 & _ & Hc4).
  apply bind_ok_inv in Htry as ([] & w5 & [= <-] & Htry).
  apply bind_ok_inv in Htry as (success & w6 & Hcreate & Htry).
  destruct success; [|discriminate Htry].
  rewrite bind_run, logger_run in Htry. injection Htry as <- <-.
  destruct (create_ok_files _ _ _ _ _ Hpr Hpt Hcreate)
    as (prof & waveform & wav & sr & Hg & Hdur & Hfr' & Hgen & Hft').
  apply create_voice_embedding_post in Hcreate
    as (_ & Hc6 & [[_ ?]|(prof' & Hv6 & Hfresh & Hrp & Htp & _)]); [done|].
  assert (prof' = prof) as ->.
  { rewrite Hv6, dict_get_set_eq in Hg. by injection Hg. }
  cbn in *.
  assert (voices w' = dict_set name prof (voices w)) as Hvw by congruence.
  split_and!; try done.
  - intros Hc. rewrite Hc in Hk. by destruct overwrite.
  - rewrite has_speaker_run. do 2 f_equal. apply dict_contains_get.
    rewrite Hvw, dict_get_set_eq. eauto.
  - intros other Hne. rewrite Hvw. by apply dict_get_set_ne.
  - exists prof, waveform. split_and!; try done.
    + eapply fresh_profile_mono; [..|exact Hfresh]; cbn in *; lia.
    + rewrite Hout by congruence. done.
Qed.
End CloneSuccess.

(** ** The further properties on the concrete instances *)

Example round_ties_to_even :
  py_round2 (1 # 8) = (12 # 100)%Q ∧ py_round2 (3 # 8) = (38 # 100)%Q ∧
  py_round2 (inject_Z 150000 / inject_Z (1024 * 1024)) = (14 # 100)%Q.
Proof. by vm_compute. Qed.

Example os_path_join_cases :
  os_path_join "uploads" "a.wav" = "uploads/a.wav" ∧
  os_path_join "uploads/" "a.wav" = "uploads/a.wav" ∧
  os_path_join "uploads" "/tmp/a.wav" = "/tmp/a.wav" ∧
  os_path_join EmptyString "a.wav" = "a.wav".
Proof. by vm_compute. Qed.

Example listdir_lists_direct_entries :
  ∃ files,
    (os_listdir Scenario.in_order "outputs" Scenario.cluttered).1 = Ok files ∧
    files ≡ₚ ["old.wav"; "new.wav"; "keep"].
Proof. eexists. split; [vm_compute; reflexivity|]. by vm_compute; do 3 constructor. Qed.



Lemma startup_model_failure_witness :
  ∃ w', startup_event Scenario.libs_no_model Demo.fresh
          = (Raise (PyExc "RuntimeError" "CUDA out of memory"), w') ∧
        started w' = false ∧ voices w' = [] ∧ fs w' = ∅ ∧
        last (log w') = Some ("ERROR", "Failed to load XTTS model: CUDA out of memory").
Proof.
  apply (startup_model_failure Scenario.libs_no_model Demo.fresh). reflexivity.
Defined.

Lemma create_touches_one_entry_witness :
  let w' := (create_voice_embedding Demo.libs "uploads/me.wav" "bob"
               Scenario.with_upload).2 in
  (∀ other, other ≠ "bob" →
     dict_get other (voices w') = dict_get other (voices Scenario.with_upload)) ∧
  (dict_keys (voices w') = dict_keys (voices Scenario.with_upload) ∨
   (dict_contains "bob" (voices Scenario.with_upload) = false ∧
    dict_keys (voices w') = dict_keys (voices Scenario.with_upload) ++ ["bob"])).
Proof.
  cbv zeta. eapply create_touches_one_entry. apply surjective_pairing.
Defined.

Lemma delete_touches_one_entry_witness :
  let w' := (delete_speaker Demo.libs "alice" Scenario.with_dot).2 in
  (∀ other, other ≠ "alice" →
     dict_get other (voices w') = dict_get other (voices Scenario.with_dot)) ∧
  dict_keys (voices w') `sublist_of` dict_keys (voices Scenario.with_dot).
Proof.
  cbv zeta. eapply delete_touches_one_entry. apply surjective_pairing.
Defined.

Lemma create_then_delete_witness :
  let w1 := (create_voice_embedding Demo.libs "uploads/me.wav" "alice" Demo.uploaded).2 in
  let w2 := (delete_speaker Demo.libs "alice" w1).2 in
  voices w2 = voices Demo.uploaded.
Proof.
  cbv zeta.
  refine (proj2 (create_then_delete Demo.libs "uploads/me.wav" "alice" Demo.uploaded
                   _ _ _ _) eq_refl).
  - apply run_outcome. vm_compute. reflexivity.
  - apply run_outcome. vm_compute. reflexivity.
Defined.

Lemma delete_endpoint_outcomes_witness :
  ∃ w', delete_speaker_endpoint Demo.libs_rmtree_fails "alice" Demo.with_alice =
          (Raise (HTTPException 404 "Speaker 'alice' not found"), w') ∧
        has_speaker "alice" w' = (Ok true, w').
Proof.
  destruct (delete_endpoint_outcomes Demo.libs_rmtree_fails "alice" Demo.with_alice eq_refl)
    as (_ & _ & H).
  apply (H (PyExc "PermissionError" "Permission denied")
           (fs_rmtree Demo.libs_rmtree_fails "voice_embeddings/alice" Demo.with_alice).2).
  - reflexivity.
  - reflexivity.
  - apply run_outcome. vm_compute. reflexivity.
Defined.

Lemma service_availability_witness :
  handle Demo.libs GetSpeakers Demo.fresh = (Raise not_initialized, Demo.fresh) ∧
  handle Demo.libs GetSpeakers Demo.with_alice
    = (Ok (SpeakersResponse ["alice"] 1), Demo.with_alice).
Proof.
  split.
  - apply (service_availability Demo.libs GetSpeakers Demo.fresh Demo.fresh).
    reflexivity.
  - destruct (service_availability Demo.libs GetSpeakers Demo.with_alice
                Demo.with_alice) as [_ H].
    destruct (H eq_refl (served_none _ _)) as [_ H'].
    destruct (H' _ _ (surjective_pairing _)) as (_ & _ & Hlist).
    destruct (Hlist eq_refl) as [Hr Hw].
    rewrite (surjective_pairing (handle Demo.libs GetSpeakers Demo.with_alice)).
    by rewrite Hr, Hw.
Defined.

Lemma clone_voice_errors_witness :
  ∃ e w', clone_voice Demo.libs Demo.text_upload "alice" false Demo.with_alice
            = (Raise e, w') ∧
          w' = Demo.with_alice ∧ is_audio_type (content_type Demo.text_upload) = false.
Proof.
  eexists _, _. split; [vm_compute; reflexivity|].
  destruct (clone_voice_errors Demo.libs Demo.text_upload "alice" false Demo.with_alice
              (HTTPException 400 "File must be audio format (WAV, MP3, FLAC)")
              Demo.with_alice eq_refl)
    as [[Hw _]|[(Hf & _)|(_ & e0 & He & _)]].
  - split; [exact Hw|reflexivity].
  - discriminate Hf.
  - discriminate He.
Defined.

Lemma clone_voice_wraps_its_own_error_witness :
  (clone_voice_try Scenario.libs_no_decoder "uploads/x.wav" "alice" "RIFF" Demo.booted).1 =
    Raise (HTTPException 500 "Voice cloning failed: 500: Voice cloning failed").
Proof.
  set (w1 := (fs_write Scenario.libs_no_decoder "uploads/x.wav" (Bytes "RIFF")
                Demo.booted).2).
  set (w2 := (create_voice_embedding Scenario.libs_no_decoder "uploads/x.wav" "alice"
                (add_log ("INFO", "Processing voice cloning for speaker: alice") w1)).2).
  rewrite (clone_voice_wraps_its_own_error Scenario.libs_no_decoder
             "uploads/x.wav" "alice" "RIFF" Demo.booted w1 w2).
  - reflexivity.
  - apply run_outcome. vm_compute. reflexivity.
  - apply run_outcome. vm_compute. reflexivity.
Defined.

Lemma clone_voice_removes_upload_witness :
  let w' := (clone_voice Demo.libs Demo.upload "alice" false Demo.booted).2 in
  let file_path := upload_path Demo.libs "alice" (upload_ext "me.wav") Demo.booted in
  fs w' !! file_path = None.
Proof.
  cbv zeta.
  destruct (clone_voice_removes_upload Demo.libs Demo.upload "alice" "me.wav" false
              Demo.booted _ _ eq_refl eq_refl eq_refl
              ltac:(vm_compute; discriminate) eq_refl (surjective_pairing _))
    as [Hgone|[[Hdir _]|(c & e & _ & Hfault & _)]].
  - exact Hgone.
  - vm_compute in Hdir. discriminate Hdir.
  - vm_compute in Hfault. discriminate Hfault.
Defined.

Lemma synthesize_speech_outcomes_witness :
  let w' := (synthesize_speech Demo.libs "Hello world" "alice" "en" 1 Demo.with_alice).2 in
  voices w' = voices Demo.with_alice ∧
  fs w' !! "voice_embeddings/alice/reference.wav"
    = fs Demo.with_alice !! "voice_embeddings/alice/reference.wav".
Proof.
  cbv zeta.
  destruct (synthesize_speech_outcomes Demo.libs "Hello world" "alice" "en" 1
              Demo.with_alice _ _ (surjective_pairing _)) as (Hv & _ & Hfs & _).
  split; [exact Hv|]. apply Hfs; vm_compute; discriminate.
Defined.

Lemma synthesize_speech_blank_text_witness :
  synthesize_speech Demo.libs Scenario.blank_text "alice" "en" 1 Demo.with_alice
    = (Raise (HTTPException 400 "Text cannot be empty"), Demo.with_alice).
Proof.
  apply (synthesize_speech_blank_text Demo.libs Scenario.blank_text "alice" "en" 1
           Demo.with_alice eq_refl eq_refl).
  vm_compute. reflexivity.
Defined.

Lemma info_endpoint_outcomes_witness :
  let x := get_speaker_info_endpoint Scenario.size "alice" Demo.with_alice in
  x.2 = Demo.with_alice ∧
  x.1 = Ok (InfoResponse "alice"
              (Some {| info_entry := Demo.alice_profile;
                       file_size_mb := Some (14 # 100)%Q |}) "success").
Proof.
  cbv zeta.
  destruct (info_endpoint_outcomes Scenario.size "alice" Demo.with_alice _ _
              (surjective_pairing _)) as [Hw _].
  split; [exact Hw|]. vm_compute. reflexivity.
Defined.

Lemma cleanup_removes_only_old_files_witness :
  let w' := (cleanup_old_files Demo.libs Scenario.ctime Scenario.in_order Scenario.now
               Scenario.cluttered).2 in
  voices w' = voices Scenario.cluttered ∧ started w' = started Scenario.cluttered ∧
  ∀ p, fs w' !! p = fs Scenario.cluttered !! p ∨
       (fs w' !! p = None ∧
        (∃ c, fs Scenario.cluttered !! p = Some (File c)) ∧
        (∃ name, entry_name "uploads" p = Some name ∨
                 entry_name "outputs" p = Some name) ∧
        (3600 < Scenario.now - Scenario.ctime p)%Q).
Proof.
  cbv zeta.
  eapply (cleanup_removes_only_old_files Demo.libs Scenario.ctime Scenario.in_order
            Scenario.now).
  - intros l. reflexivity.
  - apply surjective_pairing.
Defined.


Lemma cleanup_old_files_result_witness :
  cleanup_old_files Demo.libs Scenario.ctime Scenario.in_order Scenario.now
    Scenario.uploads_is_file
  = (Raise (NotADirectoryError "uploads"), Scenario.uploads_is_file).
Proof.
  destruct (cleanup_old_files_result Demo.libs Scenario.ctime Scenario.in_order
              Scenario.now Scenario.uploads_is_file) as (_ & H & _).
  apply (H (Bytes "x")). reflexivity.
Defined.

Lemma cleanup_removes_every_old_file_witness :
  let w' := (cleanup_old_files Demo.libs Scenario.ctime Scenario.in_order Scenario.now
               Scenario.cluttered).2 in
  fs w' !! "uploads/old.wav" = None ∧ fs w' !! "outputs/old.wav" = None.
Proof.
  cbv zeta.
  assert (cleanup_old_files Demo.libs Scenario.ctime Scenario.in_order Scenario.now
            Scenario.cluttered
          = (Ok tt, (cleanup_old_files Demo.libs Scenario.ctime Scenario.in_order
                       Scenario.now Scenario.cluttered).2)) as Hrun.
  { apply run_outcome. vm_compute. reflexivity. }
  pose proof (cleanup_removes_every_old_file Demo.libs Scenario.ctime Scenario.in_order
                Scenario.now Scenario.cluttered _ (λ l, reflexivity _)
                (λ _ _, eq_refl) Hrun) as H.
  split.
  - apply (H "uploads" "uploads/old.wav" "old.wav" (Bytes "RIFF"));
      [by left|reflexivity|reflexivity|reflexivity|reflexivity].
  - apply (H "outputs" "outputs/old.wav" "old.wav" (Bytes "RIFF"));
      [by right; left|reflexivity|reflexivity|reflexivity|reflexivity].
Defined.

Example cleanup_keeps_the_rest :
  let w' := (cleanup_old_files Demo.libs Scenario.ctime Scenario.in_order Scenario.now
               Scenario.cluttered).2 in
  fs w' !! "outputs/new.wav" = Some (File (Bytes "RIFF")) ∧
  fs w' !! "outputs/keep" = Some Dir ∧
  fs w' !! "outputs/keep/old.wav" = Some (File (Bytes "RIFF")) ∧
  log w' = [("INFO", "Cleaned up old file: uploads/old.wav");
            ("INFO", "Cleaned up old file: outputs/old.wav")].
Proof. by vm_compute. Qed.

Lemma profile_location_witness :
  voice_dir_of "/srv/voices/x" = "/srv/voices/x" ∧
  is_under "voice_embeddings" (voice_dir_of "/srv/voices/x") = false ∧
  is_under "voice_embeddings" (voice_dir_of "a/b") = true.
Proof.
  destruct (profile_location "/srv/voices/x") as [_ Habs].
  destruct (Habs eq_refl) as (H1 & _ & _ & _ & H5).
  destruct (profile_location "a/b") as [Hrel _].
  split; [exact H1|]. split; [exact H5|]. apply Hrel. discriminate.
Defined.

Lemma reachable_profiles_by_name_witness :
  let w := (handle Demo.libs (PostCloneVoice Demo.upload "alice" false) Demo.booted).2 in
  dict_get "alice" (voices w) = Some Demo.cloned_profile ∧
  reference_path Demo.cloned_profile = reference_of "alice" ∧
  test_sample_path Demo.cloned_profile = test_sample_of "alice".
Proof.
  cbv zeta.
  assert (reachable Demo.libs
            (handle Demo.libs (PostCloneVoice Demo.upload "alice" false) Demo.booted).2)
    as Hreach.
  { eapply reach_request.
    - apply (reach_startup Demo.libs Demo.fresh Demo.booted); [reflexivity|].
      vm_compute. reflexivity.
    - apply surjective_pairing. }
  assert (dict_get "alice"
            (voices (handle Demo.libs (PostCloneVoice Demo.upload "alice" false)
                       Demo.booted).2) = Some Demo.cloned_profile) as Hget.
  { vm_compute. reflexivity. }
  split; [exact Hget|].
  exact (proj1 (reachable_profiles_by_name Demo.libs _ Hreach) "alice" _ Hget).
Defined.

Lemma synthesize_spares_profiles_witness :
  let w' := (synthesize Demo.libs "Hello world" "alice" "en" (2 # 1) Demo.with_alice).2 in
  voices w' = voices Demo.with_alice ∧
  fs w' !! voice_metadata_file = fs Demo.with_alice !! voice_metadata_file ∧
  ∀ other, fs w' !! reference_of other = fs Demo.with_alice !! reference_of other ∧
           fs w' !! test_sample_of other = fs Demo.with_alice !! test_sample_of other.
Proof.
  cbv zeta. eapply synthesize_spares_profiles. apply surjective_pairing.
Defined.

Lemma delete_registry_root_witness :
  ∃ w', delete_speaker Demo.libs "." Scenario.with_dot = (Ok true, w') ∧
        (∀ p, is_under "voice_embeddings" p = true → fs w' !! p = None) ∧
        fs w' !! voice_metadata_file = None ∧
        (∀ other, other ≠ "." →
           dict_get other (voices w') = dict_get other (voices Scenario.with_dot)) ∧
        (∃ e, ("ERROR", "Error saving voice metadata: " +:+ exn_str e) ∈ log w').
Proof.
  apply (delete_registry_root Demo.libs "." Scenario.with_dot); reflexivity.
Defined.

Example root_delete_orphans_alice :
  let w' := (delete_speaker Demo.libs "." Scenario.with_dot).2 in
  dict_keys (voices w') = ["alice"] ∧
  fs w' !! "voice_embeddings/alice/reference.wav" = None ∧
  fs w' !! "uploads" = Some Dir.
Proof. by vm_compute. Qed.

Lemma registry_persisted_witness :
  let w' := (delete_speaker Demo.libs "alice" Demo.with_alice).2 in
  fs w' !! voice_metadata_file = Some (File (Json (voices w'))) ∨
  ∃ e, ("ERROR", "Error saving voice metadata: " +:+ exn_str e) ∈ log w'.
Proof.
  cbv zeta.
  refine (proj2 (registry_persisted Demo.libs Demo.with_alice _) "alice" _).
  apply run_outcome. vm_compute. reflexivity.
Defined.

Lemma clone_voice_success_witness :
  let x := clone_voice Demo.libs Demo.upload "bob" false Demo.with_alice in
  x.1 = Ok (CloneResponse "Voice 'bob' cloned successfully" "bob" "success") ∧
  has_speaker "bob" x.2 = (Ok true, x.2) ∧
  dict_get "alice" (voices x.2) = Some Demo.alice_profile.
Proof.
  cbv zeta.
  assert (clone_voice Demo.libs Demo.upload "bob" false Demo.with_alice
          = (Ok (CloneResponse "Voice 'bob' cloned successfully" "bob" "success"),
             (clone_voice Demo.libs Demo.upload "bob" false Demo.with_alice).2)) as Hrun.
  { apply run_outcome. vm_compute. reflexivity. }
  destruct (clone_voice_success _ _ _ _ _ _ _ Hrun)
    as (_ & _ & _ & _ & Hhas & Hother & _).
  split; [exact (f_equal fst Hrun)|]. split; [exact Hhas|].
  rewrite Hother; [reflexivity|discriminate].
Defined.

Lemma create_failure_after_registration_witness :
  let w' := (create_voice_embedding Scenario.libs_no_remove "uploads/me.wav" "alice"
               Demo.uploaded).2 in
  ∃ e, last (log w') = Some ("ERROR", "Error creating voice embedding for " +:+ "alice"
                                      +:+ ": " +:+ exn_str e) ∧
       (voices w' = voices Demo.uploaded ∨
        ∃ prof wa wb,
          voices w' = dict_set "alice" prof (voices Demo.uploaded) ∧
          dict_contains "alice" (voices w') = true ∧
          fs_remove Scenario.libs_no_remove
            (str_replace_char dot "_processed." "uploads/me.wav") wa = (Raise e, wb)).
Proof.
  cbv zeta.
  apply (create_failure_after_registration Scenario.libs_no_remove "uploads/me.wav"
           "alice" Demo.uploaded).
  apply run_outcome. vm_compute. reflexivity.
Defined.

Example failed_create_registers_alice :
  let x := create_voice_embedding Scenario.libs_no_remove "uploads/me.wav" "alice"
             Demo.uploaded in
  x.1 = Ok false ∧ dict_keys (voices x.2) = ["alice"] ∧
  last (log x.2) = Some ("ERROR", "Error creating voice embedding for alice: Permission denied").
Proof. by vm_compute. Qed.
